(** * SDS-project: tiering, capacity management and retrieval admission

    A shallow embedding of the three scripts of the repository

    - [sds_data_classification.py]        (usage evaluator, tier classifier),
    - [sds_scalability_test.py]           (storage resource manager),
    - [sds_retrieval_performance_test.py] (retrieval admission control),

    together with the properties their specification states about them.

    Conventions of the embedding.

    - Python [int] is [Z].  Python numbers that may be [float] (sizes,
      capacities, usage, latencies, Unix timestamps) are exact rationals
      [Q] where a property does not depend on rounding (invariants,
      frames, counters, bounds that hold with a margin): the literals
      [0.8], [0.5], [0.010] ... are then the fractions they denote, and
      equality is [Qeq] ([==]).
    - The storage resource manager is given a second time on binary64
      doubles ([Scalability64], primitive floats), with the products and
      sums rounded as CPython rounds them.  Whether a call scales and
      which capacity it stores are stated on that model.
    - A naive [datetime] is its number of microseconds since an arbitrary
      epoch, a [Z]; [timedelta.days] is then a floor division.
    - [datetime.datetime.now()] and [time.time()] are read from an explicit
      [now] argument; the random jitter and the fate of the awaited sleep
      are arguments of the retrieval.
    - A dict is a [gmap]; indexing a missing key raises [KeyError].
    - [print] appends to an explicit output log.
    - A method that mutates [self] or raises is a computation
      [S -> outcome A * S]: mutations made before a [raise] persist.
    - Where a function reads the clock or the random generator several
      times ([process_artifacts], the generators, the two testers), the
      readings are streams [nat -> _] given as arguments and the state
      counts the values consumed, so that the results hold for every
      clock and every random sequence. *)

From Stdlib Require Import ZArith QArith Lqa Lia.
From Stdlib Require Import Floats.PrimFloat Floats.SpecFloat Floats.FloatOps.
From stdpp Require Import base decidable countable gmap strings list pretty.

Open Scope Z_scope.

(** ** Enumerations shared by the three scripts *)

Module UsageFrequency.
Inductive t := HIGH | MEDIUM | LOW.
End UsageFrequency.

Module ArtifactType.
Inductive t := PHOTOGRAPH | DOCUMENT | VIDEO.
End ArtifactType.

Module Importance.
Inductive t := CRITICAL | STANDARD | LOW.
End Importance.

Module StorageTier.
Inductive t := HOT | WARM | COLD.
End StorageTier.

#[global] Instance UsageFrequency_eq_dec : EqDecision UsageFrequency.t.
Proof. solve_decision. Defined.
#[global] Instance ArtifactType_eq_dec : EqDecision ArtifactType.t.
Proof. solve_decision. Defined.
#[global] Instance Importance_eq_dec : EqDecision Importance.t.
Proof. solve_decision. Defined.
#[global] Instance StorageTier_eq_dec : EqDecision StorageTier.t.
Proof. solve_decision. Defined.

#[global] Instance ArtifactType_countable : Countable ArtifactType.t.
Proof.
  refine (inj_countable'
            (fun ty => match ty with
                       | ArtifactType.PHOTOGRAPH => 0%nat
                       | ArtifactType.DOCUMENT => 1%nat
                       | ArtifactType.VIDEO => 2%nat
                       end)
            (fun n => match n with
                      | 0%nat => ArtifactType.PHOTOGRAPH
                      | 1%nat => ArtifactType.DOCUMENT
                      | _ => ArtifactType.VIDEO
                      end) _).
  intros []; reflexivity.
Defined.

#[global] Instance StorageTier_countable : Countable StorageTier.t.
Proof.
  refine (inj_countable'
            (fun tier => match tier with
                         | StorageTier.HOT => 0%nat
                         | StorageTier.WARM => 1%nat
                         | StorageTier.COLD => 2%nat
                         end)
            (fun n => match n with
                      | 0%nat => StorageTier.HOT
                      | 1%nat => StorageTier.WARM
                      | _ => StorageTier.COLD
                      end) _).
  intros []; reflexivity.
Defined.

(** ** Exceptions, call outcomes and stateful computations *)

Inductive exn :=
| RuntimeError (msg : string)
| KeyError
| CancelledError.

Inductive outcome (A : Type) :=
| Returned (v : A)
| Raised (e : exn).
Arguments Returned {A} v.
Arguments Raised {A} e.

Definition M (S A : Type) : Type := S -> outcome A * S.

Definition ret {S A} (v : A) : M S A := fun s => (Returned v, s).

Definition raise {S A} (e : exn) : M S A := fun s => (Raised e, s).

Definition bind {S A B} (m : M S A) (k : A -> M S B) : M S B :=
  fun s =>
    match m s with
    | (Returned v, s') => k v s'
    | (Raised e, s') => (Raised e, s')
    end.

Definition gets {S A} (f : S -> A) : M S A := fun s => (Returned (f s), s).

Definition modify {S} (f : S -> S) : M S unit := fun s => (Returned tt, f s).

(** [try: body finally: fin]: [fin] runs on both exits of [body]; an
    exception of [fin] replaces the outcome of [body]. *)
Definition try_finally {S A} (body : M S A) (fin : M S unit) : M S A :=
  fun s =>
    let (r, s1) := body s in
    match fin s1 with
    | (Returned _, s2) => (r, s2)
    | (Raised e, s2) => (Raised e, s2)
    end.

(** [d[k]] on a dict. *)
Definition getitem {S K V} `{Countable K} (d : gmap K V) (k : K) : M S V :=
  match d !! k with
  | Some v => ret v
  | None => raise KeyError
  end.

Declare Scope py_scope.
Delimit Scope py_scope with py.
Notation "x <- m ;; k" := (bind m (fun x => k))
  (at level 100, m at next level, right associativity) : py_scope.
Notation "m ;;; k" := (bind m (fun _ => k))
  (at level 100, right associativity) : py_scope.

(** Strict comparison of two numbers, [x > y]. *)
Definition Qgt_bool (x y : Q) : bool := negb (Qle_bool x y).

(** ** sds_data_classification.py *)

Module Classification.

(** One day, in microseconds ([timedelta] resolution). *)
Definition day_us : Z := 86400 * 1000000.

(** [timedelta(days=d, hours=h)] as a number of microseconds. *)
Definition timedelta (days hours : Z) : Z :=
  days * day_us + hours * (3600 * 1000000).

Record Artifact := {
  id : string;
  name : string;
  type : ArtifactType.t;
  access_count : Z;
  last_accessed : Z;
  importance : Importance.t
}.

(** [(now - last_accessed).days]: a normalised timedelta has
    [0 <= seconds < 86400], so [days] is the floor of the quotient. *)
Definition days_since_access (a : Artifact) (now : Z) : Z :=
  (now - last_accessed a) / day_us.

Definition get_usage_frequency (a : Artifact) (now : Z) : UsageFrequency.t :=
  if 30 <? days_since_access a now then UsageFrequency.LOW
  else
    let accesses_per_month := access_count a in
    if 10 <? accesses_per_month then UsageFrequency.HIGH
    else if 1 <=? accesses_per_month then UsageFrequency.MEDIUM
    else UsageFrequency.LOW.

(** The decision of [classify_and_assign] once [usage] is known. *)
Definition classify (imp : Importance.t) (usage : UsageFrequency.t)
  : StorageTier.t :=
  if bool_decide (imp = Importance.CRITICAL)
     || bool_decide (usage = UsageFrequency.HIGH)
  then StorageTier.HOT
  else if bool_decide (usage = UsageFrequency.MEDIUM)
          || bool_decide (imp = Importance.STANDARD)
  then StorageTier.WARM
  else StorageTier.COLD.

Definition classify_and_assign (a : Artifact) (now : Z) : StorageTier.t :=
  let usage := get_usage_frequency a now in
  classify (importance a) usage.

(** What a caller of [get_usage_frequency] observes: the body has no
    [raise] and validates nothing, so the call returns its value. *)
Definition evaluate (a : Artifact) (now : Z) : outcome UsageFrequency.t :=
  Returned (get_usage_frequency a now).

(** The three sample artifacts of [main], for a clock reading [now]. *)
Definition A001 (now : Z) : Artifact :=
  {| id := "A001"; name := "Rare_Manuscript.jpg";
     type := ArtifactType.PHOTOGRAPH;
     access_count := 15; last_accessed := now - timedelta 5 0;
     importance := Importance.CRITICAL |}.
Definition A002 (now : Z) : Artifact :=
  {| id := "A002"; name := "Meeting_Notes.pdf";
     type := ArtifactType.DOCUMENT;
     access_count := 3; last_accessed := now - timedelta 10 0;
     importance := Importance.STANDARD |}.
Definition A003 (now : Z) : Artifact :=
  {| id := "A003"; name := "Old_Video.mp4";
     type := ArtifactType.VIDEO;
     access_count := 0; last_accessed := now - timedelta 60 0;
     importance := Importance.LOW |}.

(** An artifact accessed 15 times, last 30 days and 12 hours before
    [now], and one with a negative access count, last accessed the day
    before [now]. *)
Definition stale_busy (now : Z) : Artifact :=
  {| id := "A004"; name := "Ledger.pdf";
     type := ArtifactType.DOCUMENT;
     access_count := 15; last_accessed := now - timedelta 30 12;
     importance := Importance.LOW |}.
Definition miscounted (now : Z) : Artifact :=
  {| id := "A005"; name := "Sketch.jpg";
     type := ArtifactType.PHOTOGRAPH;
     access_count := -1; last_accessed := now - timedelta 1 0;
     importance := Importance.LOW |}.

End Classification.

(** ** sds_scalability_test.py

    Its [Artifact] and [SDSClassifier] are those of
    [sds_data_classification.py], line for line.  The manager is given
    here on exact rationals, for the invariants, frames and bounds that
    rounding does not touch; [Scalability64] below gives it on the
    doubles of the interpreter. *)

Module Scalability.
Import Classification.
Local Open Scope Q_scope.
Local Open Scope py_scope.

Record StorageResourceManager := {
  capacities : gmap StorageTier.t Q;
  usage : gmap StorageTier.t Q;
  artifact_sizes : gmap ArtifactType.t Q
}.

(** [StorageResourceManager.__init__] *)
Definition init : StorageResourceManager :=
  {| capacities := {[ StorageTier.HOT := 100; StorageTier.WARM := 500;
                      StorageTier.COLD := 1000 ]};
     usage := {[ StorageTier.HOT := 0; StorageTier.WARM := 0;
                 StorageTier.COLD := 0 ]};
     artifact_sizes := {[ ArtifactType.PHOTOGRAPH := 1;
                          ArtifactType.DOCUMENT := 0.5;
                          ArtifactType.VIDEO := 5 ]} |}.

(** A line written by [print]: "Scaled <tier> capacity to <c> units". *)
Inductive line := Scaled (tier : StorageTier.t) (capacity : Q).

(** The manager object and the standard output. *)
Record world := {
  self : StorageResourceManager;
  stdout : list line
}.

Definition set_capacity (tier : StorageTier.t) (v : Q) : M world unit :=
  modify (fun w =>
    {| self := {| capacities := <[tier := v]> (capacities (self w));
                  usage := usage (self w);
                  artifact_sizes := artifact_sizes (self w) |};
       stdout := stdout w |}).

Definition set_usage (tier : StorageTier.t) (v : Q) : M world unit :=
  modify (fun w =>
    {| self := {| capacities := capacities (self w);
                  usage := <[tier := v]> (usage (self w));
                  artifact_sizes := artifact_sizes (self w) |};
       stdout := stdout w |}).

Definition print (l : line) : M world unit :=
  modify (fun w => {| self := self w; stdout := stdout w ++ [l] |}).

(** [self.capacities[tier]], [self.usage[tier]], [self.artifact_sizes[ty]] *)
Definition capacity_of (tier : StorageTier.t) : M world Q :=
  d <- gets (fun w => capacities (self w)) ;; getitem d tier.
Definition usage_of (tier : StorageTier.t) : M world Q :=
  d <- gets (fun w => usage (self w)) ;; getitem d tier.
Definition size_of (ty : ArtifactType.t) : M world Q :=
  d <- gets (fun w => artifact_sizes (self w)) ;; getitem d ty.

Definition adjust_resources (tier : StorageTier.t) : M world unit :=
  c <- capacity_of tier ;;
  let increase := c * 0.5 in
  c0 <- capacity_of tier ;;
  set_capacity tier (c0 + increase) ;;;
  c1 <- capacity_of tier ;;
  print (Scaled tier c1).

Definition add_artifact (artifact : Artifact) (tier : StorageTier.t)
  : M world bool :=
  size <- size_of (type artifact) ;;
  u <- usage_of tier ;;
  c <- capacity_of tier ;;
  (if Qgt_bool (u + size) (c * 0.8) then adjust_resources tier else ret tt) ;;;
  u1 <- usage_of tier ;;
  c1 <- capacity_of tier ;;
  if Qle_bool (u1 + size) c1 then
    u2 <- usage_of tier ;;
    set_usage tier (u2 + size) ;;;
    ret true
  else ret false.

(** [get_usage_stats]: copies of the two dicts. *)
Definition get_usage_stats
  : M world (gmap StorageTier.t Q * gmap StorageTier.t Q) :=
  gets (fun w => (capacities (self w), usage (self w))).

(** The public operations of the manager, and a sequence of them. *)
Inductive op :=
| AddArtifact (artifact : Artifact) (tier : StorageTier.t)
| AdjustResources (tier : StorageTier.t)
| GetUsageStats.

Definition run_op (o : op) : M world unit :=
  match o with
  | AddArtifact a tier => add_artifact a tier ;;; ret tt
  | AdjustResources tier => adjust_resources tier
  | GetUsageStats => get_usage_stats ;;; ret tt
  end.

(** The world after a sequence of operations; an uncaught exception
    ends the sequence where it is raised. *)
Fixpoint run_ops (ops : list op) (w : world) : world :=
  match ops with
  | [] => w
  | o :: rest =>
      match run_op o w with
      | (Returned _, w') => run_ops rest w'
      | (Raised _, w') => w'
      end
  end.

(** A sequence of [add_artifact] calls, as the ingestion loop of
    [ScalabilityTester.run_test] makes them. *)
Definition place_all (calls : list (Artifact * StorageTier.t)) : list op :=
  map (fun c => AddArtifact (fst c) (snd c)) calls.

Definition fresh : world := {| self := init; stdout := [] |}.

(** The manager of [__init__] with [capacities[tier] = c] and
    [usage[tier] = u], and nothing printed yet. *)
Definition manager_with (tier : StorageTier.t) (c u : Q) : world :=
  {| self := {| capacities := <[tier := c]> (capacities init);
                usage := <[tier := u]> (usage init);
                artifact_sizes := artifact_sizes init |};
     stdout := [] |}.

Definition video : Artifact :=
  {| id := "A0000"; name := "Artifact_0.video"; type := ArtifactType.VIDEO;
     access_count := 0; last_accessed := 0;
     importance := Importance.LOW |}.

(** *** Specification predicates *)

(** The capacity the commit check of [add_artifact] compares with. *)
Definition post_scale_capacity (u s c : Q) : Q :=
  if Qgt_bool (u + s) (c * 0.8) then c + c * 0.5 else c.

(** Whether the commit check passes. *)
Definition placed (u s c : Q) : bool :=
  Qle_bool (u + s) (post_scale_capacity u s c).

(** Every key is present, no tier is over capacity, no capacity is
    negative. *)
Record invariant (w : world) : Prop := {
  inv_tiers : forall t,
    is_Some (usage (self w) !! t) /\ is_Some (capacities (self w) !! t);
  inv_sizes : forall ty, is_Some (artifact_sizes (self w) !! ty);
  inv_within : forall t u c,
    usage (self w) !! t = Some u -> capacities (self w) !! t = Some c ->
    u <= c;
  inv_nonneg : forall t c, capacities (self w) !! t = Some c -> 0 <= c
}.

(** The size table is the built-in one and every tier has room for
    twice the largest artifact. *)
Record provisioned (w : world) : Prop := {
  prov_invariant : invariant w;
  prov_sizes : artifact_sizes (self w) = artifact_sizes init;
  prov_capacity : forall t c, capacities (self w) !! t = Some c -> 10 <= c
}.

End Scalability.

(** ** sds_scalability_test.py on binary64 numbers

    The manager once more, with every number the double CPython holds:
    the products [c * 0.8] and [c * 0.5] and the sums are rounded as the
    interpreter rounds them, and the comparisons are those of doubles.
    An [int] of the dicts (the initial [100], [0], [1], [5]) is the double
    of the same value; the sums and comparisons of the manager agree on
    the two as long as the integers stay below 2^53.  This model decides
    the properties that depend on the value of a product or a sum:
    whether a call scales, and what capacity it stores. *)

Module Scalability64.
Import Classification.
Local Open Scope float_scope.
Local Open Scope py_scope.

Record StorageResourceManager := {
  capacities : gmap StorageTier.t float;
  usage : gmap StorageTier.t float;
  artifact_sizes : gmap ArtifactType.t float
}.

(** [StorageResourceManager.__init__] *)
Definition init : StorageResourceManager :=
  {| capacities := {[ StorageTier.HOT := 100; StorageTier.WARM := 500;
                      StorageTier.COLD := 1000 ]};
     usage := {[ StorageTier.HOT := 0; StorageTier.WARM := 0;
                 StorageTier.COLD := 0 ]};
     artifact_sizes := {[ ArtifactType.PHOTOGRAPH := 1;
                          ArtifactType.DOCUMENT := 0.5;
                          ArtifactType.VIDEO := 5 ]} |}.

(** A line written by [print]: "Scaled <tier> capacity to <c> units". *)
Inductive line := Scaled (tier : StorageTier.t) (capacity : float).

(** The manager object and the standard output. *)
Record world := {
  self : StorageResourceManager;
  stdout : list line
}.

Definition set_capacity (tier : StorageTier.t) (v : float) : M world unit :=
  modify (fun w =>
    {| self := {| capacities := <[tier := v]> (capacities (self w));
                  usage := usage (self w);
                  artifact_sizes := artifact_sizes (self w) |};
       stdout := stdout w |}).

Definition set_usage (tier : StorageTier.t) (v : float) : M world unit :=
  modify (fun w =>
    {| self := {| capacities := capacities (self w);
                  usage := <[tier := v]> (usage (self w));
                  artifact_sizes := artifact_sizes (self w) |};
       stdout := stdout w |}).

Definition print (l : line) : M world unit :=
  modify (fun w => {| self := self w; stdout := stdout w ++ [l] |}).

(** [self.capacities[tier]], [self.usage[tier]], [self.artifact_sizes[ty]] *)
Definition capacity_of (tier : StorageTier.t) : M world float :=
  d <- gets (fun w => capacities (self w)) ;; getitem d tier.
Definition usage_of (tier : StorageTier.t) : M world float :=
  d <- gets (fun w => usage (self w)) ;; getitem d tier.
Definition size_of (ty : ArtifactType.t) : M world float :=
  d <- gets (fun w => artifact_sizes (self w)) ;; getitem d ty.

Definition adjust_resources (tier : StorageTier.t) : M world unit :=
  c <- capacity_of tier ;;
  let increase := c * 0.5 in
  c0 <- capacity_of tier ;;
  set_capacity tier (c0 + increase) ;;;
  c1 <- capacity_of tier ;;
  print (Scaled tier c1).

(** [x > y] is [y <? x]; the literal [0.8] is the double
    [0x1.999999999999ap-1]. *)
Definition add_artifact (artifact : Artifact) (tier : StorageTier.t)
  : M world bool :=
  size <- size_of (type artifact) ;;
  u <- usage_of tier ;;
  c <- capacity_of tier ;;
  (if c * 0x1.999999999999ap-1 <? u + size then adjust_resources tier
   else ret tt) ;;;
  u1 <- usage_of tier ;;
  c1 <- capacity_of tier ;;
  if u1 + size <=? c1 then
    u2 <- usage_of tier ;;
    set_usage tier (u2 + size) ;;;
    ret true
  else ret false.

(** [get_usage_stats]: copies of the two dicts. *)
Definition get_usage_stats
  : M world (gmap StorageTier.t float * gmap StorageTier.t float) :=
  gets (fun w => (capacities (self w), usage (self w))).

(** The public operations of the manager, and a sequence of them. *)
Definition run_op (o : Scalability.op) : M world unit :=
  match o with
  | Scalability.AddArtifact a tier => add_artifact a tier ;;; ret tt
  | Scalability.AdjustResources tier => adjust_resources tier
  | Scalability.GetUsageStats => get_usage_stats ;;; ret tt
  end.

(** The world after a sequence of operations; an uncaught exception
    ends the sequence where it is raised. *)
Fixpoint run_ops (ops : list Scalability.op) (w : world) : world :=
  match ops with
  | [] => w
  | o :: rest =>
      match run_op o w with
      | (Returned _, w') => run_ops rest w'
      | (Raised _, w') => w'
      end
  end.

Definition fresh : world := {| self := init; stdout := [] |}.

(** The manager of [__init__] with [capacities[tier] = c] and
    [usage[tier] = u], and nothing printed yet. *)
Definition manager_with (tier : StorageTier.t) (c u : float) : world :=
  {| self := {| capacities := <[tier := c]> (capacities init);
                usage := <[tier := u]> (usage init);
                artifact_sizes := artifact_sizes init |};
     stdout := [] |}.

Definition document : Artifact :=
  {| id := "A0001"; name := "Artifact_1.document";
     type := ArtifactType.DOCUMENT;
     access_count := 0; last_accessed := 0;
     importance := Importance.LOW |}.

(** *** Specification functions and predicates *)

(** What one scaling makes of a capacity, and [n] scalings in a row. *)
Definition scaled (c : float) : float := c + c * 0.5.

Fixpoint scaled_times (n : nat) (c : float) : float :=
  match n with
  | O => c
  | S n => scaled_times n (scaled c)
  end.

(** Number of "Scaled" lines printed for [tier]. *)
Fixpoint scalings (tier : StorageTier.t) (out : list line) : nat :=
  match out with
  | [] => 0%nat
  | Scaled t _ :: rest =>
      ((if decide (t = tier) then 1 else 0) + scalings tier rest)%nat
  end.

(** The rational number a finite double stands for. *)
Definition exact (x : float) : option Q :=
  match Prim2SF x with
  | S754_zero _ => Some 0%Q
  | S754_finite s m e =>
      Some ((if s then -1 else 1) * inject_Z (Z.pos m) * 2 ^ e)%Q
  | _ => None
  end.




(** Whether [n] scalings of [c0] are exact, each 1.5 times the one
    before. *)
Definition exact_so_far (c0 : float) (n : nat) : bool :=
  match exact c0, exact (scaled_times n c0) with
  | Some q0, Some q => Qeq_bool q (q0 * (3 # 2) ^ Z.of_nat n)
  | _, _ => false
  end.


(** A manager as its own operations leave the one of [__init__]: every
    key is there, and every capacity is the initial one scaled once for
    each line printed for its tier. *)
Record tracked (w : world) : Prop := {
  tracked_tiers : forall t,
    is_Some (usage (self w) !! t) /\ is_Some (capacities (self w) !! t);
  tracked_sizes : forall ty, is_Some (artifact_sizes (self w) !! ty);
  tracked_capacity : forall t c,
    capacities (self w) !! t = Some c ->
    exists c0,
      capacities init !! t = Some c0 /\
      c = scaled_times (scalings t (stdout w)) c0
}.

End Scalability64.

(** ** sds_retrieval_performance_test.py *)

Module Retrieval.
Local Open Scope py_scope.

(** Here [last_accessed] is a Unix timestamp in seconds. *)
Record Artifact := {
  id : string;
  name : string;
  type : ArtifactType.t;
  access_count : Z;
  last_accessed : Q;
  importance : Importance.t
}.

(** The exact quotient; the interpreter's doubles decide the test
    [> 30] in the same way unless the elapsed time is within a rounding
    error of 30 days. *)
Definition days_since_access (a : Artifact) (now : Q) : Q :=
  ((now - last_accessed a) / (24 * 3600))%Q.

Definition get_usage_frequency (a : Artifact) (now : Q) : UsageFrequency.t :=
  if Qgt_bool (days_since_access a now) 30 then UsageFrequency.LOW
  else
    let accesses_per_month := access_count a in
    if 10 <? accesses_per_month then UsageFrequency.HIGH
    else if 1 <=? accesses_per_month then UsageFrequency.MEDIUM
    else UsageFrequency.LOW.

Definition classify_and_assign (a : Artifact) (now : Q) : StorageTier.t :=
  let usage := get_usage_frequency a now in
  Classification.classify (importance a) usage.

(** An artifact accessed 15 times, last 30 days and 12 hours before
    [now]. *)
Definition stale_busy (now : Q) : Artifact :=
  {| id := "A0004"; name := "Artifact_4.document";
     type := ArtifactType.DOCUMENT;
     access_count := 15;
     last_accessed := (now - (30 * 24 * 3600 + 12 * 3600))%Q;
     importance := Importance.LOW |}.

(** [lock] records whether the [asyncio.Lock] is held. *)
Record StorageBackend := {
  latencies : gmap StorageTier.t Q;
  max_concurrent_requests : Z;
  current_requests : Z;
  lock : bool
}.

(** [StorageBackend.__init__] *)
Definition init : StorageBackend :=
  {| latencies := {[ StorageTier.HOT := 0.010%Q; StorageTier.WARM := 0.050%Q;
                     StorageTier.COLD := 0.200%Q ]};
     max_concurrent_requests := 1000;
     current_requests := 0;
     lock := false |}.

Definition set_current_requests (v : Z) : M StorageBackend unit :=
  modify (fun b =>
    {| latencies := latencies b;
       max_concurrent_requests := max_concurrent_requests b;
       current_requests := v;
       lock := lock b |}).

Definition set_lock (v : bool) : M StorageBackend unit :=
  modify (fun b =>
    {| latencies := latencies b;
       max_concurrent_requests := max_concurrent_requests b;
       current_requests := current_requests b;
       lock := v |}).

(** [async with self.lock: body], for a [body] without [await].  The
    event loop runs a coroutine without interruption between two
    awaits, and acquiring a free lock does not suspend: the block is
    one atomic step that finds the lock free and leaves it free. *)
Definition with_lock {A} (body : M StorageBackend A) : M StorageBackend A :=
  set_lock true ;;; try_finally body (set_lock false).

Definition overloaded : exn :=
  RuntimeError "System overloaded: too many concurrent requests".

(** The first [async with] block: admission. *)
Definition acquire_slot : M StorageBackend unit :=
  with_lock (
    c <- gets current_requests ;;
    m <- gets max_concurrent_requests ;;
    if m <=? c then raise overloaded
    else
      c0 <- gets current_requests ;;
      set_current_requests (c0 + 1)).

(** The [finally] block: the slot is given back. *)
Definition release_slot : M StorageBackend unit :=
  with_lock (
    c <- gets current_requests ;;
    set_current_requests (c - 1)).

(** The [try] body up to the [await]; [jitter] is the value drawn by
    [random.uniform(0.9, 1.1)].  The product is the exact one: the double
    the interpreter returns is this number rounded.  The latency takes no
    part in the control flow, and the properties below do not rest on
    its value. *)
Definition draw_latency (tier : StorageTier.t) (jitter : Q)
  : M StorageBackend Q :=
  d <- gets latencies ;;
  base_latency <- getitem d tier ;;
  let latency := (base_latency * jitter)%Q in
  ret latency.

(** How [await asyncio.sleep(latency)] ends: the sleep elapses, or the
    task is cancelled while suspended and [CancelledError] is raised at
    the [await]. *)
Inductive sleep_result := Elapsed | Cancelled.

Definition sleep (fate : sleep_result) : M StorageBackend unit :=
  match fate with
  | Elapsed => ret tt
  | Cancelled => raise CancelledError
  end.

(** One call, run from start to end with no other task scheduled
    during its sleep. *)
Definition retrieve_artifact (artifact_id : string) (tier : StorageTier.t)
    (jitter : Q) (fate : sleep_result) : M StorageBackend Q :=
  acquire_slot ;;;
  try_finally
    (latency <- draw_latency tier jitter ;;
     sleep fate ;;;
     ret latency)
    release_slot.

(** *** The call as two atomic steps around its suspension *)

(** [body], running [fin] only when [body] raises: the part of a
    [try ... finally] that is executed before a suspension. *)
Definition on_exception {A} (body : M StorageBackend A)
    (fin : M StorageBackend unit) : M StorageBackend A :=
  fun s =>
    match body s with
    | (Returned v, s1) => (Returned v, s1)
    | (Raised e, s1) =>
        match fin s1 with
        | (Returned _, s2) => (Raised e, s2)
        | (Raised e', s2) => (Raised e', s2)
        end
    end.

(** From the call to the suspension in [asyncio.sleep]: returns the
    latency the task is about to sleep for. *)
Definition start (tier : StorageTier.t) (jitter : Q) : M StorageBackend Q :=
  acquire_slot ;;; on_exception (draw_latency tier jitter) release_slot.

(** From the wake-up to the end of the call. *)
Definition resume (latency : Q) (fate : sleep_result) : M StorageBackend Q :=
  try_finally (sleep fate ;;; ret latency) release_slot.

(** *** Interleaved retrievals

    The tasks created by [run_test], scheduled by the event loop in
    any order. *)

Inductive task :=
| Created (artifact_id : string) (tier : StorageTier.t)
| Sleeping (latency : Q)
| Finished (r : outcome Q).

Record system := {
  storage : StorageBackend;
  tasks : list task
}.

Inductive event :=
| Run (i : nat) (jitter : Q)
| Wake (i : nat) (fate : sleep_result).

(** One scheduling step; [None] when the event is not enabled.  A
    task that would find the lock held waits in [acquire]. *)
Definition step (ev : event) (sys : system) : option system :=
  if lock (storage sys) then None
  else
    match ev with
    | Run i jitter =>
        match tasks sys !! i with
        | Some (Created _ tier) =>
            let (r, b) := start tier jitter (storage sys) in
            let t :=
              match r with
              | Returned latency => Sleeping latency
              | Raised e => Finished (Raised e)
              end in
            Some {| storage := b; tasks := <[i := t]> (tasks sys) |}
        | _ => None
        end
    | Wake i fate =>
        match tasks sys !! i with
        | Some (Sleeping latency) =>
            let (r, b) := resume latency fate (storage sys) in
            Some {| storage := b; tasks := <[i := Finished r]> (tasks sys) |}
        | _ => None
        end
    end.

(** The system after a schedule; events that are not enabled are
    skipped. *)
Fixpoint run_events (evs : list event) (sys : system) : system :=
  match evs with
  | [] => sys
  | ev :: rest =>
      match step ev sys with
      | Some sys' => run_events rest sys'
      | None => run_events rest sys
      end
  end.

(** Number of tasks that have passed admission and not yet run their
    [finally] block. *)
Definition holds_slot (t : task) : Z :=
  match t with
  | Sleeping _ => 1
  | _ => 0
  end.

Fixpoint in_flight (ts : list task) : Z :=
  match ts with
  | [] => 0
  | t :: rest => holds_slot t + in_flight rest
  end.

(** The backend of [__init__] with limit [m] and [c] requests in
    flight; [n] retrievals of a Hot artifact created on it, none of
    which has run yet. *)
Definition backend_with (m c : Z) : StorageBackend :=
  {| latencies := latencies init;
     max_concurrent_requests := m;
     current_requests := c;
     lock := false |}.

Definition created (n : nat) : list task :=
  replicate n (Created "A0000" StorageTier.HOT).

Definition launch (m : Z) (n : nat) : system :=
  {| storage := backend_with m 0; tasks := created n |}.

(** *** Specification predicates *)

(** The backend with [v] requests in flight and the lock released. *)
Definition with_requests (b : StorageBackend) (v : Z) : StorageBackend :=
  {| latencies := latencies b;
     max_concurrent_requests := max_concurrent_requests b;
     current_requests := v;
     lock := false |}.

(** Between two scheduling steps the lock is free, the counter counts
    the tasks that hold a slot and is within the limit. *)
Record consistent (sys : system) : Prop := {
  lock_free : lock (storage sys) = false;
  counted : current_requests (storage sys) = in_flight (tasks sys);
  bounded :
    current_requests (storage sys) <= max_concurrent_requests (storage sys)
}.

End Retrieval.

(** ** sds_data_classification.py: the batch entry point *)

Module Batch.
Import Classification.
Local Open Scope py_scope.

(** [.value] of the enumeration members. *)
Definition usage_value (u : UsageFrequency.t) : string :=
  match u with
  | UsageFrequency.HIGH => "High"
  | UsageFrequency.MEDIUM => "Medium"
  | UsageFrequency.LOW => "Low"
  end.

Definition type_value (ty : ArtifactType.t) : string :=
  match ty with
  | ArtifactType.PHOTOGRAPH => "Photograph"
  | ArtifactType.DOCUMENT => "Document"
  | ArtifactType.VIDEO => "Video"
  end.

Definition importance_value (i : Importance.t) : string :=
  match i with
  | Importance.CRITICAL => "Critical"
  | Importance.STANDARD => "Standard"
  | Importance.LOW => "Low"
  end.

Definition tier_value (t : StorageTier.t) : string :=
  match t with
  | StorageTier.HOT => "Hot Storage"
  | StorageTier.WARM => "Warm Storage"
  | StorageTier.COLD => "Cold Storage"
  end.

(** The clock: the [k]-th call of [datetime.datetime.now()] returns
    [wall k]; the state of a computation is the number of calls made. *)
Definition now (wall : nat -> Z) : M nat Z :=
  fun k => (Returned (wall k), S k).

Definition get_usage_frequency (wall : nat -> Z) (a : Artifact)
  : M nat UsageFrequency.t :=
  t <- now wall ;;
  ret (Classification.get_usage_frequency a t).

Definition classify_and_assign (wall : nat -> Z) (a : Artifact)
  : M nat StorageTier.t :=
  usage <- get_usage_frequency wall a ;;
  ret (classify (importance a) usage).

Fixpoint process_artifacts (wall : nat -> Z) (artifacts : list Artifact)
  : M nat (list (gmap string string)) :=
  match artifacts with
  | [] => ret []
  | artifact :: rest =>
      tier <- classify_and_assign wall artifact ;;
      usage <- get_usage_frequency wall artifact ;;
      let result : gmap string string :=
        {[ "id" := id artifact;
           "name" := name artifact;
           "type" := type_value (type artifact);
           "usage_frequency" := usage_value usage;
           "importance" := importance_value (importance artifact);
           "assigned_tier" := tier_value tier ]} in
      results <- process_artifacts wall rest ;;
      ret (result :: results)
  end.

(** The three artifacts of [main]. *)
Definition samples (t : Z) : list Artifact := [A001 t; A002 t; A003 t].
End Batch.

(** ** Artifact generators of the two test scripts *)

Module Generator.
Import Stdlib.Strings.Ascii.
Local Open Scope py_scope.

(** [str.lower()] on ASCII text. *)
Definition lower_char (c : Ascii.ascii) : Ascii.ascii :=
  let n := Ascii.nat_of_ascii c in
  if (65 <=? n)%nat && (n <=? 90)%nat then Ascii.ascii_of_nat (n + 32) else c.

Fixpoint lower (s : string) : string :=
  match s with
  | EmptyString => EmptyString
  | String c rest => String (lower_char c) (lower rest)
  end.

Fixpoint zeros (n : nat) : string :=
  match n with
  | O => ""
  | S n => String "0"%char (zeros n)
  end.

(** [f"{n:04d}"] for [n >= 0]: the decimal digits, padded with zeros on
    the left to at least four characters. *)
Definition format_04d (n : nat) : string :=
  let digits := pretty n in
  zeros (4 - String.length digits) +:+ digits.

(** The sources of chance and time a script reads: the [k]-th value the
    random generator yields is [raw k], the [k]-th reading of the clock is
    [clock k].  A computation counts the values it has consumed. *)
Record env := {
  random_draws : nat;
  clock_reads : nat
}.

Definition draw (raw : nat -> nat) : M env nat :=
  fun e =>
    (Returned (raw (random_draws e)),
     {| random_draws := S (random_draws e); clock_reads := clock_reads e |}).

(** [random.randint(a, b)] with [a <= b]: some integer of [a..b]. *)
Definition randint (raw : nat -> nat) (a b : Z) : M env Z :=
  r <- draw raw ;;
  ret (a + Z.of_nat r mod (b - a + 1)).

(** [random.choice] on the non-empty list [x :: xs]. *)
Definition choice {A} (raw : nat -> nat) (x : A) (xs : list A) : M env A :=
  r <- draw raw ;;
  ret (nth (r mod S (length xs)) (x :: xs) x).

Definition read_clock {T} (clock : nat -> T) : M env T :=
  fun e =>
    (Returned (clock (clock_reads e)),
     {| random_draws := random_draws e; clock_reads := S (clock_reads e) |}).

(** [generate_artifact] of [sds_scalability_test.py]; the clock is
    [datetime.datetime.now()]. *)
Definition generate_artifact (raw : nat -> nat) (wall : nat -> Z)
    (artifact_id : nat) : M env Classification.Artifact :=
  artifact_type <- choice raw ArtifactType.PHOTOGRAPH
                     [ArtifactType.DOCUMENT; ArtifactType.VIDEO] ;;
  access_count <- randint raw 0 20 ;;
  now <- read_clock wall ;;
  days <- randint raw 0 60 ;;
  importance <- choice raw Importance.CRITICAL
                  [Importance.STANDARD; Importance.LOW] ;;
  ret {| Classification.id := "A" +:+ format_04d artifact_id;
         Classification.name :=
           "Artifact_" +:+ pretty artifact_id +:+ "."
             +:+ lower (Batch.type_value artifact_type);
         Classification.type := artifact_type;
         Classification.access_count := access_count;
         Classification.last_accessed := now - Classification.timedelta days 0;
         Classification.importance := importance |}.

(** One pass of the loop of [generate_artifacts] of
    [sds_retrieval_performance_test.py]; the clock is [time.time()]. *)
Definition generate_one (raw : nat -> nat) (clock : nat -> Q) (i : nat)
  : M env Retrieval.Artifact :=
  artifact_type <- choice raw ArtifactType.PHOTOGRAPH
                     [ArtifactType.DOCUMENT; ArtifactType.VIDEO] ;;
  access_count <- randint raw 0 20 ;;
  now <- read_clock clock ;;
  days <- randint raw 0 60 ;;
  importance <- choice raw Importance.CRITICAL
                  [Importance.STANDARD; Importance.LOW] ;;
  ret {| Retrieval.id := "A" +:+ format_04d i;
         Retrieval.name :=
           "Artifact_" +:+ pretty i +:+ "."
             +:+ lower (Batch.type_value artifact_type);
         Retrieval.type := artifact_type;
         Retrieval.access_count := access_count;
         Retrieval.last_accessed := (now - inject_Z (days * 24 * 3600))%Q;
         Retrieval.importance := importance |}.

(** [for i in range(num)] from [i] on, [num] passes. *)
Fixpoint generate_from (raw : nat -> nat) (clock : nat -> Q) (i num : nat)
  : M env (list Retrieval.Artifact) :=
  match num with
  | O => ret []
  | S num =>
      a <- generate_one raw clock i ;;
      rest <- generate_from raw clock (S i) num ;;
      ret (a :: rest)
  end.

Definition generate_artifacts (raw : nat -> nat) (clock : nat -> Q) (num : nat)
  : M env (list Retrieval.Artifact) :=
  generate_from raw clock 0 num.

End Generator.

(** ** Measures used to state properties of the classifier *)

Module ClassificationSpec.
(** Hot is rank 0, Warm 1, Cold 2. *)
Definition tier_rank (t : StorageTier.t) : Z :=
  match t with
  | StorageTier.HOT => 0
  | StorageTier.WARM => 1
  | StorageTier.COLD => 2
  end.

(** The artifact [a] with another access count. *)
Definition with_access_count (a : Classification.Artifact) (n : Z)
  : Classification.Artifact :=
  {| Classification.id := Classification.id a;
     Classification.name := Classification.name a;
     Classification.type := Classification.type a;
     Classification.access_count := n;
     Classification.last_accessed := Classification.last_accessed a;
     Classification.importance := Classification.importance a |}.

(** The same artifact as the two scripts represent it: [last_accessed] in
    microseconds for one, in seconds for the other. *)
Definition same_artifact (a : Classification.Artifact) (b : Retrieval.Artifact)
    (now : Z) (now' : Q) : Prop :=
  Classification.access_count a = Retrieval.access_count b /\
  Classification.importance a = Retrieval.importance b /\
  (now' - Retrieval.last_accessed b ==
   inject_Z (now - Classification.last_accessed a) / 1000000)%Q.

(** A Low-importance artifact with 15 accesses, last accessed [elapsed]
    microseconds before time 0, as each of the two scripts holds it. *)
Definition busy_datetime (elapsed : Z) : Classification.Artifact :=
  {| Classification.id := "A004";
     Classification.name := "Busy_Log.pdf";
     Classification.type := ArtifactType.DOCUMENT;
     Classification.access_count := 15;
     Classification.last_accessed := 0 - elapsed;
     Classification.importance := Importance.LOW |}.

Definition busy_timestamp (elapsed : Z) : Retrieval.Artifact :=
  {| Retrieval.id := "A004";
     Retrieval.name := "Busy_Log.pdf";
     Retrieval.type := ArtifactType.DOCUMENT;
     Retrieval.access_count := 15;
     Retrieval.last_accessed := (0 - inject_Z elapsed / 1000000)%Q;
     Retrieval.importance := Importance.LOW |}.
End ClassificationSpec.

(** ** Measures used to state properties of the manager *)

Module ScalabilitySpec.
Import Classification Scalability.
Local Open Scope Q_scope.

(** Size of an artifact by the table of [__init__]. *)
Definition builtin_size (a : Artifact) : Q :=
  default 0 (artifact_sizes init !! type a).

(** Total size of the artifacts that [calls] send to [tier]. *)
Fixpoint volume (tier : StorageTier.t) (calls : list (Artifact * StorageTier.t))
  : Q :=
  match calls with
  | [] => 0
  | (a, t) :: rest =>
      (if decide (t = tier) then builtin_size a else 0) + volume tier rest
  end.

(** A manager as [__init__] and its own operations leave it: built-in
    sizes, capacities of at least 100, every tier at most 80% full. *)
Record roomy (w : world) : Prop := {
  roomy_invariant : invariant w;
  roomy_sizes : artifact_sizes (self w) = artifact_sizes init;
  roomy_capacity : forall t c, capacities (self w) !! t = Some c -> 100 <= c;
  roomy_usage : forall t u c,
    usage (self w) !! t = Some u -> capacities (self w) !! t = Some c ->
    u <= c * 0.8
}.

End ScalabilitySpec.

(** ** Measures used to state properties of the admission control *)

Module RetrievalSpec.
Import Retrieval.

(** How far a task has got: created, suspended in its sleep, finished. *)
Definition progress (t : task) : Z :=
  match t with
  | Created _ _ => 0
  | Sleeping _ => 1
  | Finished _ => 2
  end.

Definition rejected : task := Finished (Raised overloaded).

(** The first [k] tasks are started one after the other, task [i] with
    jitter [jitter i], and none is woken up. *)
Definition start_in_order (jitter : nat -> Q) (k : nat) : list event :=
  map (fun i => Run i (jitter i)) (seq 0 k).
End RetrievalSpec.

(** ** sds_scalability_test.py: the ingestion loop *)

Module Tester.
Local Open Scope py_scope.

Record ScalabilityTester := {
  resource_manager : Scalability.StorageResourceManager;
  tier_counts : gmap StorageTier.t Z;
  classification_times : list Q
}.

(** [ScalabilityTester.__init__] *)
Definition new_tester : ScalabilityTester :=
  {| resource_manager := Scalability.init;
     tier_counts := {[ StorageTier.HOT := 0; StorageTier.WARM := 0;
                       StorageTier.COLD := 0 ]};
     classification_times := [] |}.

(** The tester, the standard output, the random values and
    [datetime.now()] readings consumed, and the number of [time.time()]
    calls made. *)
Record world := {
  self : ScalabilityTester;
  stdout : list Scalability.line;
  chance : Generator.env;
  time_reads : nat
}.

Definition manager_world (w : world) : Scalability.world :=
  {| Scalability.self := resource_manager (self w);
     Scalability.stdout := stdout w |}.

(** A method of [self.resource_manager]. *)
Definition on_manager {A} (m : M Scalability.world A) : M world A :=
  fun w =>
    let (r, mw) := m (manager_world w) in
    (r, {| self := {| resource_manager := Scalability.self mw;
                      tier_counts := tier_counts (self w);
                      classification_times := classification_times (self w) |};
           stdout := Scalability.stdout mw;
           chance := chance w;
           time_reads := time_reads w |}).

Definition on_chance {A} (m : M Generator.env A) : M world A :=
  fun w =>
    let (r, e) := m (chance w) in
    (r, {| self := self w; stdout := stdout w; chance := e;
           time_reads := time_reads w |}).

Definition time_time (clock : nat -> Q) : M world Q :=
  fun w =>
    (Returned (clock (time_reads w)),
     {| self := self w; stdout := stdout w; chance := chance w;
        time_reads := S (time_reads w) |}).

(** [time.sleep] of a duration that is never negative (the argument is
    a [max(0, _)]): time passes, nothing else changes. *)
Definition sleep (seconds : Q) : M world unit := ret tt.

Definition Qmax (x y : Q) : Q := if Qle_bool x y then y else x.

(** [self.classifier.classify_and_assign]: the script's copy of the
    classifier is, line for line, the one of [Classification]; it reads
    [datetime.datetime.now()] once. *)
Definition classify_and_assign (wall : nat -> Z) (a : Classification.Artifact)
  : M Generator.env StorageTier.t :=
  now <- Generator.read_clock wall ;;
  ret (Classification.classify_and_assign a now).

Definition append_classification_time (t : Q) : M world unit :=
  modify (fun w =>
    {| self := {| resource_manager := resource_manager (self w);
                  tier_counts := tier_counts (self w);
                  classification_times := classification_times (self w) ++ [t] |};
       stdout := stdout w; chance := chance w; time_reads := time_reads w |}).

(** [self.tier_counts[tier] += 1] *)
Definition count_tier (tier : StorageTier.t) : M world unit :=
  d <- gets (fun w => tier_counts (self w)) ;;
  n <- getitem d tier ;;
  modify (fun w =>
    {| self := {| resource_manager := resource_manager (self w);
                  tier_counts := <[tier := n + 1]> (tier_counts (self w));
                  classification_times := classification_times (self w) |};
       stdout := stdout w; chance := chance w; time_reads := time_reads w |}).

(** The body of the loop of [run_test] for index [i]. *)
Definition ingest (raw : nat -> nat) (wall : nat -> Z) (clock : nat -> Q)
    (interval start_time : Q) (i : nat) : M world unit :=
  artifact <- on_chance (Generator.generate_artifact raw wall i) ;;
  class_start <- time_time clock ;;
  tier <- on_chance (classify_and_assign wall artifact) ;;
  class_end <- time_time clock ;;
  let class_time := (class_end - class_start)%Q in
  append_classification_time class_time ;;;
  placed <- on_manager (Scalability.add_artifact artifact tier) ;;
  (if placed : bool then count_tier tier else ret tt) ;;;
  t <- time_time clock ;;
  sleep (Qmax 0 (interval - (t - start_time) / inject_Z (Z.of_nat i + 1))).

(** [for i in range(total_artifacts)], from [i] on, [n] passes. *)
Fixpoint ingest_from (raw : nat -> nat) (wall : nat -> Z) (clock : nat -> Q)
    (interval start_time : Q) (i n : nat) : M world unit :=
  match n with
  | O => ret tt
  | S n =>
      ingest raw wall clock interval start_time i ;;;
      ingest_from raw wall clock interval start_time (S i) n
  end.

Definition fresh : world :=
  {| self := new_tester; stdout := [];
     chance := {| Generator.random_draws := 0; Generator.clock_reads := 0 |};
     time_reads := 0 |}.

(** The two assignments that [main] makes after each scenario: the
    counts and the classification times start again; the resource manager
    is kept. *)
Definition reset_counts : M world unit :=
  modify (fun w =>
    {| self := {| resource_manager := resource_manager (self w);
                  tier_counts := {[ StorageTier.HOT := 0; StorageTier.WARM := 0;
                                    StorageTier.COLD := 0 ]};
                  classification_times := [] |};
       stdout := stdout w; chance := chance w; time_reads := time_reads w |}).

(** *** Specification predicates *)

Definition total_count (w : world) : Z :=
  default 0 (tier_counts (self w) !! StorageTier.HOT)
  + default 0 (tier_counts (self w) !! StorageTier.WARM)
  + default 0 (tier_counts (self w) !! StorageTier.COLD).

(** A tester between two passes of the loop, in any scenario of [main]:
    the manager is as its own operations leave it and every tier has a
    count. *)
Record ready (w : world) : Prop := {
  ready_roomy : ScalabilitySpec.roomy (manager_world w);
  ready_counts : forall t, is_Some (tier_counts (self w) !! t)
}.

(** The manager is as its own operations leave it, and the count of every
    tier matches its usage: each counted artifact has size 0.5 to 5. *)
Record in_step (w : world) : Prop := {
  step_roomy : ScalabilitySpec.roomy (manager_world w);
  step_counts : forall t,
    exists n u,
      tier_counts (self w) !! t = Some n /\
      Scalability.usage (resource_manager (self w)) !! t = Some u /\
      0 <= n /\
      (0.5 * inject_Z n <= u <= 5 * inject_Z n)%Q
}.
End Tester.

(** ** sds_retrieval_performance_test.py: the tester *)

Module Driver.
Local Open Scope py_scope.

Record RetrievalPerformanceTester := {
  storage : Retrieval.StorageBackend;
  artifacts : list Retrieval.Artifact;
  artifact_tiers : gmap string StorageTier.t
}.

(** The tester object and the number of [time.time()] calls made so far:
    the [k]-th call returns [clock k]. *)
Record world := {
  self : RetrievalPerformanceTester;
  time_reads : nat
}.

Definition time_time (clock : nat -> Q) : M nat Q :=
  fun k => (Returned (clock k), S k).

Definition classify_and_assign (clock : nat -> Q) (a : Retrieval.Artifact)
  : M nat StorageTier.t :=
  t <- time_time clock ;;
  ret (Retrieval.classify_and_assign a t).

(** [{a.id: self.classifier.classify_and_assign(a) for a in artifacts}],
    built from left to right: a later artifact replaces an earlier one
    with the same id. *)
Fixpoint assign_tiers (clock : nat -> Q) (artifacts : list Retrieval.Artifact)
    (acc : gmap string StorageTier.t) : M nat (gmap string StorageTier.t) :=
  match artifacts with
  | [] => ret acc
  | a :: rest =>
      tier <- classify_and_assign clock a ;;
      assign_tiers clock rest (<[Retrieval.id a := tier]> acc)
  end.

(** [RetrievalPerformanceTester.__init__] *)
Definition new_tester (clock : nat -> Q) (artifacts : list Retrieval.Artifact)
  : M nat RetrievalPerformanceTester :=
  tiers <- assign_tiers clock artifacts ∅ ;;
  ret {| storage := Retrieval.init;
         artifacts := artifacts;
         artifact_tiers := tiers |}.

(** A computation on the backend, run on [self.storage]. *)
Definition on_storage {A} (m : M Retrieval.StorageBackend A) : M world A :=
  fun w =>
    let (r, b) := m (storage (self w)) in
    (r, {| self := {| storage := b;
                      artifacts := artifacts (self w);
                      artifact_tiers := artifact_tiers (self w) |};
           time_reads := time_reads w |}).

Definition read_time (clock : nat -> Q) : M world Q :=
  fun w =>
    (Returned (clock (time_reads w)),
     {| self := self w; time_reads := S (time_reads w) |}).

(** Whether [except Exception] catches: [CancelledError] derives from
    [BaseException] (Python 3.8 and later) and passes through. *)
Definition is_Exception (e : exn) : bool :=
  match e with
  | CancelledError => false
  | _ => true
  end.

(** A result tuple [(artifact_id, latency, error)].  The source stores
    [str(e)] as the error and only tests it for truth; [str] of the two
    exceptions that can be caught here (the overload message, the [repr]
    of a missing key) is never empty, so the caught exception stands for
    its text. *)
Definition result : Type := string * Q * option exn.

Definition simulate_retrieval (clock : nat -> Q) (artifact_id : string)
    (jitter : Q) (fate : Retrieval.sleep_result) : M world result :=
  fun w =>
    let body : M world result :=
      start_time <- read_time clock ;;
      tiers <- gets (fun w => artifact_tiers (self w)) ;;
      tier <- getitem tiers artifact_id ;;
      latency <- on_storage
                   (Retrieval.retrieve_artifact artifact_id tier jitter fate) ;;
      ret (artifact_id, latency, None) in
    match body w with
    | (Returned v, w') => (Returned v, w')
    | (Raised e, w') =>
        if is_Exception e then (Returned (artifact_id, 0%Q, Some e), w')
        else (Raised e, w')
    end.

(** The locals of the result loop of [run_test]. *)
Record tally := {
  errors : Z;
  latencies : list Q;
  tier_latencies : gmap StorageTier.t (list Q)
}.

Definition no_results : tally :=
  {| errors := 0;
     latencies := [];
     tier_latencies := {[ StorageTier.HOT := []; StorageTier.WARM := [];
                          StorageTier.COLD := [] ]} |}.

Definition count_error : M tally unit :=
  modify (fun t => {| errors := errors t + 1;
                      latencies := latencies t;
                      tier_latencies := tier_latencies t |}).

Definition record_latency (latency : Q) : M tally unit :=
  modify (fun t => {| errors := errors t;
                      latencies := latencies t ++ [latency];
                      tier_latencies := tier_latencies t |}).

Definition record_tier_latency (tier : StorageTier.t) (latency : Q)
  : M tally unit :=
  d <- gets tier_latencies ;;
  tl <- getitem d tier ;;
  modify (fun t => {| errors := errors t;
                      latencies := latencies t;
                      tier_latencies :=
                        <[tier := tl ++ [latency]]> (tier_latencies t) |}).

(** [for artifact_id, latency, error in completed: ...] *)
Fixpoint process_results (tiers : gmap string StorageTier.t)
    (completed : list result) : M tally unit :=
  match completed with
  | [] => ret tt
  | (artifact_id, latency, error) :: rest =>
      (match error with
       | Some _ => count_error
       | None =>
           record_latency latency ;;;
           tier <- getitem tiers artifact_id ;;
           record_tier_latency tier latency
       end) ;;;
      process_results tiers rest
  end.

(** ["error_rate": errors / total_requests if total_requests > 0 else 0] *)
Definition error_rate (t : tally) (total_requests : Z) : Q :=
  if 0 <? total_requests then (inject_Z (errors t) / inject_Z total_requests)%Q
  else 0%Q.

(** ["count": len(tl)] of a tier. *)
Definition tier_count (t : tally) (tier : StorageTier.t) : Z :=
  Z.of_nat (length (default [] (tier_latencies t !! tier))).


(** Number of entries with an error, and of entries without. *)
Definition failed (completed : list result) : Z :=
  Z.of_nat (length (filter (fun entry : result => is_Some entry.2) completed)).

Definition succeeded (completed : list result) : Z :=
  Z.of_nat (length (filter (fun entry : result => entry.2 = None) completed)).

(** Every tier has its list, and the lists together hold as many
    latencies as [latencies]. *)
Definition balanced (t : tally) : Prop :=
  (forall tier, is_Some (tier_latencies t !! tier)) /\
  tier_count t StorageTier.HOT + tier_count t StorageTier.WARM
    + tier_count t StorageTier.COLD
  = Z.of_nat (length (latencies t)).
End Driver.

(** * Properties *)

(** ** Comparisons on numbers *)

Lemma Qgt_bool_iff (x y : Q) : Qgt_bool x y = true <-> (y < x)%Q.
Proof.
  unfold Qgt_bool. rewrite negb_true_iff.
  destruct (Qle_bool x y) eqn:E.
  - apply Qle_bool_iff in E. split; [discriminate | lra].
  - split; [intros _ | reflexivity].
    destruct (Qlt_le_dec y x) as [Hlt|Hle]; [exact Hlt|].
    apply Qle_bool_iff in Hle. congruence.
Qed.

Lemma Qgt_bool_false_iff (x y : Q) : Qgt_bool x y = false <-> (x <= y)%Q.
Proof. unfold Qgt_bool. rewrite negb_false_iff. apply Qle_bool_iff. Qed.

Lemma Qle_bool_false_iff (x y : Q) : Qle_bool x y = false <-> (y < x)%Q.
Proof.
  rewrite <- Qgt_bool_iff. unfold Qgt_bool. rewrite negb_true_iff. reflexivity.
Qed.

(** ** Usage evaluator and tier classifier *)

Module ClassificationProps.
Import Classification.

Lemma days_since_access_gt_30 a now :
  30 < days_since_access a now <-> 31 * day_us <= now - last_accessed a.
Proof.
  unfold days_since_access. change day_us with 86400000000.
  Z.to_euclidean_division_equations. lia.
Qed.

(** The rule [get_usage_frequency] implements: the recency test counts
    whole days, so it fires from 31 full days on. *)
Lemma get_usage_frequency_rule a now :
  get_usage_frequency a now =
    if decide (31 * day_us <= now - last_accessed a) then UsageFrequency.LOW
    else if decide (10 < access_count a) then UsageFrequency.HIGH
    else if decide (1 <= access_count a) then UsageFrequency.MEDIUM
    else UsageFrequency.LOW.
Proof.
  unfold get_usage_frequency.
  destruct (Z.ltb_spec 30 (days_since_access a now)) as [H|H].
  - rewrite days_since_access_gt_30 in H. case_decide; [reflexivity|lia].
  - apply Z.le_ngt in H. rewrite days_since_access_gt_30 in H.
    case_decide; [lia|].
    destruct (Z.ltb_spec 10 (access_count a));
      case_decide; try lia; try reflexivity.
    destruct (Z.leb_spec 1 (access_count a));
      case_decide; try lia; reflexivity.
Qed.

Ltac sample_artifact :=
  unfold classify_and_assign; rewrite get_usage_frequency_rule;
  cbn [A001 A002 A003 last_accessed access_count importance];
  match goal with
  | |- context [?now - (?now - ?e)] =>
      replace (now - (now - e)) with e by lia
  end.

(** The three artifacts of [main] (scenarios A, B and C). *)
Example scenario_A now :
  get_usage_frequency (A001 now) now = UsageFrequency.HIGH /\
  classify_and_assign (A001 now) now = StorageTier.HOT.
Proof. sample_artifact. split; reflexivity. Qed.

Example scenario_B now :
  get_usage_frequency (A002 now) now = UsageFrequency.MEDIUM /\
  classify_and_assign (A002 now) now = StorageTier.WARM.
Proof. sample_artifact. split; reflexivity. Qed.

Example scenario_C now :
  get_usage_frequency (A003 now) now = UsageFrequency.LOW /\
  classify_and_assign (A003 now) now = StorageTier.COLD.
Proof. sample_artifact. split; reflexivity. Qed.

(** C5.  For every (importance, usage) pair the tier is Hot if the
    importance is Critical or the usage is High; otherwise Warm if the
    usage is Medium or the importance is Standard; otherwise Cold.  Hence
    Standard importance never yields Cold, and the tier
    [classify_and_assign] returns is a function of the importance and the
    usage of the artifact alone: two calls with the same pair agree. *)
Theorem classify_decision_table :
  forall (imp : Importance.t) (usage : UsageFrequency.t),
    (imp = Importance.CRITICAL \/ usage = UsageFrequency.HIGH ->
     classify imp usage = StorageTier.HOT) /\
    (~ (imp = Importance.CRITICAL \/ usage = UsageFrequency.HIGH) ->
     usage = UsageFrequency.MEDIUM \/ imp = Importance.STANDARD ->
     classify imp usage = StorageTier.WARM) /\
    (~ (imp = Importance.CRITICAL \/ usage = UsageFrequency.HIGH) ->
     ~ (usage = UsageFrequency.MEDIUM \/ imp = Importance.STANDARD) ->
     classify imp usage = StorageTier.COLD) /\
    (imp = Importance.STANDARD -> classify imp usage <> StorageTier.COLD) /\
    (forall a now,
       importance a = imp -> get_usage_frequency a now = usage ->
       classify_and_assign a now = classify imp usage) /\
    (forall a now a' now',
       importance a = imp -> get_usage_frequency a now = usage ->
       importance a' = imp -> get_usage_frequency a' now' = usage ->
       classify_and_assign a now = classify_and_assign a' now').
Proof.
  intros imp usage.
  split; [|split; [|split; [|split; [|split]]]].
  - destruct imp, usage; intros [H|H]; try discriminate H; reflexivity.
  - destruct imp, usage; intros Hn [H|H]; try discriminate H;
      try reflexivity; exfalso; apply Hn; auto.
  - destruct imp, usage; intros Hn Hm; try reflexivity;
      exfalso; (apply Hn; auto; fail) || (apply Hm; auto).
  - intros ->. destruct usage; discriminate.
  - intros a now <- <-. reflexivity.
  - intros a now a' now' Hi Hu Hi' Hu'. unfold classify_and_assign.
    congruence.
Qed.

Lemma classify_decision_table_witness :
  ((Importance.CRITICAL = Importance.CRITICAL \/
    UsageFrequency.LOW = UsageFrequency.HIGH) /\
   classify Importance.CRITICAL UsageFrequency.LOW = StorageTier.HOT) /\
  ((UsageFrequency.LOW = UsageFrequency.MEDIUM \/
    Importance.STANDARD = Importance.STANDARD) /\
   classify Importance.STANDARD UsageFrequency.LOW = StorageTier.WARM) /\
  (importance (A003 0) = Importance.LOW /\
   get_usage_frequency (A003 0) 0 = UsageFrequency.LOW /\
   classify_and_assign (A003 0) 0 = classify Importance.LOW UsageFrequency.LOW).
Proof.
  split; [|split].
  - split; [left; reflexivity|].
    apply (classify_decision_table Importance.CRITICAL UsageFrequency.LOW).
    left; reflexivity.
  - split; [right; reflexivity|].
    apply (classify_decision_table Importance.STANDARD UsageFrequency.LOW).
    + intros [H|H]; discriminate H.
    + right; reflexivity.
  - split; [reflexivity|]. split; [reflexivity|].
    apply (classify_decision_table Importance.LOW UsageFrequency.LOW);
      reflexivity.
Defined.

(** C6 (as amended).  [get_usage_frequency] returns one of High, Medium
    and Low by this precedence: if the whole number of days in
    [now - last_accessed] ([timedelta.days], the elapsed time rounded down
    to days) exceeds 30, that is if at least 31 full days have elapsed,
    the result is Low whatever the access count; else High if the count
    exceeds 10; else Medium if it is at least 1; else Low. *)
Theorem usage_frequency_whole_day_precedence :
  forall a now,
    (30 < days_since_access a now <-> 31 * day_us <= now - last_accessed a) /\
    (30 < days_since_access a now ->
     get_usage_frequency a now = UsageFrequency.LOW) /\
    (days_since_access a now <= 30 -> 10 < access_count a ->
     get_usage_frequency a now = UsageFrequency.HIGH) /\
    (days_since_access a now <= 30 -> 1 <= access_count a <= 10 ->
     get_usage_frequency a now = UsageFrequency.MEDIUM) /\
    (days_since_access a now <= 30 -> access_count a < 1 ->
     get_usage_frequency a now = UsageFrequency.LOW).
Proof.
  intros a now. pose proof (days_since_access_gt_30 a now) as Hd.
  split; [exact Hd|].
  rewrite get_usage_frequency_rule.
  repeat split; intros; repeat case_decide; try reflexivity; lia.
Qed.

Lemma usage_frequency_whole_day_precedence_witness :
  (30 < days_since_access (A003 0) 0 /\
   get_usage_frequency (A003 0) 0 = UsageFrequency.LOW) /\
  (days_since_access (A001 0) 0 <= 30 /\ 10 < access_count (A001 0) /\
   get_usage_frequency (A001 0) 0 = UsageFrequency.HIGH) /\
  (days_since_access (A002 0) 0 <= 30 /\ 1 <= access_count (A002 0) <= 10 /\
   get_usage_frequency (A002 0) 0 = UsageFrequency.MEDIUM).
Proof.
  split; [|split].
  - assert (H : 30 < days_since_access (A003 0) 0) by reflexivity.
    split; [exact H|].
    exact (proj1 (proj2 (usage_frequency_whole_day_precedence (A003 0) 0)) H).
  - assert (H : days_since_access (A001 0) 0 <= 30) by discriminate.
    assert (Hc : 10 < access_count (A001 0)) by reflexivity.
    split; [exact H|]. split; [exact Hc|].
    exact (proj1 (proj2 (proj2
             (usage_frequency_whole_day_precedence (A001 0) 0))) H Hc).
  - assert (H : days_since_access (A002 0) 0 <= 30) by discriminate.
    assert (Hc : 1 <= access_count (A002 0) <= 10) by (split; discriminate).
    split; [exact H|]. split; [exact Hc|].
    exact (proj1 (proj2 (proj2 (proj2
             (usage_frequency_whole_day_precedence (A002 0) 0)))) H Hc).
Defined.

(** C6, as stated, fails: 30 days and 12 hours after the last access more
    than 30 days have elapsed, but [timedelta.days] is still 30 and an
    artifact with 15 accesses is rated High, not Low. *)
Lemma usage_high_30_days_12_hours_after_access :
  0 <= access_count (stale_busy 0) /\
  30 * day_us < 0 - last_accessed (stale_busy 0) /\
  days_since_access (stale_busy 0) 0 = 30 /\
  get_usage_frequency (stale_busy 0) 0 = UsageFrequency.HIGH /\
  get_usage_frequency (stale_busy 0) 0 <> UsageFrequency.LOW.
Proof. vm_compute. repeat split; try reflexivity; discriminate. Qed.

(** C7 (as amended).  A negative access count is not rejected: nothing
    validates it, the call returns, and the value returned is Low whatever
    the two timestamps are. *)
Theorem negative_access_count_returns_low :
  forall a now,
    access_count a < 0 -> evaluate a now = Returned UsageFrequency.LOW.
Proof.
  intros a now H. unfold evaluate. rewrite get_usage_frequency_rule.
  repeat case_decide; try lia; reflexivity.
Qed.

Lemma negative_access_count_returns_low_witness :
  access_count (miscounted 0) < 0 /\
  evaluate (miscounted 0) 0 = Returned UsageFrequency.LOW.
Proof.
  assert (H : access_count (miscounted 0) < 0) by reflexivity.
  exact (conj H (negative_access_count_returns_low (miscounted 0) 0 H)).
Defined.

(** C7, as stated, fails: with an access count of -1 the evaluator
    returns a classification and raises nothing. *)
Lemma negative_access_count_not_rejected :
  access_count (miscounted 0) < 0 /\
  evaluate (miscounted 0) 0 = Returned UsageFrequency.LOW /\
  ~ (exists e, evaluate (miscounted 0) 0 = Raised e).
Proof.
  split; [reflexivity|]. split; [reflexivity|].
  intros [e He]. vm_compute in He. discriminate He.
Qed.

End ClassificationProps.

(** ** Storage resource manager *)

Module ScalabilityProps.
Import Classification Scalability.
Local Open Scope Q_scope.

Ltac py_step :=
  cbv beta iota delta [bind gets ret raise modify getitem];
  cbn [self capacities Scalability.usage artifact_sizes stdout fst snd].

Ltac py_lookup :=
  match goal with
  | H : ?m !! ?k = _ |- context [?m !! ?k] => rewrite H
  | |- context [<[?k := _]> _ !! ?k] => rewrite lookup_insert_eq
  end.

Ltac py_run := repeat first [progress py_step | py_lookup].

(** *** What the two methods compute *)

Lemma adjust_resources_eq w tier c :
  capacities (self w) !! tier = Some c ->
  adjust_resources tier w =
    (Returned tt,
     {| self := {| capacities := <[tier := c + c * 0.5]> (capacities (self w));
                   usage := usage (self w);
                   artifact_sizes := artifact_sizes (self w) |};
        stdout := stdout w ++ [Scaled tier (c + c * 0.5)] |}).
Proof.
  intros Hc. unfold adjust_resources, capacity_of, set_capacity, print.
  py_run. reflexivity.
Qed.

Lemma adjust_resources_KeyError w tier :
  capacities (self w) !! tier = None ->
  adjust_resources tier w = (Raised KeyError, w).
Proof.
  intros Hc. unfold adjust_resources, capacity_of. py_run. reflexivity.
Qed.

Lemma add_artifact_eq w a tier s u c :
  artifact_sizes (self w) !! type a = Some s ->
  usage (self w) !! tier = Some u ->
  capacities (self w) !! tier = Some c ->
  add_artifact a tier w =
    (Returned (placed u s c),
     {| self :=
          {| capacities :=
               if Qgt_bool (u + s) (c * 0.8)
               then <[tier := c + c * 0.5]> (capacities (self w))
               else capacities (self w);
             usage :=
               if placed u s c
               then <[tier := u + s]> (usage (self w))
               else usage (self w);
             artifact_sizes := artifact_sizes (self w) |};
        stdout :=
          if Qgt_bool (u + s) (c * 0.8)
          then stdout w ++ [Scaled tier (c + c * 0.5)]
          else stdout w |}).
Proof.
  intros Hs Hu Hc. destruct w as [[caps us sz] out].
  cbn [self capacities usage artifact_sizes stdout] in *.
  unfold add_artifact, size_of, usage_of, capacity_of, placed,
    post_scale_capacity.
  py_run.
  destruct (Qgt_bool (u + s) (c * 0.8)).
  - rewrite (adjust_resources_eq _ tier c) by exact Hc.
    py_run.
    destruct (Qle_bool (u + s) (c + c * 0.5)); [unfold set_usage|];
      py_run; reflexivity.
  - py_run.
    destruct (Qle_bool (u + s) c); [unfold set_usage|]; py_run; reflexivity.
Qed.

Lemma add_artifact_KeyError w a tier :
  artifact_sizes (self w) !! type a = None \/
  usage (self w) !! tier = None \/
  capacities (self w) !! tier = None ->
  add_artifact a tier w = (Raised KeyError, w).
Proof.
  intros H. unfold add_artifact, size_of, usage_of, capacity_of.
  py_step.
  destruct (artifact_sizes (self w) !! type a) as [s|] eqn:Hs;
    py_step; [|reflexivity].
  destruct (usage (self w) !! tier) as [u|] eqn:Hu; py_step; [|reflexivity].
  destruct (capacities (self w) !! tier) as [c|] eqn:Hc;
    py_step; [|reflexivity].
  destruct H as [H|[H|H]]; discriminate.
Qed.

Lemma add_artifact_cases w a tier :
  add_artifact a tier w = (Raised KeyError, w) \/
  (exists s u c,
     artifact_sizes (self w) !! type a = Some s /\
     usage (self w) !! tier = Some u /\
     capacities (self w) !! tier = Some c).
Proof.
  destruct (artifact_sizes (self w) !! type a) as [s|] eqn:Hs;
    [|left; apply add_artifact_KeyError; auto].
  destruct (usage (self w) !! tier) as [u|] eqn:Hu;
    [|left; apply add_artifact_KeyError; auto].
  destruct (capacities (self w) !! tier) as [c|] eqn:Hc;
    [|left; apply add_artifact_KeyError; auto].
  right. eauto 6.
Qed.

Lemma add_artifact_capacity w a tier s u c t' :
  artifact_sizes (self w) !! type a = Some s ->
  usage (self w) !! tier = Some u ->
  capacities (self w) !! tier = Some c ->
  capacities (self (add_artifact a tier w).2) !! t' =
    if decide (t' = tier) then Some (post_scale_capacity u s c)
    else capacities (self w) !! t'.
Proof.
  intros Hs Hu Hc. rewrite (add_artifact_eq w a tier s u c Hs Hu Hc).
  cbn [snd self capacities]. unfold post_scale_capacity.
  destruct (Qgt_bool (u + s) (c * 0.8)); case_decide; subst;
    rewrite ?lookup_insert_eq, ?lookup_insert_ne by congruence; congruence.
Qed.

Lemma add_artifact_usage w a tier s u c t' :
  artifact_sizes (self w) !! type a = Some s ->
  usage (self w) !! tier = Some u ->
  capacities (self w) !! tier = Some c ->
  usage (self (add_artifact a tier w).2) !! t' =
    if decide (t' = tier) then Some (if placed u s c then u + s else u)
    else usage (self w) !! t'.
Proof.
  intros Hs Hu Hc. rewrite (add_artifact_eq w a tier s u c Hs Hu Hc).
  cbn [snd self usage].
  destruct (placed u s c); case_decide; subst;
    rewrite ?lookup_insert_eq, ?lookup_insert_ne by congruence; congruence.
Qed.

Lemma add_artifact_sizes w a tier :
  artifact_sizes (self (add_artifact a tier w).2) = artifact_sizes (self w).
Proof.
  destruct (add_artifact_cases w a tier) as [E|(s & u & c & Hs & Hu & Hc)].
  - rewrite E. reflexivity.
  - rewrite (add_artifact_eq w a tier s u c Hs Hu Hc). reflexivity.
Qed.

Lemma post_scale_capacity_ge u s c : 0 <= c -> c <= post_scale_capacity u s c.
Proof.
  intros Hc. unfold post_scale_capacity.
  destruct (Qgt_bool (u + s) (c * 0.8)); lra.
Qed.

(** *** The invariant and its preservation *)

Lemma fresh_invariant : invariant fresh.
Proof.
  split.
  - intros []; split; vm_compute; eauto.
  - intros []; vm_compute; eauto.
  - intros [] u c Hu Hc; vm_compute in Hu, Hc;
      injection Hu as <-; injection Hc as <-; lra.
  - intros [] c Hc; vm_compute in Hc; injection Hc as <-; lra.
Qed.

Lemma add_artifact_invariant w a tier :
  invariant w -> invariant (add_artifact a tier w).2.
Proof.
  intros [Ht Hz Hw Hn].
  destruct (Hz (type a)) as [s Hs].
  destruct (Ht tier) as [[u Hu] [c Hc]].
  pose proof (Hw _ _ _ Hu Hc) as Huc. pose proof (Hn _ _ Hc) as H0c.
  pose proof (post_scale_capacity_ge u s c H0c) as Hge.
  split.
  - intros t'.
    rewrite (add_artifact_usage w a tier s u c t' Hs Hu Hc),
            (add_artifact_capacity w a tier s u c t' Hs Hu Hc).
    case_decide; [split; eauto | apply Ht].
  - intros ty. rewrite add_artifact_sizes. apply Hz.
  - intros t' u' c'.
    rewrite (add_artifact_usage w a tier s u c t' Hs Hu Hc),
            (add_artifact_capacity w a tier s u c t' Hs Hu Hc).
    case_decide; [|apply Hw].
    intros [= <-] [= <-]. unfold placed.
    destruct (Qle_bool (u + s) (post_scale_capacity u s c)) eqn:E.
    + apply Qle_bool_iff in E. exact E.
    + lra.
  - intros t' c'.
    rewrite (add_artifact_capacity w a tier s u c t' Hs Hu Hc).
    case_decide; [|apply Hn].
    intros [= <-]. lra.
Qed.

Lemma adjust_resources_invariant w tier :
  invariant w -> invariant (adjust_resources tier w).2.
Proof.
  intros [Ht Hz Hw Hn].
  destruct (Ht tier) as [[u Hu] [c Hc]].
  pose proof (Hw _ _ _ Hu Hc) as Huc. pose proof (Hn _ _ Hc) as H0c.
  rewrite (adjust_resources_eq w tier c Hc). cbn [snd].
  split; cbn [self capacities usage artifact_sizes].
  - intros t'. destruct (decide (t' = tier)) as [->|Hne].
    + rewrite lookup_insert_eq. split; eauto.
    + rewrite lookup_insert_ne by congruence. apply Ht.
  - exact Hz.
  - intros t' u' c'. destruct (decide (t' = tier)) as [->|Hne].
    + rewrite lookup_insert_eq, Hu. intros [= <-] [= <-]. lra.
    + rewrite lookup_insert_ne by congruence. apply Hw.
  - intros t' c'. destruct (decide (t' = tier)) as [->|Hne].
    + rewrite lookup_insert_eq. intros [= <-]. lra.
    + rewrite lookup_insert_ne by congruence. apply Hn.
Qed.

Lemma run_op_invariant o w : invariant w -> invariant (run_op o w).2.
Proof.
  intros Hinv. destruct o as [a tier|tier|]; cbn [run_op].
  - pose proof (add_artifact_invariant w a tier Hinv) as H.
    unfold bind. destruct (add_artifact a tier w) as [[b|e] w']; exact H.
  - apply adjust_resources_invariant, Hinv.
  - exact Hinv.
Qed.

Lemma run_ops_invariant ops :
  forall w, invariant w -> invariant (run_ops ops w).
Proof.
  induction ops as [|o ops IH]; intros w Hinv; cbn [run_ops]; [exact Hinv|].
  pose proof (run_op_invariant o w Hinv) as H.
  destruct (run_op o w) as [[v|e] w']; cbn [snd] in H; auto.
Qed.

Lemma invariant_within w t :
  invariant w ->
  exists u c,
    usage (self w) !! t = Some u /\ capacities (self w) !! t = Some c /\ u <= c.
Proof.
  intros Hinv. destruct (inv_tiers w Hinv t) as [[u Hu] [c Hc]].
  exists u, c. repeat split; trivial. exact (inv_within w Hinv t u c Hu Hc).
Qed.

(** No call raises on a manager that satisfies the invariant. *)
Lemma add_artifact_returns w a tier :
  invariant w -> exists b, (add_artifact a tier w).1 = Returned b.
Proof.
  intros [Ht Hz _ _].
  destruct (Hz (type a)) as [s Hs]. destruct (Ht tier) as [[u Hu] [c Hc]].
  rewrite (add_artifact_eq w a tier s u c Hs Hu Hc). eauto.
Qed.

Lemma run_op_returns o w :
  invariant w -> exists v, (run_op o w).1 = Returned v.
Proof.
  intros Hinv. destruct o as [a tier|tier|]; cbn [run_op].
  - destruct (add_artifact_returns w a tier Hinv) as [b Hb].
    unfold bind.
    destruct (add_artifact a tier w) as [[b'|e] w']; cbn [fst] in *;
      [eexists; reflexivity|discriminate].
  - destruct (inv_tiers w Hinv tier) as [_ [c Hc]].
    rewrite (adjust_resources_eq w tier c Hc). eauto.
  - eexists; reflexivity.
Qed.

Lemma run_ops_app ops1 ops2 w :
  invariant w ->
  run_ops (ops1 ++ ops2) w = run_ops ops2 (run_ops ops1 w).
Proof.
  revert w.
  induction ops1 as [|o ops1 IH]; intros w Hinv; cbn [run_ops app];
    [reflexivity|].
  destruct (run_op_returns o w Hinv) as [v Hv].
  pose proof (run_op_invariant o w Hinv) as Hinv1.
  destruct (run_op o w) as [[v'|e] w1]; cbn [fst snd] in *; [|discriminate].
  apply IH, Hinv1.
Qed.

(** C1.  After every call of any sequence of [add_artifact] calls on a
    fresh manager, every tier has [usage[tier] <= capacities[tier]]; so it
    has at the one point inside a call where the state has changed but the
    call has not returned (after [adjust_resources], for whichever tier);
    and no call of the sequence raises. *)
Theorem used_within_capacity_after_every_call :
  forall (calls : list (Artifact * StorageTier.t)) (n : nat)
         (t : StorageTier.t),
    let w := run_ops (take n (place_all calls)) fresh in
    (exists u c,
       usage (self w) !! t = Some u /\
       capacities (self w) !! t = Some c /\
       u <= c) /\
    (forall tier,
       let w1 := (adjust_resources tier w).2 in
       exists u c,
         usage (self w1) !! t = Some u /\
         capacities (self w1) !! t = Some c /\
         u <= c) /\
    (forall a tier, exists b, (add_artifact a tier w).1 = Returned b).
Proof.
  intros calls n t w.
  assert (Hinv : invariant w) by apply run_ops_invariant, fresh_invariant.
  split; [|split].
  - apply invariant_within, Hinv.
  - intros tier w1. apply invariant_within, adjust_resources_invariant, Hinv.
  - intros a tier. apply add_artifact_returns, Hinv.
Qed.

(** *** Capacity only grows *)

Lemma run_op_capacity_mono o w t c :
  invariant w ->
  capacities (self w) !! t = Some c ->
  exists c', capacities (self (run_op o w).2) !! t = Some c' /\ c <= c'.
Proof.
  intros Hinv Hc. pose proof (inv_nonneg w Hinv) as Hn.
  destruct o as [a tier|tier|]; cbn [run_op].
  - destruct (inv_sizes w Hinv (type a)) as [s Hs].
    destruct (inv_tiers w Hinv tier) as [[u Hu] [c0 Hc0]].
    pose proof (add_artifact_capacity w a tier s u c0 t Hs Hu Hc0) as Hcap.
    assert (Hsnd : ((add_artifact a tier;;; ret tt)%py w).2
                   = (add_artifact a tier w).2).
    { unfold bind. destruct (add_artifact a tier w) as [[b|e] w'];
        reflexivity. }
    rewrite Hsnd, Hcap.
    case_decide as Ht; [subst t|exists c; split; [exact Hc|lra]].
    rewrite Hc in Hc0. injection Hc0 as <-.
    eexists; split; [reflexivity|]. apply post_scale_capacity_ge; eauto.
  - destruct (inv_tiers w Hinv tier) as [_ [c0 Hc0]].
    rewrite (adjust_resources_eq w tier c0 Hc0). cbn [snd self capacities].
    destruct (decide (t = tier)) as [->|Hne].
    + rewrite lookup_insert_eq. rewrite Hc in Hc0. injection Hc0 as <-.
      eexists; split; [reflexivity|]. specialize (Hn _ _ Hc). lra.
    + rewrite lookup_insert_ne by congruence. exists c; split; [exact Hc|lra].
  - exists c; split; [exact Hc|lra].
Qed.

Lemma run_ops_capacity_mono ops : forall w t c,
  invariant w ->
  capacities (self w) !! t = Some c ->
  exists c', capacities (self (run_ops ops w)) !! t = Some c' /\ c <= c'.
Proof.
  induction ops as [|o ops IH]; intros w t c Hinv Hc; cbn [run_ops].
  - exists c; split; [exact Hc|lra].
  - destruct (run_op_capacity_mono o w t c Hinv Hc) as (c1 & Hc1 & Hle1).
    pose proof (run_op_invariant o w Hinv) as Hinv1.
    destruct (run_op o w) as [[v|e] w1]; cbn [snd] in *.
    + destruct (IH w1 t c1 Hinv1 Hc1) as (c2 & Hc2 & Hle2).
      exists c2; split; [exact Hc2|lra].
    + exists c1; split; [exact Hc1|exact Hle1].
Qed.

(** C10.  A call [add_artifact a tier] leaves the usage and the capacity
    of every other tier, and the size table, as they were. *)
Theorem add_artifact_frame :
  forall w a tier t',
    t' <> tier ->
    let w' := (add_artifact a tier w).2 in
    usage (self w') !! t' = usage (self w) !! t' /\
    capacities (self w') !! t' = capacities (self w) !! t' /\
    artifact_sizes (self w') = artifact_sizes (self w).
Proof.
  intros w a tier t' Hne w'. subst w'.
  destruct (add_artifact_cases w a tier) as [E|(s & u & c & Hs & Hu & Hc)].
  - rewrite E. auto.
  - rewrite (add_artifact_usage w a tier s u c t' Hs Hu Hc),
            (add_artifact_capacity w a tier s u c t' Hs Hu Hc),
            add_artifact_sizes.
    case_decide; [contradiction|auto].
Qed.

Lemma add_artifact_frame_witness :
  StorageTier.WARM <> StorageTier.HOT /\
  (let w' := (add_artifact video StorageTier.HOT
                (manager_with StorageTier.HOT 100 76)).2 in
   usage (self w') !! StorageTier.WARM
     = usage (self (manager_with StorageTier.HOT 100 76)) !! StorageTier.WARM /\
   capacities (self w') !! StorageTier.WARM
     = capacities (self (manager_with StorageTier.HOT 100 76))
         !! StorageTier.WARM /\
   artifact_sizes (self w')
     = artifact_sizes (self (manager_with StorageTier.HOT 100 76))).
Proof.
  assert (H : StorageTier.WARM <> StorageTier.HOT) by discriminate.
  exact (conj H (add_artifact_frame (manager_with StorageTier.HOT 100 76)
                   video StorageTier.HOT StorageTier.WARM H)).
Defined.

(** *** Placements on a manager built by [__init__] *)

(** With the built-in sizes and capacities no placement ever fails. *)

Lemma run_op_sizes o w :
  artifact_sizes (self (run_op o w).2) = artifact_sizes (self w).
Proof.
  destruct o as [a tier|tier|]; cbn [run_op].
  - pose proof (add_artifact_sizes w a tier) as H.
    unfold bind. destruct (add_artifact a tier w) as [[b|e] w']; exact H.
  - destruct (capacities (self w) !! tier) as [c|] eqn:Hc.
    + rewrite (adjust_resources_eq w tier c Hc). reflexivity.
    + rewrite (adjust_resources_KeyError w tier Hc). reflexivity.
  - reflexivity.
Qed.

Lemma fresh_provisioned : provisioned fresh.
Proof.
  split; [apply fresh_invariant | reflexivity |].
  intros [] c Hc; vm_compute in Hc; injection Hc as <-; lra.
Qed.

Lemma run_op_provisioned o w : provisioned w -> provisioned (run_op o w).2.
Proof.
  intros [Hinv Hsz Hcap]. split.
  - apply run_op_invariant, Hinv.
  - rewrite run_op_sizes. exact Hsz.
  - intros t c' Hc'.
    destruct (inv_tiers w Hinv t) as [_ [c Hc]].
    destruct (run_op_capacity_mono o w t c Hinv Hc) as (c1 & Hc1 & Hle).
    rewrite Hc1 in Hc'. injection Hc' as <-.
    specialize (Hcap t c Hc). lra.
Qed.

Lemma run_ops_provisioned ops :
  forall w, provisioned w -> provisioned (run_ops ops w).
Proof.
  induction ops as [|o ops IH]; intros w Hp; cbn [run_ops]; [exact Hp|].
  pose proof (run_op_provisioned o w Hp) as H.
  destruct (run_op o w) as [[v|e] w']; cbn [snd] in H; auto.
Qed.

Lemma init_size_le_5 ty s : artifact_sizes init !! ty = Some s -> s <= 5.
Proof.
  destruct ty; intros H; vm_compute in H; injection H as <-; lra.
Qed.

Lemma add_artifact_succeeds w a tier :
  provisioned w -> (add_artifact a tier w).1 = Returned true.
Proof.
  intros [Hinv Hsz Hcap].
  destruct (inv_sizes w Hinv (type a)) as [s Hs].
  destruct (inv_tiers w Hinv tier) as [[u Hu] [c Hc]].
  pose proof (inv_within w Hinv tier u c Hu Hc) as Huc.
  specialize (Hcap tier c Hc).
  assert (Hs5 : s <= 5)
    by (apply (init_size_le_5 (type a)); rewrite <- Hsz; exact Hs).
  rewrite (add_artifact_eq w a tier s u c Hs Hu Hc). cbn [fst]. f_equal.
  apply Qle_bool_iff. unfold post_scale_capacity.
  destruct (Qgt_bool (u + s) (c * 0.8)) eqn:E.
  - lra.
  - apply Qgt_bool_false_iff in E. lra.
Qed.

Lemma placement_from_init_never_fails (ops : list op) a tier :
  (add_artifact a tier (run_ops ops fresh)).1 = Returned true.
Proof. apply add_artifact_succeeds, run_ops_provisioned, fresh_provisioned. Qed.

End ScalabilityProps.

(** ** The storage resource manager on binary64 numbers *)

Module Scalability64Props.
Import Classification Scalability64.
Local Open Scope float_scope.

Ltac py64_step :=
  cbv beta iota delta [bind gets ret raise modify getitem];
  cbn [self capacities Scalability64.usage artifact_sizes stdout fst snd].

Ltac py64_lookup :=
  match goal with
  | H : ?m !! ?k = _ |- context [?m !! ?k] => rewrite H
  | |- context [<[?k := _]> _ !! ?k] => rewrite lookup_insert_eq
  end.

Ltac py64_run := repeat first [progress py64_step | py64_lookup].

(** *** What the two methods compute *)

Lemma adjust_resources64_eq w tier c :
  capacities (self w) !! tier = Some c ->
  adjust_resources tier w =
    (Returned tt,
     {| self := {| capacities := <[tier := c + c * 0.5]> (capacities (self w));
                   usage := usage (self w);
                   artifact_sizes := artifact_sizes (self w) |};
        stdout := stdout w ++ [Scaled tier (c + c * 0.5)] |}).
Proof.
  intros Hc. unfold adjust_resources, capacity_of, set_capacity, print.
  py64_run. reflexivity.
Qed.

Lemma adjust_resources64_KeyError w tier :
  capacities (self w) !! tier = None ->
  adjust_resources tier w = (Raised KeyError, w).
Proof.
  intros Hc. unfold adjust_resources, capacity_of. py64_run. reflexivity.
Qed.

Lemma add_artifact64_eq w a tier s u c :
  artifact_sizes (self w) !! type a = Some s ->
  usage (self w) !! tier = Some u ->
  capacities (self w) !! tier = Some c ->
  add_artifact a tier w =
    (Returned (u + s <=? (if c * 0x1.999999999999ap-1 <? u + s
                          then c + c * 0.5 else c)),
     {| self :=
          {| capacities :=
               if c * 0x1.999999999999ap-1 <? u + s
               then <[tier := c + c * 0.5]> (capacities (self w))
               else capacities (self w);
             usage :=
               if u + s <=? (if c * 0x1.999999999999ap-1 <? u + s
                             then c + c * 0.5 else c)
               then <[tier := u + s]> (usage (self w))
               else usage (self w);
             artifact_sizes := artifact_sizes (self w) |};
        stdout :=
          if c * 0x1.999999999999ap-1 <? u + s
          then stdout w ++ [Scaled tier (c + c * 0.5)]
          else stdout w |}).
Proof.
  intros Hs Hu Hc. destruct w as [[caps us sz] out].
  cbn [self capacities usage artifact_sizes stdout] in *.
  unfold add_artifact, size_of, usage_of, capacity_of.
  py64_run.
  destruct (c * 0x1.999999999999ap-1 <? u + s).
  - rewrite (adjust_resources64_eq _ tier c) by exact Hc.
    py64_run.
    destruct (u + s <=? c + c * 0.5); [unfold set_usage|];
      py64_run; reflexivity.
  - py64_run.
    destruct (u + s <=? c); [unfold set_usage|]; py64_run; reflexivity.
Qed.

Lemma add_artifact64_KeyError w a tier :
  artifact_sizes (self w) !! type a = None \/
  usage (self w) !! tier = None \/
  capacities (self w) !! tier = None ->
  add_artifact a tier w = (Raised KeyError, w).
Proof.
  intros H. unfold add_artifact, size_of, usage_of, capacity_of.
  py64_step.
  destruct (artifact_sizes (self w) !! type a) as [s|] eqn:Hs;
    py64_step; [|reflexivity].
  destruct (usage (self w) !! tier) as [u|] eqn:Hu; py64_step; [|reflexivity].
  destruct (capacities (self w) !! tier) as [c|] eqn:Hc;
    py64_step; [|reflexivity].
  destruct H as [H|[H|H]]; discriminate.
Qed.

Lemma add_artifact64_cases w a tier :
  add_artifact a tier w = (Raised KeyError, w) \/
  (exists s u c,
     artifact_sizes (self w) !! type a = Some s /\
     usage (self w) !! tier = Some u /\
     capacities (self w) !! tier = Some c).
Proof.
  destruct (artifact_sizes (self w) !! type a) as [s|] eqn:Hs;
    [|left; apply add_artifact64_KeyError; auto].
  destruct (usage (self w) !! tier) as [u|] eqn:Hu;
    [|left; apply add_artifact64_KeyError; auto].
  destruct (capacities (self w) !! tier) as [c|] eqn:Hc;
    [|left; apply add_artifact64_KeyError; auto].
  right. eauto 6.
Qed.

(** *** Scaling precedes the commit check *)

(** C3 (as amended).  [add_artifact] calls [adjust_resources tier] exactly
    when the test [usage[tier] + size > capacities[tier] * 0.8] holds on
    the doubles the interpreter computes, and does so before the commit
    check: when the test holds one line is printed, the capacity becomes
    the double [c + c * 0.5] and the check compares with that value; when
    it does not, nothing is printed, the capacities are untouched and the
    check compares with [c].  The comparison is strict: a Video of size 5
    placed into a tier of capacity 100 and usage 75 reaches 80, which is
    not above the threshold [100 * 0.8 = 80.0], so no scaling happens; the
    call succeeds, the capacity stays 100 and the usage becomes 80. *)
Theorem add_artifact_scales_before_commit :
  (forall w a tier s u c,
     artifact_sizes (self w) !! type a = Some s ->
     usage (self w) !! tier = Some u ->
     capacities (self w) !! tier = Some c ->
     let r := add_artifact a tier w in
     ((c * 0x1.999999999999ap-1 <? u + s) = true ->
        stdout r.2 = stdout w ++ [Scaled tier (c + c * 0.5)] /\
        capacities (self r.2) = <[tier := c + c * 0.5]> (capacities (self w)) /\
        r.1 = Returned (u + s <=? c + c * 0.5)) /\
     ((c * 0x1.999999999999ap-1 <? u + s) = false ->
        stdout r.2 = stdout w /\
        capacities (self r.2) = capacities (self w) /\
        r.1 = Returned (u + s <=? c))) /\
  (let r := add_artifact Scalability.video StorageTier.HOT
              (manager_with StorageTier.HOT 100 75) in
   r.1 = Returned true /\
   stdout r.2 = [] /\
   capacities (self r.2) !! StorageTier.HOT = Some 100 /\
   usage (self r.2) !! StorageTier.HOT = Some 80).
Proof.
  split.
  - intros w a tier s u c Hs Hu Hc r. subst r.
    rewrite (add_artifact64_eq w a tier s u c Hs Hu Hc).
    cbn [fst snd self capacities stdout].
    split; intros H; rewrite H; auto.
  - vm_compute. auto.
Qed.

Lemma add_artifact_scales_before_commit_witness :
  let w := manager_with StorageTier.HOT 100 76 in
  let r := add_artifact Scalability.video StorageTier.HOT w in
  (artifact_sizes (self w) !! type Scalability.video = Some 5 /\
   usage (self w) !! StorageTier.HOT = Some 76 /\
   capacities (self w) !! StorageTier.HOT = Some 100 /\
   (100 * 0x1.999999999999ap-1 <? 76 + 5) = true) /\
  stdout r.2 = stdout w ++ [Scaled StorageTier.HOT (100 + 100 * 0.5)] /\
  capacities (self r.2)
    = <[StorageTier.HOT := 100 + 100 * 0.5]> (capacities (self w)) /\
  r.1 = Returned (76 + 5 <=? 100 + 100 * 0.5).
Proof.
  intros w r.
  assert (Hs : artifact_sizes (self w) !! type Scalability.video = Some 5)
    by reflexivity.
  assert (Hu : usage (self w) !! StorageTier.HOT = Some 76) by reflexivity.
  assert (Hc : capacities (self w) !! StorageTier.HOT = Some 100)
    by reflexivity.
  assert (Hlt : (100 * 0x1.999999999999ap-1 <? 76 + 5) = true) by reflexivity.
  split; [auto|].
  exact (proj1 (proj1 add_artifact_scales_before_commit
                  w Scalability.video StorageTier.HOT 5 76 100 Hs Hu Hc) Hlt).
Defined.

(** C3, as stated, fails: in scenario D the call does not scale, and the
    capacity afterwards is 100, not 150. *)
Lemma scenario_D_does_not_scale :
  let w := manager_with StorageTier.HOT 100 75 in
  let r := add_artifact Scalability.video StorageTier.HOT w in
  capacities (self w) !! StorageTier.HOT = Some 100 /\
  usage (self w) !! StorageTier.HOT = Some 75 /\
  artifact_sizes (self w) !! type Scalability.video = Some 5 /\
  (100 * 0x1.999999999999ap-1 <? 75 + 5) = false /\
  r.1 = Returned true /\
  stdout r.2 = [] /\
  capacities (self r.2) !! StorageTier.HOT = Some 100 /\
  capacities (self r.2) !! StorageTier.HOT <> Some 150 /\
  usage (self r.2) !! StorageTier.HOT = Some 80.
Proof.
  vm_compute. repeat split; try reflexivity; discriminate.
Qed.

(** The test is made on the rounded product and the rounded sum.  With
    capacity 3 and usage 1.9000000000000004 a Document brings the usage
    to the double 2.4000000000000004, which is also what [3 * 0.8] rounds
    to: nothing scales, although 2.4000000000000004 is above 2.4. *)
Example threshold_on_rounded_numbers :
  let w := manager_with StorageTier.HOT 3 0x1.e666666666668p+0 in
  let r := add_artifact document StorageTier.HOT w in
  0x1.e666666666668p+0 + 0.5 = 3 * 0x1.999999999999ap-1 /\
  r.1 = Returned true /\
  stdout r.2 = [] /\
  capacities (self r.2) !! StorageTier.HOT = Some 3.
Proof. vm_compute. repeat split; reflexivity. Qed.

(** One unit more than in scenario D and the threshold trips (capacity
    150, usage 81). *)
Example scaling_at_usage_76 :
  let r := add_artifact Scalability.video StorageTier.HOT
             (manager_with StorageTier.HOT 100 76) in
  r.1 = Returned true /\
  stdout r.2 = [Scaled StorageTier.HOT 150] /\
  capacities (self r.2) !! StorageTier.HOT = Some 150 /\
  usage (self r.2) !! StorageTier.HOT = Some 81.
Proof. vm_compute. repeat split; reflexivity. Qed.

(** *** Failed placements *)

(** C4 (as amended).  When [add_artifact] returns [False] the usage of
    every tier, the size table and the capacity of every other tier are
    as before the call.  The capacity of the target tier is as before
    only if the threshold test was false; if it was true, the call has
    replaced it by the double [c + c * 0.5] and printed the line before
    the commit check failed. *)
Theorem add_artifact_failure_state :
  forall w a tier w',
    add_artifact a tier w = (Returned false, w') ->
    usage (self w') = usage (self w) /\
    artifact_sizes (self w') = artifact_sizes (self w) /\
    (forall t', t' <> tier ->
       capacities (self w') !! t' = capacities (self w) !! t') /\
    exists s u c,
      artifact_sizes (self w) !! type a = Some s /\
      usage (self w) !! tier = Some u /\
      capacities (self w) !! tier = Some c /\
      if c * 0x1.999999999999ap-1 <? u + s
      then capacities (self w') = <[tier := c + c * 0.5]> (capacities (self w)) /\
           stdout w' = stdout w ++ [Scaled tier (c + c * 0.5)] /\
           (u + s <=? c + c * 0.5) = false
      else capacities (self w') = capacities (self w) /\
           stdout w' = stdout w /\
           (u + s <=? c) = false.
Proof.
  intros w a tier w' H.
  destruct (add_artifact64_cases w a tier) as [E|(s & u & c & Hs & Hu & Hc)];
    [rewrite E in H; discriminate|].
  rewrite (add_artifact64_eq w a tier s u c Hs Hu Hc) in H.
  injection H as Hp <-. cbn [self usage artifact_sizes capacities stdout].
  rewrite Hp.
  split; [reflexivity|]. split; [reflexivity|]. split.
  - intros t' Hne. destruct (c * 0x1.999999999999ap-1 <? u + s); [|reflexivity].
    apply lookup_insert_ne. congruence.
  - exists s, u, c. split; [exact Hs|]. split; [exact Hu|]. split; [exact Hc|].
    destruct (c * 0x1.999999999999ap-1 <? u + s); auto.
Qed.

Lemma add_artifact_failure_state_witness :
  let w := manager_with StorageTier.HOT 2 0 in
  let w' := (add_artifact Scalability.video StorageTier.HOT w).2 in
  add_artifact Scalability.video StorageTier.HOT w = (Returned false, w') /\
  usage (self w') = usage (self w) /\
  artifact_sizes (self w') = artifact_sizes (self w) /\
  (forall t', t' <> StorageTier.HOT ->
     capacities (self w') !! t' = capacities (self w) !! t') /\
  exists s u c,
    artifact_sizes (self w) !! type Scalability.video = Some s /\
    usage (self w) !! StorageTier.HOT = Some u /\
    capacities (self w) !! StorageTier.HOT = Some c /\
    if c * 0x1.999999999999ap-1 <? u + s
    then capacities (self w')
           = <[StorageTier.HOT := c + c * 0.5]> (capacities (self w)) /\
         stdout w' = stdout w ++ [Scaled StorageTier.HOT (c + c * 0.5)] /\
         (u + s <=? c + c * 0.5) = false
    else capacities (self w') = capacities (self w) /\
         stdout w' = stdout w /\
         (u + s <=? c) = false.
Proof.
  intros w w'.
  assert (H : add_artifact Scalability.video StorageTier.HOT w
              = (Returned false, w')) by reflexivity.
  exact (conj H (add_artifact_failure_state w Scalability.video
                   StorageTier.HOT w' H)).
Defined.

(** C4, as stated, fails: a Video does not fit a Hot tier of capacity 2
    and the call returns [False], but the capacity is 3 afterwards. *)
Lemma failed_placement_changes_capacity :
  let w := manager_with StorageTier.HOT 2 0 in
  let r := add_artifact Scalability.video StorageTier.HOT w in
  r.1 = Returned false /\
  capacities (self w) !! StorageTier.HOT = Some 2 /\
  capacities (self r.2) !! StorageTier.HOT = Some 3 /\
  capacities (self r.2) !! StorageTier.HOT
    <> capacities (self w) !! StorageTier.HOT /\
  stdout r.2 = [Scaled StorageTier.HOT 3].
Proof.
  vm_compute. repeat split; try reflexivity; discriminate.
Qed.

(** *** Capacities along a run *)

Lemma scaled_times_S n : forall c,
  scaled_times (S n) c = scaled (scaled_times n c).
Proof.
  induction n as [|n IH]; intros c; [reflexivity|].
  change (scaled_times (S (S n)) c) with (scaled_times (S n) (scaled c)).
  rewrite IH. reflexivity.
Qed.

Lemma scalings_app t out out' :
  scalings t (out ++ out') = (scalings t out + scalings t out')%nat.
Proof.
  induction out as [|[t0 c0] out IH]; cbn [app scalings]; [reflexivity|].
  rewrite IH. lia.
Qed.

Lemma fresh_tracked : tracked fresh.
Proof.
  split.
  - intros []; split; vm_compute; eauto.
  - intros []; vm_compute; eauto.
  - intros t c Hc. exists c. split; [exact Hc|reflexivity].
Qed.

Lemma scaling_tracked w tier c :
  tracked w ->
  capacities (self w) !! tier = Some c ->
  tracked {| self := {| capacities := <[tier := c + c * 0.5]> (capacities (self w));
                        usage := usage (self w);
                        artifact_sizes := artifact_sizes (self w) |};
             stdout := stdout w ++ [Scaled tier (c + c * 0.5)] |}.
Proof.
  intros [Ht Hs Hl] Hc. split; cbn [self capacities usage artifact_sizes stdout].
  - intros t. split; [apply Ht|].
    destruct (decide (t = tier)) as [->|Hne];
      [rewrite lookup_insert_eq; eauto
      |rewrite lookup_insert_ne by congruence; apply Ht].
  - exact Hs.
  - intros t c'. rewrite scalings_app. cbn [scalings].
    destruct (decide (t = tier)) as [->|Hne].
    + rewrite lookup_insert_eq. intros [= <-].
      destruct (Hl tier c Hc) as (c0 & Hc0 & Heq).
      exists c0. split; [exact Hc0|].
      rewrite decide_True by reflexivity.
      replace (scalings tier (stdout w) + (1 + 0))%nat
        with (S (scalings tier (stdout w))) by lia.
      rewrite scaled_times_S, <- Heq. reflexivity.
    + rewrite lookup_insert_ne by congruence. intros Hc'.
      destruct (Hl t c' Hc') as (c0 & Hc0 & Heq).
      exists c0. split; [exact Hc0|].
      rewrite decide_False by congruence.
      replace (scalings t (stdout w) + (0 + 0))%nat
        with (scalings t (stdout w)) by lia.
      exact Heq.
Qed.

Lemma usage_tracked w tier v :
  tracked w ->
  tracked {| self := {| capacities := capacities (self w);
                        usage := <[tier := v]> (usage (self w));
                        artifact_sizes := artifact_sizes (self w) |};
             stdout := stdout w |}.
Proof.
  intros [Ht Hs Hl]. split; cbn [self capacities usage artifact_sizes stdout].
  - intros t. split; [|apply Ht].
    destruct (decide (t = tier)) as [->|Hne];
      [rewrite lookup_insert_eq; eauto
      |rewrite lookup_insert_ne by congruence; apply Ht].
  - exact Hs.
  - exact Hl.
Qed.

Lemma run_op64_tracked o w :
  tracked w ->
  exists w' out,
    run_op o w = (Returned tt, w') /\ tracked w' /\
    stdout w' = stdout w ++ out.
Proof.
  intros Htr. destruct o as [a tier|tier|]; cbn [run_op].
  - destruct (tracked_sizes w Htr (type a)) as [s Hs].
    destruct (tracked_tiers w Htr tier) as [[u Hu] [c Hc]].
    unfold bind. rewrite (add_artifact64_eq w a tier s u c Hs Hu Hc).
    unfold ret.
    destruct (c * 0x1.999999999999ap-1 <? u + s).
    + pose proof (scaling_tracked w tier c Htr Hc) as Htr'.
      eexists _, [Scaled tier (c + c * 0.5)]. split; [reflexivity|].
      split; [|reflexivity].
      destruct (u + s <=? c + c * 0.5); [|exact Htr'].
      apply (usage_tracked _ tier (u + s)) in Htr'. exact Htr'.
    + eexists _, []. split; [reflexivity|].
      split; [|cbn [stdout]; symmetry; apply app_nil_r].
      destruct (u + s <=? c).
      * pose proof (usage_tracked w tier (u + s) Htr) as Htr'.
        destruct w as [[caps us sz] out]. exact Htr'.
      * destruct w as [[caps us sz] out]. exact Htr.
  - destruct (tracked_tiers w Htr tier) as [_ [c Hc]].
    rewrite (adjust_resources64_eq w tier c Hc).
    eexists _, _. split; [reflexivity|].
    split; [apply scaling_tracked; assumption|reflexivity].
  - exists w, []. split; [reflexivity|]. split; [exact Htr|].
    symmetry. apply app_nil_r.
Qed.

Lemma run_ops64_tracked ops : forall w,
  tracked w ->
  tracked (run_ops ops w) /\
  exists out, stdout (run_ops ops w) = stdout w ++ out.
Proof.
  induction ops as [|o ops IH]; intros w Htr; cbn [run_ops].
  - split; [exact Htr|]. exists []. symmetry. apply app_nil_r.
  - destruct (run_op64_tracked o w Htr) as (w' & out & Hrun & Htr' & Hout).
    rewrite Hrun. destruct (IH w' Htr') as [Htr'' [out' Hout']].
    split; [exact Htr''|]. exists (out ++ out').
    rewrite Hout', Hout, app_assoc. reflexivity.
Qed.


(** *** Scaling never lowers a capacity of [__init__] *)










(** *** The capacity in closed form *)

Lemma exact_so_far_all c0 (bound : nat) :
  forallb (exact_so_far c0) (seq 0 (S bound)) = true ->
  forall n, (n <= bound)%nat ->
    exists q0 q,
      exact c0 = Some q0 /\ exact (scaled_times n c0) = Some q /\
      (q == q0 * (3 # 2) ^ Z.of_nat n)%Q.
Proof.
  intros Hall n Hn. rewrite forallb_forall in Hall.
  specialize (Hall n). unfold exact_so_far in Hall.
  destruct (exact c0) as [q0|]; [|discriminate Hall; apply in_seq; lia].
  destruct (exact (scaled_times n c0)) as [q|];
    [|discriminate Hall; apply in_seq; lia].
  exists q0, q. split; [reflexivity|]. split; [reflexivity|].
  apply Qeq_bool_iff, Hall, in_seq. lia.
Qed.

(** Why the manager has to start from [__init__]: scaling a negative
    capacity lowers it. *)
Example scaling_lowers_negative_capacity :
  let w := manager_with StorageTier.HOT (-100) 0 in
  capacities (self (adjust_resources StorageTier.HOT w).2) !! StorageTier.HOT
    = Some (-150) /\
  (-150 <? -100) = true.
Proof. vm_compute. split; reflexivity. Qed.

(** X9. The capacity of a tier is its initial capacity scaled once for
    each "Scaled ..." line printed for that tier: capacity changes only
    by scaling, and every scaling is printed.  While at most 29 lines
    have been printed for the tier, no scaling has rounded and the
    capacity is exactly the initial capacity times 1.5 to that number. *)
Theorem capacity_is_initial_times_scalings :
  forall (ops : list Scalability.op) (t : StorageTier.t),
    exists c c0,
      capacities (self (run_ops ops fresh)) !! t = Some c /\
      capacities init !! t = Some c0 /\
      c = scaled_times (scalings t (stdout (run_ops ops fresh))) c0 /\
      ((scalings t (stdout (run_ops ops fresh)) <= 29)%nat ->
       exists q0 q,
         exact c0 = Some q0 /\ exact c = Some q /\
         (q == q0 * (3 # 2) ^ Z.of_nat (scalings t (stdout (run_ops ops fresh))))%Q).
Proof.
  intros ops t.
  destruct (run_ops64_tracked ops fresh fresh_tracked) as [Htr _].
  destruct (tracked_tiers _ Htr t) as [_ [c Hc]].
  destruct (tracked_capacity _ Htr t c Hc) as (c0 & Hc0 & Heq).
  exists c, c0. split; [exact Hc|]. split; [exact Hc0|]. split; [exact Heq|].
  intros Hn. rewrite Heq.
  apply (exact_so_far_all c0 29); [|exact Hn].
  destruct t; vm_compute in Hc0; injection Hc0 as <-; vm_compute; reflexivity.
Qed.
End Scalability64Props.

(** ** Retrieval admission control *)

Module RetrievalProps.
Import Retrieval.

Ltac rt_step :=
  cbv beta iota delta [bind gets ret raise modify getitem try_finally
                       on_exception with_lock set_lock set_current_requests
                       sleep];
  cbn [latencies max_concurrent_requests current_requests lock fst snd].

(** The sibling of [Classification.get_usage_frequency]: here the recency
    test compares the elapsed time itself with 30 days. *)
Lemma get_usage_frequency_exact_days a now :
  get_usage_frequency a now =
    if Qlt_le_dec (30 * (24 * 3600)) (now - last_accessed a)
    then UsageFrequency.LOW
    else if decide (10 < access_count a) then UsageFrequency.HIGH
    else if decide (1 <= access_count a) then UsageFrequency.MEDIUM
    else UsageFrequency.LOW.
Proof.
  unfold get_usage_frequency, days_since_access.
  destruct (Qlt_le_dec (30 * (24 * 3600)) (now - last_accessed a)) as [H|H].
  - assert (E : Qgt_bool ((now - last_accessed a) / (24 * 3600)) 30 = true).
    { apply Qgt_bool_iff.
      apply (Qmult_lt_r _ _ (24 * 3600)); [reflexivity|].
      rewrite (Qmult_comm (_ / _)), Qmult_div_r by discriminate. exact H. }
    rewrite E. reflexivity.
  - assert (E : Qgt_bool ((now - last_accessed a) / (24 * 3600)) 30 = false).
    { apply Qgt_bool_false_iff.
      apply (Qmult_le_r _ _ (24 * 3600)); [reflexivity|].
      rewrite (Qmult_comm (_ / _)), Qmult_div_r by discriminate. exact H. }
    rewrite E.
    destruct (Z.ltb_spec 10 (access_count a));
      case_decide; try lia; try reflexivity.
    destruct (Z.leb_spec 1 (access_count a));
      case_decide; try lia; reflexivity.
Qed.

Example usage_low_30_days_12_hours_after_access (now : Q) :
  get_usage_frequency (stale_busy now) now = UsageFrequency.LOW.
Proof.
  rewrite get_usage_frequency_exact_days.
  destruct (Qlt_le_dec _ _) as [_|H]; [reflexivity|].
  cbn [stale_busy last_accessed] in H. exfalso. lra.
Qed.

(** *** What the steps compute *)

Lemma acquire_slot_eq b :
  acquire_slot b =
    if max_concurrent_requests b <=? current_requests b
    then (Raised overloaded, with_requests b (current_requests b))
    else (Returned tt, with_requests b (current_requests b + 1)).
Proof.
  unfold acquire_slot. rt_step.
  destruct (max_concurrent_requests b <=? current_requests b); reflexivity.
Qed.

Lemma release_slot_eq b :
  release_slot b = (Returned tt, with_requests b (current_requests b - 1)).
Proof. reflexivity. Qed.

Lemma start_eq tier jitter b :
  start tier jitter b =
    if max_concurrent_requests b <=? current_requests b
    then (Raised overloaded, with_requests b (current_requests b))
    else
      match latencies b !! tier with
      | Some base_latency =>
          (Returned (base_latency * jitter)%Q,
           with_requests b (current_requests b + 1))
      | None => (Raised KeyError, with_requests b (current_requests b + 1 - 1))
      end.
Proof.
  unfold start. unfold bind at 1. rewrite acquire_slot_eq.
  destruct (max_concurrent_requests b <=? current_requests b); [reflexivity|].
  unfold draw_latency. rt_step. unfold with_requests at 1 2. rt_step.
  destruct (latencies b !! tier); reflexivity.
Qed.

Lemma resume_eq latency fate b :
  resume latency fate b =
    (match fate with
     | Elapsed => Returned latency
     | Cancelled => Raised CancelledError
     end,
     with_requests b (current_requests b - 1)).
Proof. destruct fate; reflexivity. Qed.

Lemma retrieve_artifact_eq artifact_id tier jitter fate b :
  retrieve_artifact artifact_id tier jitter fate b =
    if max_concurrent_requests b <=? current_requests b
    then (Raised overloaded, with_requests b (current_requests b))
    else
      (match latencies b !! tier with
       | Some base_latency =>
           match fate with
           | Elapsed => Returned (base_latency * jitter)%Q
           | Cancelled => Raised CancelledError
           end
       | None => Raised KeyError
       end,
       with_requests b (current_requests b + 1 - 1)).
Proof.
  unfold retrieve_artifact. unfold bind at 1. rewrite acquire_slot_eq.
  destruct (max_concurrent_requests b <=? current_requests b); [reflexivity|].
  unfold draw_latency, release_slot. rt_step. unfold with_requests at 1 2 3. rt_step.
  destruct (latencies b !! tier); [|reflexivity].
  destruct fate; reflexivity.
Qed.

(** The two steps, run back to back, are the whole call. *)
Lemma retrieve_artifact_start_resume artifact_id tier jitter fate b :
  retrieve_artifact artifact_id tier jitter fate b =
    match start tier jitter b with
    | (Returned latency, b1) => resume latency fate b1
    | (Raised e, b1) => (Raised e, b1)
    end.
Proof.
  rewrite retrieve_artifact_eq, start_eq.
  destruct (max_concurrent_requests b <=? current_requests b); [reflexivity|].
  destruct (latencies b !! tier); [|reflexivity].
  rewrite resume_eq. reflexivity.
Qed.

(** *** The counter under interleaving *)

Lemma in_flight_insert ts : forall i t t',
  ts !! i = Some t ->
  in_flight (<[i := t']> ts) = in_flight ts - holds_slot t + holds_slot t'.
Proof.
  induction ts as [|t0 ts IH]; intros i t t' H; [discriminate|].
  destruct i as [|i].
  - injection H as ->.
    change (<[0%nat := t']> (t :: ts)) with (t' :: ts). cbn [in_flight]. lia.
  - change (<[S i := t']> (t0 :: ts)) with (t0 :: <[i := t']> ts).
    change ((t0 :: ts) !! S i) with (ts !! i) in H.
    cbn [in_flight]. rewrite (IH i t t' H). lia.
Qed.

Lemma step_consistent ev sys sys' :
  consistent sys -> step ev sys = Some sys' ->
  consistent sys' /\
  max_concurrent_requests (storage sys') = max_concurrent_requests (storage sys).
Proof.
  intros [Hl Hc Hb]. unfold step. rewrite Hl.
  destruct ev as [i jitter|i fate].
  - destruct (tasks sys !! i) as [[aid tier|l|r]|] eqn:Hi; try discriminate.
    rewrite start_eq.
    destruct (Z.leb_spec (max_concurrent_requests (storage sys))
                         (current_requests (storage sys))) as [Hfull|Hroom].
    + intros [= <-]. split; [split|]; cbn; trivial.
      rewrite (in_flight_insert _ _ _ _ Hi). cbn. lia.
    + destruct (latencies (storage sys) !! tier);
        intros [= <-]; (split; [split|]); cbn; trivial;
        rewrite ?(in_flight_insert _ _ _ _ Hi); cbn; lia.
  - destruct (tasks sys !! i) as [[aid tier|l|r]|] eqn:Hi; try discriminate.
    rewrite resume_eq. intros [= <-]. split; [split|]; cbn; trivial.
    + rewrite (in_flight_insert _ _ _ _ Hi). cbn. lia.
    + lia.
Qed.

Lemma run_events_consistent evs : forall sys,
  consistent sys ->
  consistent (run_events evs sys) /\
  max_concurrent_requests (storage (run_events evs sys)) =
    max_concurrent_requests (storage sys).
Proof.
  induction evs as [|ev evs IH]; intros sys H; cbn [run_events]; [auto|].
  destruct (step ev sys) as [sys'|] eqn:E; [|auto].
  destruct (step_consistent ev sys sys' H E) as [H' Hm].
  destruct (IH sys' H') as [H'' Hm']. split; [exact H''|congruence].
Qed.

Lemma launch_consistent m n : 0 <= m -> consistent (launch m n).
Proof.
  intros Hm. split; cbn; trivial.
  unfold created. induction n as [|n IH]; cbn; [reflexivity|exact IH].
Qed.

(** C2.  Under any schedule of retrieval tasks, at every point where the
    event loop can switch tasks the counter is at most
    [max_concurrent_requests] and equals the number of tasks that were
    let in and have not yet reached their [finally] block.  A call run on
    its own leaves the counter as it found it, whether it is rejected,
    returns, or fails during the latency step, and the counter stays within
    the limit in between.  Step by step: the counter goes up by one exactly
    when the call suspends in its sleep, and down by one when the call is
    resumed, whatever the sleep ended with. *)
Theorem in_flight_bounded_and_released :
  (forall (sys : system) (evs : list event),
     consistent sys ->
     let sys' := run_events evs sys in
     current_requests (storage sys')
       <= max_concurrent_requests (storage sys') /\
     current_requests (storage sys') = in_flight (tasks sys') /\
     max_concurrent_requests (storage sys')
       = max_concurrent_requests (storage sys)) /\
  (forall artifact_id tier jitter fate (b : StorageBackend),
     current_requests (retrieve_artifact artifact_id tier jitter fate b).2
       = current_requests b /\
     (current_requests b <= max_concurrent_requests b ->
      current_requests (acquire_slot b).2 <= max_concurrent_requests b)) /\
  (forall tier jitter latency fate (b : StorageBackend),
     current_requests (start tier jitter b).2 =
       (match (start tier jitter b).1 with
        | Returned _ => current_requests b + 1
        | Raised _ => current_requests b
        end) /\
     current_requests (resume latency fate b).2 = current_requests b - 1).
Proof.
  split; [|split].
  - intros sys evs H sys'. subst sys'.
    destruct (run_events_consistent evs sys H) as [[_ Hc Hb] Hm]. auto.
  - intros artifact_id tier jitter fate b.
    rewrite retrieve_artifact_eq, acquire_slot_eq.
    destruct (Z.leb_spec (max_concurrent_requests b) (current_requests b));
      cbn; split; lia.
  - intros tier jitter latency fate b. rewrite start_eq, resume_eq.
    split; [|reflexivity].
    destruct (max_concurrent_requests b <=? current_requests b); [reflexivity|].
    destruct (latencies b !! tier); cbn; lia.
Qed.

Lemma in_flight_bounded_and_released_witness :
  consistent (launch 1 2) /\
  (let sys' :=
     run_events [Run 0 1%Q; Run 1 1%Q; Wake 0 Cancelled] (launch 1 2) in
   current_requests (storage sys')
     <= max_concurrent_requests (storage sys') /\
   current_requests (storage sys') = in_flight (tasks sys') /\
   max_concurrent_requests (storage sys')
     = max_concurrent_requests (storage (launch 1 2))) /\
  (current_requests (backend_with 1 0) <= max_concurrent_requests (backend_with 1 0) /\
   current_requests (acquire_slot (backend_with 1 0)).2
     <= max_concurrent_requests (backend_with 1 0)).
Proof.
  assert (H : consistent (launch 1 2)) by (apply launch_consistent; lia).
  assert (H' : current_requests (backend_with 1 0)
               <= max_concurrent_requests (backend_with 1 0)) by (cbn; lia).
  split; [exact H|]. split.
  - exact (proj1 in_flight_bounded_and_released (launch 1 2)
             [Run 0 1%Q; Run 1 1%Q; Wake 0 Cancelled] H).
  - split; [exact H'|].
    exact (proj2 (proj1 (proj2 in_flight_bounded_and_released)
                    "A0000" StorageTier.HOT 1%Q Elapsed (backend_with 1 0)) H').
Defined.

(** C9.  [retrieve_artifact] raises the "System overloaded" error if and
    only if [current_requests >= max_concurrent_requests] when it is
    called; the rejected call ends with the admission block, where the
    counter is neither incremented nor decremented. *)
Theorem overloaded_iff_at_limit :
  forall artifact_id tier jitter fate (b : StorageBackend),
    let r := retrieve_artifact artifact_id tier jitter fate b in
    (r.1 = Raised overloaded <->
     max_concurrent_requests b <= current_requests b) /\
    (max_concurrent_requests b <= current_requests b ->
     current_requests r.2 = current_requests b /\
     r = (Raised overloaded, (acquire_slot b).2) /\
     (lock b = false -> r.2 = b)).
Proof.
  intros artifact_id tier jitter fate b r. subst r.
  rewrite retrieve_artifact_eq, acquire_slot_eq.
  destruct (Z.leb_spec (max_concurrent_requests b) (current_requests b))
    as [H|H]; cbn [fst snd].
  - split; [tauto|]. intros _. repeat split.
    intros Hl. destruct b as [lat m c l]. cbn in Hl |- *. subst l. reflexivity.
  - split; [|lia]. split; [|lia].
    destruct (latencies b !! tier); [destruct fate|]; discriminate.
Qed.

Lemma overloaded_iff_at_limit_witness :
  max_concurrent_requests (backend_with 1 1)
    <= current_requests (backend_with 1 1) /\
  (retrieve_artifact "A0000" StorageTier.HOT 1%Q Elapsed (backend_with 1 1)).1
    = Raised overloaded /\
  (retrieve_artifact "A0000" StorageTier.HOT 1%Q Elapsed (backend_with 1 1)).2
    = backend_with 1 1.
Proof.
  assert (H : max_concurrent_requests (backend_with 1 1)
              <= current_requests (backend_with 1 1)) by (cbn; lia).
  pose proof (overloaded_iff_at_limit "A0000" StorageTier.HOT 1%Q Elapsed
                (backend_with 1 1)) as [Hiff Hrej].
  split; [exact H|]. split.
  - apply Hiff, H.
  - apply (Hrej H). reflexivity.
Defined.

(** Scenario E: [m + 1] retrievals started in submission order while none
    completes; the first [m] get a slot and the last is rejected. *)
Example scenario_E :
  let sys :=
    run_events [Run 0 1%Q; Run 1 1%Q; Run 2 1%Q; Run 3 1%Q] (launch 3 4) in
  tasks sys !! 3%nat = Some (Finished (Raised overloaded)) /\
  in_flight (tasks sys) = 3 /\
  current_requests (storage sys) = 3.
Proof. vm_compute. auto. Qed.

End RetrievalProps.

(** ** More on the classifier *)

Module ClassificationMore.
Import Classification ClassificationSpec ClassificationProps.

Lemma classify_and_assign_rule a now :
  classify_and_assign a now =
    if decide (importance a = Importance.CRITICAL \/
               (now - last_accessed a < 31 * day_us /\ 10 < access_count a))
    then StorageTier.HOT
    else if decide (importance a = Importance.LOW /\
                    (31 * day_us <= now - last_accessed a \/ access_count a < 1))
    then StorageTier.COLD
    else StorageTier.WARM.
Proof.
  unfold classify_and_assign. rewrite get_usage_frequency_rule.
  destruct (importance a); repeat case_decide; try reflexivity;
    exfalso; intuition (try discriminate; try lia).
Qed.

(** X1. The tier as a function of the artifact's fields and the time of
    the call: [classify_and_assign] returns Hot exactly when the
    importance is Critical, or the artifact was accessed less than 31
    whole days ago and more than 10 times; it returns Cold exactly when
    the importance is Low and the artifact was accessed 31 days ago or
    earlier, or fewer than once.  Every other artifact is Warm. *)
Theorem tier_from_fields :
  forall a now,
    (classify_and_assign a now = StorageTier.HOT <->
     importance a = Importance.CRITICAL \/
     (now - last_accessed a < 31 * day_us /\ 10 < access_count a)) /\
    (classify_and_assign a now = StorageTier.COLD <->
     importance a = Importance.LOW /\
     (31 * day_us <= now - last_accessed a \/ access_count a < 1)).
Proof.
  intros a now. rewrite classify_and_assign_rule.
  repeat case_decide; split; split; intros; try discriminate; try reflexivity;
    try assumption; exfalso; intuition (try discriminate; try lia; try congruence).
Qed.

(** X2. An artifact never moves to a hotter tier by the passing of time
    alone: classified again at a later time, with its fields unchanged,
    its tier is the same or a colder one. *)
Theorem tier_cools_with_time :
  forall a now now',
    now <= now' ->
    tier_rank (classify_and_assign a now) <= tier_rank (classify_and_assign a now').
Proof.
  intros a now now' H. rewrite !classify_and_assign_rule.
  destruct (importance a); repeat case_decide; cbn; try lia;
    exfalso; intuition (try discriminate; try lia).
Qed.

Lemma tier_cools_with_time_witness :
  0 <= 30 * day_us /\
  tier_rank (classify_and_assign (with_access_count (A002 0) 15) 0)
    <= tier_rank (classify_and_assign (with_access_count (A002 0) 15)
                    (30 * day_us)).
Proof.
  assert (H : 0 <= 30 * day_us) by discriminate.
  exact (conj H (tier_cools_with_time (with_access_count (A002 0) 15)
                   0 (30 * day_us) H)).
Defined.

(** X3. More accesses never give a colder tier: with a larger
    [access_count] and everything else equal, the tier is the same or a
    hotter one. *)
Theorem tier_warms_with_accesses :
  forall a n now,
    access_count a <= n ->
    tier_rank (classify_and_assign (with_access_count a n) now)
      <= tier_rank (classify_and_assign a now).
Proof.
  intros a n now H. rewrite !classify_and_assign_rule.
  cbn [with_access_count importance access_count last_accessed].
  destruct (importance a); repeat case_decide; cbn; try lia;
    exfalso; intuition (try discriminate; try lia).
Qed.

Lemma tier_warms_with_accesses_witness :
  access_count (A002 0) <= 15 /\
  tier_rank (classify_and_assign (with_access_count (A002 0) 15) 0)
    <= tier_rank (classify_and_assign (A002 0) 0).
Proof.
  assert (H : access_count (A002 0) <= 15) by discriminate.
  exact (conj H (tier_warms_with_accesses (A002 0) 15 0 H)).
Defined.

Lemma Qdiv_million_gt (x : Q) :
  (2592000 < x / 1000000 <-> 2592000000000 < x)%Q.
Proof.
  split; intros H.
  - apply (Qmult_lt_r _ _ 1000000) in H; [|reflexivity].
    rewrite (Qmult_comm (x / _)), Qmult_div_r in H by discriminate. lra.
  - apply (Qmult_lt_r _ _ 1000000); [reflexivity|].
    rewrite (Qmult_comm (x / _)), Qmult_div_r by discriminate. lra.
Qed.

Lemma elapsed_seconds_gt_30_days (e : Z) (d : Q) :
  (d == inject_Z e / 1000000)%Q ->
  (30 * (24 * 3600) < d)%Q <-> 30 * Classification.day_us < e.
Proof.
  intros H. change (30 * Classification.day_us) with 2592000000000.
  rewrite Zlt_Qlt, H.
  change (inject_Z 2592000000000) with (2592000000000)%Q.
  rewrite <- Qdiv_million_gt.
  split; intros H'; lra.
Qed.

(** X4. The two copies of [get_usage_frequency] ([timedelta.days] in
    the classification script, seconds divided by [24 * 3600] in the
    retrieval script) and of [classify_and_assign] agree on the same
    artifact at the same time, unless the last access lies more than 30
    and less than 31 days back: there the retrieval script says Low,
    while the classification script says Low only for an artifact
    without accesses. *)
Theorem scripts_agree_outside_day_31 :
  forall a b now now',
    same_artifact a b now now' ->
    (now - Classification.last_accessed a <= 30 * Classification.day_us \/
     31 * Classification.day_us <= now - Classification.last_accessed a ->
     Retrieval.get_usage_frequency b now'
       = Classification.get_usage_frequency a now /\
     Retrieval.classify_and_assign b now'
       = Classification.classify_and_assign a now) /\
    (30 * Classification.day_us < now - Classification.last_accessed a
       < 31 * Classification.day_us ->
     Retrieval.get_usage_frequency b now' = UsageFrequency.LOW /\
     (1 <= Classification.access_count a ->
      Classification.get_usage_frequency a now <> UsageFrequency.LOW)).
Proof.
  intros a b now now' (Hc & Hi & He).
  pose proof (elapsed_seconds_gt_30_days _ _ He) as Hd.
  unfold Retrieval.classify_and_assign, Classification.classify_and_assign.
  rewrite RetrievalProps.get_usage_frequency_exact_days,
          ClassificationProps.get_usage_frequency_rule, <- Hc, <- Hi.
  change (31 * Classification.day_us) with 2678400000000 in *.
  change (30 * Classification.day_us) with 2592000000000 in *.
  split.
  - intros H.
    destruct (Qlt_le_dec _ _) as [Hq|Hq].
    + apply Hd in Hq. repeat case_decide; try lia; auto.
    + assert (~ 2592000000000 < now - Classification.last_accessed a)
        by (intros Hlt; apply Hd in Hlt; lra).
      repeat case_decide; try lia; auto.
  - intros H. split.
    + destruct (Qlt_le_dec _ _) as [Hq|Hq]; [reflexivity|].
      exfalso.
      assert (Hlt : (30 * (24 * 3600) < now' - Retrieval.last_accessed b)%Q)
        by (apply Hd; lia).
      lra.
    + intros H1. repeat case_decide; try discriminate; lia.
Qed.

Lemma scripts_agree_outside_day_31_witness :
  same_artifact (busy_datetime (timedelta 30 12))
                (busy_timestamp (timedelta 30 12)) 0 0 /\
  Retrieval.get_usage_frequency (busy_timestamp (timedelta 30 12)) 0
    = UsageFrequency.LOW /\
  Classification.get_usage_frequency (busy_datetime (timedelta 30 12)) 0
    <> UsageFrequency.LOW.
Proof.
  assert (H : same_artifact (busy_datetime (timedelta 30 12))
                            (busy_timestamp (timedelta 30 12)) 0 0)
    by (repeat split).
  split; [exact H|].
  destruct (scripts_agree_outside_day_31 _ _ 0 0 H) as [_ Hin].
  destruct Hin as [Hlow Hhigh]; [split; reflexivity|].
  split; [exact Hlow|]. apply Hhigh. discriminate.
Defined.
End ClassificationMore.

(** ** More on the storage resource manager *)

Module ScalabilityMore.
Import Classification Scalability ScalabilitySpec ScalabilityProps.
Local Open Scope Q_scope.

Lemma run_op_snd_add_artifact a tier w :
  (run_op (AddArtifact a tier) w).2 = (add_artifact a tier w).2.
Proof.
  cbn [run_op]. unfold bind.
  destruct (add_artifact a tier w) as [[b|e] w']; reflexivity.
Qed.

Lemma fresh_roomy : roomy fresh.
Proof.
  split; [apply fresh_invariant | reflexivity | |].
  - intros [] c Hc; vm_compute in Hc; injection Hc as <-; lra.
  - intros [] u c Hu Hc; vm_compute in Hu, Hc;
      injection Hu as <-; injection Hc as <-; lra.
Qed.

Lemma run_op_roomy o w : roomy w -> roomy (run_op o w).2.
Proof.
  intros [Hinv Hsz Hcap Huse]. split.
  - apply run_op_invariant, Hinv.
  - rewrite run_op_sizes. exact Hsz.
  - intros t c' Hc'.
    destruct (inv_tiers w Hinv t) as [_ [c Hc]].
    destruct (run_op_capacity_mono o w t c Hinv Hc) as (c1 & Hc1 & Hle).
    rewrite Hc1 in Hc'. injection Hc' as <-.
    specialize (Hcap t c Hc). lra.
  - destruct o as [a tier|tier|].
    + rewrite run_op_snd_add_artifact.
      destruct (inv_sizes w Hinv (type a)) as [s Hs].
      destruct (inv_tiers w Hinv tier) as [[u Hu] [c Hc]].
      assert (Hs5 : s <= 5)
        by (apply (init_size_le_5 (type a)); rewrite <- Hsz; exact Hs).
      pose proof (Hcap tier c Hc) as H100. pose proof (Huse tier u c Hu Hc) as H80.
      intros t u' c'.
      rewrite (add_artifact_usage w a tier s u c t Hs Hu Hc),
              (add_artifact_capacity w a tier s u c t Hs Hu Hc).
      case_decide; [|apply Huse].
      intros [= <-] [= <-]. unfold placed, post_scale_capacity.
      destruct (Qgt_bool (u + s) (c * 0.8)) eqn:E.
      * destruct (Qle_bool (u + s) (c + c * 0.5)); lra.
      * apply Qgt_bool_false_iff in E. destruct (Qle_bool (u + s) c); lra.
    + cbn [run_op]. destruct (inv_tiers w Hinv tier) as [[u Hu] [c Hc]].
      rewrite (adjust_resources_eq w tier c Hc). cbn [snd self usage capacities].
      intros t u' c'. destruct (decide (t = tier)) as [->|Hne].
      * rewrite lookup_insert_eq, Hu. intros [= <-] [= <-].
        specialize (Hcap tier c Hc). specialize (Huse tier u c Hu Hc). lra.
      * rewrite lookup_insert_ne by congruence. apply Huse.
    + exact Huse.
Qed.

Lemma run_ops_roomy ops : forall w, roomy w -> roomy (run_ops ops w).
Proof.
  induction ops as [|o ops IH]; intros w Hp; cbn [run_ops]; [exact Hp|].
  pose proof (run_op_roomy o w Hp) as H.
  destruct (run_op o w) as [[v|e] w']; cbn [snd] in H; auto.
Qed.

(** X7. Whatever sequence of [add_artifact], [adjust_resources] and
    [get_usage_stats] calls the manager of [__init__] receives, every
    tier stays at most 80% full. *)
Theorem utilisation_at_most_80_percent :
  forall (ops : list op) (t : StorageTier.t),
    exists u c,
      usage (self (run_ops ops fresh)) !! t = Some u /\
      capacities (self (run_ops ops fresh)) !! t = Some c /\
      u <= 0.8 * c.
Proof.
  intros ops t.
  pose proof (run_ops_roomy ops fresh fresh_roomy) as H.
  destruct (inv_tiers _ (roomy_invariant _ H) t) as [[u Hu] [c Hc]].
  exists u, c. repeat split; trivial.
  pose proof (roomy_usage _ H t u c Hu Hc). lra.
Qed.

Lemma roomy_provisioned w : roomy w -> provisioned w.
Proof.
  intros [Hinv Hsz Hcap _]. split; trivial.
  intros t c Hc. specialize (Hcap t c Hc). lra.
Qed.

Lemma place_all_usage calls : forall w t u,
  roomy w ->
  usage (self w) !! t = Some u ->
  exists u',
    usage (self (run_ops (place_all calls) w)) !! t = Some u' /\
    u' == u + volume t calls.
Proof.
  induction calls as [|[a tier] calls IH]; intros w t u Hr Hu.
  - exists u. split; [exact Hu|]. cbn. lra.
  - cbn [place_all map run_ops fst snd].
    pose proof (run_op_roomy (AddArtifact a tier) w Hr) as Hr'.
    pose proof (run_op_returns (AddArtifact a tier) w (roomy_invariant w Hr))
      as [v Hv].
    rewrite run_op_snd_add_artifact in Hr'.
    pose proof (run_op_snd_add_artifact a tier w) as Hsnd.
    destruct (run_op (AddArtifact a tier) w) as [[v'|e] w1];
      cbn [fst snd] in *; [|discriminate]. subst w1.
    pose proof (roomy_invariant w Hr) as Hinv.
    destruct (inv_sizes w Hinv (type a)) as [s Hs].
    destruct (inv_tiers w Hinv tier) as [[u0 Hu0] [c0 Hc0]].
    pose proof (add_artifact_succeeds w a tier (roomy_provisioned w Hr)) as Hok.
    pose proof (add_artifact_usage w a tier s u0 c0 t Hs Hu0 Hc0) as Hus.
    rewrite (add_artifact_eq w a tier s u0 c0 Hs Hu0 Hc0) in Hok.
    cbn [fst] in Hok. injection Hok as Hok. rewrite Hok in Hus.
    assert (Hsz : builtin_size a = s).
    { unfold builtin_size. rewrite <- (roomy_sizes w Hr), Hs. reflexivity. }
    destruct (decide (t = tier)) as [->|Hne].
    + rewrite Hu in Hu0. injection Hu0 as <-.
      destruct (IH _ tier (u + s) Hr' Hus) as (u' & Hu' & Heq).
      exists u'. split; [exact Hu'|].
      cbn [volume]. rewrite decide_True by reflexivity. rewrite Hsz. lra.
    + rewrite Hu in Hus.
      destruct (IH _ t u Hr' Hus) as (u' & Hu' & Heq).
      exists u'. split; [exact Hu'|].
      cbn [volume]. rewrite decide_False by congruence. lra.
Qed.

(** X8. On the manager of [__init__] no space is lost or invented:
    after any sequence of [add_artifact] calls the usage of a tier is the
    total size of the artifacts sent to it, and the next [add_artifact]
    returns [True] again. *)
Theorem usage_is_volume_placed :
  forall (calls : list (Artifact * StorageTier.t)) (t : StorageTier.t),
    (forall a tier,
       (add_artifact a tier (run_ops (place_all calls) fresh)).1
         = Returned true) /\
    exists u,
      usage (self (run_ops (place_all calls) fresh)) !! t = Some u /\
      u == volume t calls.
Proof.
  intros calls t. split.
  - intros a tier. apply add_artifact_succeeds, roomy_provisioned,
      run_ops_roomy, fresh_roomy.
  - assert (Hu : usage (self fresh) !! t = Some 0) by (destruct t; reflexivity).
    destruct (place_all_usage calls fresh t 0 fresh_roomy Hu) as (u & Hu' & Heq).
    exists u. split; [exact Hu'|]. lra.
Qed.

(** X10. Missing keys: [add_artifact] raises exactly when the type has
    no size or the tier has no usage or no capacity, [adjust_resources]
    exactly when the tier has no capacity; the exception is [KeyError]
    and the manager and the output are as before the call. *)
Theorem add_artifact_missing_key :
  forall w a tier,
    ((add_artifact a tier w).1 = Raised KeyError <->
     artifact_sizes (self w) !! type a = None \/
     usage (self w) !! tier = None \/
     capacities (self w) !! tier = None) /\
    (forall e, (add_artifact a tier w).1 = Raised e ->
       e = KeyError /\ (add_artifact a tier w).2 = w) /\
    ((adjust_resources tier w).1 = Raised KeyError <->
     capacities (self w) !! tier = None) /\
    (forall e, (adjust_resources tier w).1 = Raised e ->
       e = KeyError /\ (adjust_resources tier w).2 = w).
Proof.
  intros w a tier. split; [|split; [|split]].
  - split.
    + intros H.
      destruct (add_artifact_cases w a tier) as [E|(s & u & c & Hs & Hu & Hc)].
      * destruct (artifact_sizes (self w) !! type a) as [s|] eqn:Hs; [|auto].
        destruct (usage (self w) !! tier) as [u|] eqn:Hu; [|auto].
        destruct (capacities (self w) !! tier) as [c|] eqn:Hc; [|auto].
        rewrite (add_artifact_eq w a tier s u c Hs Hu Hc) in E. discriminate.
      * rewrite (add_artifact_eq w a tier s u c Hs Hu Hc) in H. discriminate.
    + intros H. rewrite (add_artifact_KeyError w a tier H). reflexivity.
  - intros e H.
    destruct (add_artifact_cases w a tier) as [E|(s & u & c & Hs & Hu & Hc)].
    + rewrite E in H |- *. cbn in H |- *. split; congruence.
    + rewrite (add_artifact_eq w a tier s u c Hs Hu Hc) in H. discriminate.
  - destruct (capacities (self w) !! tier) as [c|] eqn:Hc.
    + rewrite (adjust_resources_eq w tier c Hc). split; discriminate.
    + rewrite (adjust_resources_KeyError w tier Hc). split; reflexivity.
  - intros e H. destruct (capacities (self w) !! tier) as [c|] eqn:Hc.
    + rewrite (adjust_resources_eq w tier c Hc) in H. discriminate.
    + rewrite (adjust_resources_KeyError w tier Hc) in H |- *.
      cbn in H |- *. split; congruence.
Qed.
End ScalabilityMore.

(** ** More on retrieval admission *)

Module RetrievalMore.
Import Retrieval RetrievalSpec RetrievalProps.

Lemma in_flight_bound ts : forall i t,
  ts !! i = Some t ->
  in_flight ts <= Z.of_nat (length ts) - 1 + holds_slot t.
Proof.
  assert (Hle : forall l, in_flight l <= Z.of_nat (length l)).
  { induction l as [|t0 l IH]; cbn [in_flight length]; [lia|].
    destruct t0; cbn [holds_slot]; lia. }
  induction ts as [|t0 ts IH]; intros i t H; [discriminate|].
  destruct i as [|i].
  - injection H as ->. cbn [in_flight length]. specialize (Hle ts). lia.
  - change ((t0 :: ts) !! S i) with (ts !! i) in H.
    specialize (IH i t H). cbn [in_flight length].
    destruct t0; cbn [holds_slot]; lia.
Qed.

Lemma step_never_rejects ev sys sys' :
  consistent sys ->
  Z.of_nat (length (tasks sys)) <= max_concurrent_requests (storage sys) ->
  (forall i, tasks sys !! i <> Some rejected) ->
  step ev sys = Some sys' ->
  length (tasks sys') = length (tasks sys) /\
  (forall i, tasks sys' !! i <> Some rejected).
Proof.
  intros [Hl Hc Hb] Hlen Hno. unfold step. rewrite Hl.
  destruct ev as [i jitter|i fate].
  - destruct (tasks sys !! i) as [[aid tier|l|r]|] eqn:Hi; try discriminate.
    pose proof (in_flight_bound _ _ _ Hi) as Hin. cbn [holds_slot] in Hin.
    rewrite start_eq.
    destruct (Z.leb_spec (max_concurrent_requests (storage sys))
                         (current_requests (storage sys))) as [Hfull|Hroom];
      [lia|].
    destruct (latencies (storage sys) !! tier); intros [= <-]; cbn [tasks];
      (split; [apply length_insert|]); intros k;
      (destruct (decide (k = i)) as [->|Hne];
       [rewrite list_lookup_insert_eq by (eapply lookup_lt_Some, Hi);
        discriminate
       |rewrite list_lookup_insert_ne by congruence; apply Hno]).
  - destruct (tasks sys !! i) as [[aid tier|l|r]|] eqn:Hi; try discriminate.
    rewrite resume_eq. intros [= <-]. cbn [tasks].
    split; [apply length_insert|]. intros k.
    destruct (decide (k = i)) as [->|Hne].
    + rewrite list_lookup_insert_eq by (eapply lookup_lt_Some, Hi).
      destruct fate; discriminate.
    + rewrite list_lookup_insert_ne by congruence. apply Hno.
Qed.

(** X13. If there are no more retrievals than
    [max_concurrent_requests], no schedule makes any of them fail with
    "System overloaded". *)
Theorem no_rejection_within_limit :
  forall (evs : list event) (sys : system),
    consistent sys ->
    Z.of_nat (length (tasks sys)) <= max_concurrent_requests (storage sys) ->
    (forall i, tasks sys !! i <> Some rejected) ->
    forall i, tasks (run_events evs sys) !! i <> Some rejected.
Proof.
  induction evs as [|ev evs IH]; intros sys Hc Hlen Hno; cbn [run_events];
    [exact Hno|].
  destruct (step ev sys) as [sys'|] eqn:E; [|apply IH; assumption].
  destruct (step_never_rejects ev sys sys' Hc Hlen Hno E) as [Hlen' Hno'].
  destruct (step_consistent ev sys sys' Hc E) as [Hc' Hm].
  apply IH; [exact Hc'| |exact Hno']. rewrite Hlen', Hm. exact Hlen.
Qed.

Lemma no_rejection_within_limit_witness :
  consistent (launch 2 2) /\
  Z.of_nat (length (tasks (launch 2 2)))
    <= max_concurrent_requests (storage (launch 2 2)) /\
  (forall i, tasks (launch 2 2) !! i <> Some rejected) /\
  (forall i,
     tasks (run_events [Run 0 1%Q; Run 1 1%Q; Wake 0 Elapsed] (launch 2 2)) !! i
       <> Some rejected).
Proof.
  assert (Hc : consistent (launch 2 2)) by (apply launch_consistent; lia).
  assert (Hlen : Z.of_nat (length (tasks (launch 2 2)))
                 <= max_concurrent_requests (storage (launch 2 2)))
    by (cbn; lia).
  assert (Hno : forall i, tasks (launch 2 2) !! i <> Some rejected).
  { intros [|[|i]]; discriminate. }
  split; [exact Hc|]. split; [exact Hlen|]. split; [exact Hno|].
  exact (no_rejection_within_limit
           [Run 0 1%Q; Run 1 1%Q; Wake 0 Elapsed] (launch 2 2) Hc Hlen Hno).
Defined.

(** X15. When no retrieval is suspended in its sleep any more, the
    counter [current_requests] is zero: every slot taken has been given
    back. *)
Theorem counter_zero_when_all_finished :
  forall (evs : list event) (sys : system),
    consistent sys ->
    (forall i t, tasks (run_events evs sys) !! i = Some t -> progress t <> 1) ->
    current_requests (storage (run_events evs sys)) = 0.
Proof.
  intros evs sys Hc Hdone.
  destruct (run_events_consistent evs sys Hc) as [[_ Hcount _] _].
  rewrite Hcount. clear Hcount.
  induction (tasks (run_events evs sys)) as [|t ts IH]; [reflexivity|].
  cbn [in_flight]. rewrite IH.
  - specialize (Hdone 0%nat t eq_refl). destruct t; cbn in *; lia.
  - intros i t' Hi. apply (Hdone (S i) t'). exact Hi.
Qed.

Lemma counter_zero_when_all_finished_witness :
  consistent (launch 1 1) /\
  (forall i t,
     tasks (run_events [Run 0 1%Q; Wake 0 Elapsed] (launch 1 1)) !! i = Some t ->
     progress t <> 1) /\
  current_requests
    (storage (run_events [Run 0 1%Q; Wake 0 Elapsed] (launch 1 1))) = 0.
Proof.
  assert (Hc : consistent (launch 1 1)) by (apply launch_consistent; lia).
  assert (Hdone : forall i t,
            tasks (run_events [Run 0 1%Q; Wake 0 Elapsed] (launch 1 1)) !! i
              = Some t -> progress t <> 1).
  { intros [|i] t Ht; vm_compute in Ht; [|discriminate Ht].
    injection Ht as <-. discriminate. }
  split; [exact Hc|]. split; [exact Hdone|].
  exact (counter_zero_when_all_finished [Run 0 1%Q; Wake 0 Elapsed]
           (launch 1 1) Hc Hdone).
Defined.

Lemma run_events_app evs evs' sys :
  run_events (evs ++ evs') sys = run_events evs' (run_events evs sys).
Proof.
  revert sys. induction evs as [|ev evs IH]; intros sys; cbn [app run_events];
    [reflexivity|].
  destruct (step ev sys); apply IH.
Qed.

Lemma start_in_order_S jitter k :
  start_in_order jitter (S k) = start_in_order jitter k ++ [Run k (jitter k)].
Proof. unfold start_in_order. rewrite seq_S, map_app. reflexivity. Qed.

Lemma started_in_order jitter (m : Z) (n : nat) : forall k,
  (k <= n)%nat -> 0 <= m ->
  let sys := run_events (start_in_order jitter k) (launch m n) in
  storage sys = backend_with m (Z.min (Z.of_nat k) m) /\
  length (tasks sys) = n /\
  (forall i, (i < k)%nat ->
     tasks sys !! i =
       Some (if Z.of_nat i <? m then Sleeping (0.010 * jitter i)%Q
             else rejected)) /\
  (forall i, (k <= i < n)%nat ->
     tasks sys !! i = Some (Created "A0000" StorageTier.HOT)).
Proof.
  induction k as [|k IH]; intros Hk Hm sys; subst sys.
  - cbn [start_in_order seq map run_events]. repeat split.
    + cbn. f_equal. lia.
    + apply length_replicate.
    + intros i Hi. lia.
    + intros i Hi. apply lookup_replicate_2. lia.
  - rewrite start_in_order_S, run_events_app.
    destruct (IH ltac:(lia) Hm) as (Hst & Hlen & Hdone & Htodo).
    set (sys := run_events (start_in_order jitter k) (launch m n)) in *.
    assert (Hk' : tasks sys !! k = Some (Created "A0000" StorageTier.HOT))
      by (apply Htodo; lia).
    cbn [run_events]. unfold step. rewrite Hst, Hk'.
    cbn [lock backend_with]. rewrite start_eq.
    cbn [max_concurrent_requests current_requests backend_with latencies].
    change (latencies init !! StorageTier.HOT) with (Some 0.010%Q).
    destruct (Z.leb_spec m (Z.min (Z.of_nat k) m)) as [Hfull|Hroom];
      cbn [storage tasks].
    + assert (Hkm : m <= Z.of_nat k) by lia.
      repeat split.
      * unfold with_requests, backend_with. cbn. f_equal. lia.
      * rewrite length_insert. exact Hlen.
      * intros i Hi. destruct (decide (i = k)) as [->|Hne].
        -- rewrite list_lookup_insert_eq by lia.
           destruct (Z.ltb_spec (Z.of_nat k) m); [lia|reflexivity].
        -- rewrite list_lookup_insert_ne by congruence. apply Hdone. lia.
      * intros i Hi. rewrite list_lookup_insert_ne by lia. apply Htodo. lia.
    + assert (Hkm : Z.of_nat k < m) by lia.
      repeat split.
      * unfold with_requests, backend_with. cbn. f_equal. lia.
      * rewrite length_insert. exact Hlen.
      * intros i Hi. destruct (decide (i = k)) as [->|Hne].
        -- rewrite list_lookup_insert_eq by lia.
           destruct (Z.ltb_spec (Z.of_nat k) m); [reflexivity|lia].
        -- rewrite list_lookup_insert_ne by congruence. apply Hdone. lia.
      * intros i Hi. rewrite list_lookup_insert_ne by lia. apply Htodo. lia.
Qed.

(** X16. [n] retrievals started one after the other on a backend with
    limit [m], none of them completing meanwhile: the first [m] are
    admitted and are suspended in their sleep, all later ones are
    rejected as overloaded, and the counter stands at [min n m]. *)
Theorem first_come_first_served :
  forall (jitter : nat -> Q) (m : Z) (n i : nat),
    0 <= m -> (i < n)%nat ->
    let sys := run_events (start_in_order jitter n) (launch m n) in
    (if Z.of_nat i <? m
     then exists latency, tasks sys !! i = Some (Sleeping latency)
     else tasks sys !! i = Some rejected) /\
    current_requests (storage sys) = Z.min (Z.of_nat n) m.
Proof.
  intros jitter m n i Hm Hi sys. subst sys.
  destruct (started_in_order jitter m n n ltac:(lia) Hm) as (Hst & _ & Hdone & _).
  split; [|rewrite Hst; reflexivity].
  rewrite (Hdone i Hi). destruct (Z.of_nat i <? m); eauto.
Qed.

Lemma first_come_first_served_witness :
  0 <= 3 /\ (3 < 4)%nat /\
  (let sys := run_events (start_in_order (fun _ => 1%Q) 4) (launch 3 4) in
   (if Z.of_nat 3 <? 3
    then exists latency, tasks sys !! 3%nat = Some (Sleeping latency)
    else tasks sys !! 3%nat = Some rejected) /\
   current_requests (storage sys) = Z.min (Z.of_nat 4) 3).
Proof.
  assert (H1 : 0 <= 3) by discriminate.
  assert (H2 : (3 < 4)%nat) by (repeat constructor).
  split; [exact H1|]. split; [exact H2|].
  exact (first_come_first_served (fun _ => 1%Q) 3 4 3 H1 H2).
Defined.
End RetrievalMore.

(** ** The batch entry point *)

Module BatchProps.
Import Classification ClassificationSpec ClassificationProps Batch.

Lemma process_artifacts_cons wall a rest k :
  process_artifacts wall (a :: rest) k =
    match process_artifacts wall rest (S (S k)) with
    | (Returned results, k') =>
        (Returned
           ({[ "id" := id a;
               "name" := name a;
               "type" := type_value (type a);
               "usage_frequency" :=
                 usage_value (Classification.get_usage_frequency a (wall (S k)));
               "importance" := importance_value (importance a);
               "assigned_tier" :=
                 tier_value (Classification.classify_and_assign a (wall k)) ]}
            :: results), k')
    | (Raised e, k') => (Raised e, k')
    end.
Proof. reflexivity. Qed.

Lemma process_artifacts_returns wall artifacts : forall k,
  exists results,
    process_artifacts wall artifacts k
      = (Returned results, (k + 2 * length artifacts)%nat) /\
    length results = length artifacts.
Proof.
  induction artifacts as [|a rest IH]; intros k.
  - exists []. split; [|reflexivity]. cbn. unfold ret. f_equal. lia.
  - rewrite process_artifacts_cons.
    destruct (IH (S (S k))) as (rs & Hrs & Hlen). rewrite Hrs.
    eexists. split; [f_equal; cbn [length]; lia|]. cbn [length]. lia.
Qed.

Lemma process_artifacts_lookup :
  forall (wall : nat -> Z) (artifacts : list Artifact) (k : nat),
    exists results,
      process_artifacts wall artifacts k
        = (Returned results, (k + 2 * length artifacts)%nat) /\
      length results = length artifacts /\
      forall i a,
        artifacts !! i = Some a ->
        exists r : gmap string string,
          results !! i = Some r /\
          r !! "id" = Some (id a) /\
          r !! "name" = Some (name a) /\
          r !! "type" = Some (type_value (type a)) /\
          r !! "importance" = Some (importance_value (importance a)) /\
          r !! "assigned_tier" =
            Some (tier_value
                    (Classification.classify_and_assign a (wall (k + 2 * i)%nat))) /\
          r !! "usage_frequency" =
            Some (usage_value
                    (Classification.get_usage_frequency a
                       (wall (k + 2 * i + 1)%nat))).
Proof.
  intros wall artifacts. induction artifacts as [|a rest IH]; intros k.
  - exists []. split; [cbn; unfold ret; f_equal; lia|].
    split; [reflexivity|]. intros i a H. discriminate.
  - rewrite process_artifacts_cons.
    destruct (IH (S (S k))) as (rs & Hrs & Hlen & Hall). rewrite Hrs.
    eexists. split; [f_equal; cbn [length]; lia|].
    split; [cbn [length]; lia|].
    intros [|i] a' Hi.
    + injection Hi as <-. eexists. split; [reflexivity|].
      replace (k + 2 * 0)%nat with k by lia.
      replace (k + 1)%nat with (S k) by lia.
      repeat split; by simplify_map_eq.
    + change ((a :: rest) !! S i) with (rest !! i) in Hi.
      destruct (Hall i a' Hi) as (r & Hr & H).
      exists r. split; [exact Hr|].
      replace (k + 2 * S i)%nat with (S (S k) + 2 * i)%nat by lia.
      exact H.
Qed.

(** X5. [process_artifacts] returns one record per artifact, in the
    order of the input (none for the empty list); the record carries the
    artifact's id, name, type and importance, the tier computed at one
    reading of the clock, and the usage frequency computed at the next
    reading: every artifact is evaluated twice. *)
Theorem process_artifacts_records :
  forall (wall : nat -> Z) (artifacts : list Artifact) (k : nat),
    exists results,
      process_artifacts wall artifacts k
        = (Returned results, (k + 2 * length artifacts)%nat) /\
      length results = length artifacts /\
      forall i a,
        artifacts !! i = Some a ->
        exists r : gmap string string,
          results !! i = Some r /\
          r !! "id" = Some (id a) /\
          r !! "name" = Some (name a) /\
          r !! "type" = Some (type_value (type a)) /\
          r !! "importance" = Some (importance_value (importance a)) /\
          r !! "assigned_tier" =
            Some (tier_value
                    (Classification.classify_and_assign a (wall (k + 2 * i)%nat))) /\
          r !! "usage_frequency" =
            Some (usage_value
                    (Classification.get_usage_frequency a
                       (wall (k + 2 * i + 1)%nat))).
Proof. exact process_artifacts_lookup. Qed.

Lemma process_artifacts_records_witness :
  samples 0 !! 1%nat = Some (A002 0) /\
  exists results,
    process_artifacts (fun _ => 0) (samples 0) 0%nat
      = (Returned results, (0 + 2 * length (samples 0))%nat) /\
    length results = length (samples 0) /\
    exists r : gmap string string,
      results !! 1%nat = Some r /\
      r !! "id" = Some "A002" /\
      r !! "assigned_tier" = Some "Warm Storage" /\
      r !! "usage_frequency" = Some "Medium".
Proof.
  assert (H : samples 0 !! 1%nat = Some (A002 0)) by reflexivity.
  split; [exact H|].
  destruct (process_artifacts_records (fun _ => 0) (samples 0) 0%nat)
    as (results & Hrun & Hlen & Hall).
  exists results. split; [exact Hrun|]. split; [exact Hlen|].
  destruct (Hall 1%nat (A002 0) H) as (r & Hr & Hid & _ & _ & _ & Ht & Hu).
  exists r. auto.
Defined.

Lemma usage_cools_with_time a now now' :
  now <= now' ->
  Classification.get_usage_frequency a now' = UsageFrequency.LOW \/
  Classification.get_usage_frequency a now'
    = Classification.get_usage_frequency a now.
Proof.
  intros H. rewrite !get_usage_frequency_rule.
  repeat case_decide;
    try (left; reflexivity); try (right; reflexivity); exfalso; lia.
Qed.

Lemma classify_low_coldest imp u :
  tier_rank (classify imp u) <= tier_rank (classify imp UsageFrequency.LOW).
Proof. destruct imp, u; vm_compute; discriminate. Qed.

(** X6. With a clock that does not run backwards, the tier in a record
    of [process_artifacts] is never colder than the tier that the usage
    frequency in the same record gives, and it is that tier when the two
    readings of the clock agree. *)
Theorem recorded_tier_not_colder_than_shown :
  forall (wall : nat -> Z) (artifacts : list Artifact) (k i : nat)
         (a : Artifact) results (r : gmap string string),
    (forall n, wall n <= wall (S n)) ->
    (process_artifacts wall artifacts k).1 = Returned results ->
    artifacts !! i = Some a ->
    results !! i = Some r ->
    exists tier usage,
      r !! "assigned_tier" = Some (tier_value tier) /\
      r !! "usage_frequency" = Some (usage_value usage) /\
      tier_rank tier <= tier_rank (classify (importance a) usage) /\
      (wall (k + 2 * i)%nat = wall (k + 2 * i + 1)%nat ->
       tier = classify (importance a) usage).
Proof.
  intros wall artifacts k i a results r Hmono Hrun Ha Hr.
  destruct (process_artifacts_lookup wall artifacts k)
    as (results' & Hrun' & _ & Hall).
  rewrite Hrun' in Hrun. cbn [fst] in Hrun. injection Hrun as ->.
  destruct (Hall i a Ha) as (r' & Hr' & _ & _ & _ & _ & Ht & Hu).
  rewrite Hr in Hr'. injection Hr' as <-.
  eexists _, _. split; [exact Ht|]. split; [exact Hu|].
  unfold Classification.classify_and_assign. split.
  - replace (k + 2 * i + 1)%nat with (S (k + 2 * i)) by lia.
    destruct (usage_cools_with_time a _ _ (Hmono (k + 2 * i)%nat)) as [E|E];
      rewrite E; [apply classify_low_coldest|lia].
  - intros ->. reflexivity.
Qed.

Lemma recorded_tier_not_colder_than_shown_witness :
  (forall n, (fun _ : nat => 0) n <= (fun _ : nat => 0) (S n)) /\
  samples 0 !! 0%nat = Some (A001 0) /\
  exists results r tier usage,
    (process_artifacts (fun _ => 0) (samples 0) 0%nat).1 = Returned results /\
    results !! 0%nat = Some r /\
    r !! "assigned_tier" = Some (tier_value tier) /\
    r !! "usage_frequency" = Some (usage_value usage) /\
    tier_rank tier <= tier_rank (classify (importance (A001 0)) usage).
Proof.
  assert (Hm : forall n, (fun _ : nat => 0) n <= (fun _ : nat => 0) (S n))
    by (intros n; discriminate).
  assert (Ha : samples 0 !! 0%nat = Some (A001 0)) by reflexivity.
  split; [exact Hm|]. split; [exact Ha|].
  destruct (process_artifacts_returns (fun _ => 0) (samples 0) 0%nat)
    as (results & Hrun & Hlen).
  assert (Hrun' : (process_artifacts (fun _ => 0) (samples 0) 0%nat).1
                  = Returned results) by (rewrite Hrun; reflexivity).
  destruct results as [|r rest]; [discriminate Hlen|].
  destruct (recorded_tier_not_colder_than_shown (fun _ => 0) (samples 0) 0%nat 0%nat
              (A001 0) (r :: rest) r Hm Hrun' Ha eq_refl)
    as (tier & usage & Ht & Hu & Hle & _).
  exists (r :: rest), r, tier, usage. auto.
Defined.

(** The clock passes a day boundary between the two reads: the record of
    a Low-importance artifact shows usage Low next to the Hot tier. *)
Example record_across_day_boundary :
  let wall := fun k : nat => if decide (k = 0%nat) then 31 * day_us - 1
                             else 31 * day_us in
  let a := {| id := "A006"; name := "Log.pdf"; type := ArtifactType.DOCUMENT;
              access_count := 15; last_accessed := 0;
              importance := Importance.LOW |} in
  exists r : gmap string string,
    (process_artifacts wall [a] 0%nat).1 = Returned [r] /\
    r !! "importance" = Some "Low" /\
    r !! "usage_frequency" = Some "Low" /\
    r !! "assigned_tier" = Some "Hot Storage".
Proof. eexists. split; [reflexivity|]. repeat split; reflexivity. Qed.
End BatchProps.

(** ** The artifact generators *)

Module GeneratorProps.
Import Stdlib.Strings.Ascii.
Import Generator.

(** *** Identifiers *)

Lemma pretty_N_go_head (x : N) : forall s,
  (0 < x)%N ->
  exists c rest, pretty_N_go x s = String c rest /\ c <> "0"%char.
Proof.
  induction (N.lt_wf_0 x) as [x _ IH]; intros s Hx.
  rewrite pretty_N_go_step by exact Hx.
  destruct (decide (x `div` 10 = 0)%N) as [Hz|Hnz].
  - rewrite Hz, pretty_N_go_0. eexists _, _. split; [reflexivity|].
    assert (Hlt : (x < 10)%N).
    { pose proof (N.div_mod x 10) as Hd. pose proof (N.mod_lt x 10) as Hm.
      rewrite Hz in Hd. lia. }
    rewrite N.mod_small by exact Hlt.
    assert (x = 1 \/ x = 2 \/ x = 3 \/ x = 4 \/ x = 5 \/ x = 6
            \/ x = 7 \/ x = 8 \/ x = 9)%N as H by lia.
    destruct H as [->|[->|[->|[->|[->|[->|[->|[->| ->]]]]]]]]; discriminate.
  - apply IH; [apply N.div_lt; lia|apply N.neq_0_lt_0; exact Hnz].
Qed.

Lemma pretty_nat_head (n : nat) :
  (0 < n)%nat ->
  exists c rest, pretty n = String c rest /\ c <> "0"%char.
Proof.
  intros Hn. unfold pretty, pretty_nat, pretty, pretty_N.
  rewrite decide_False by lia. apply pretty_N_go_head. lia.
Qed.

Lemma pretty_nat_length (n : nat) : (1 <= String.length (pretty n))%nat.
Proof.
  destruct n as [|n]; [vm_compute; lia|].
  destruct (pretty_nat_head (S n)) as (c & rest & -> & _); [lia|].
  cbn. lia.
Qed.

Lemma zeros_app a b : zeros (a + b) = zeros a +:+ zeros b.
Proof.
  induction a as [|a IH]; [reflexivity|].
  change (zeros (S a + b)) with (String "0"%char (zeros (a + b))).
  rewrite IH. reflexivity.
Qed.

Lemma zeros_cancel a s t : zeros a +:+ s = zeros a +:+ t -> s = t.
Proof.
  induction a as [|a IH]; [auto|].
  change (zeros (S a) +:+ s) with (String "0"%char (zeros a +:+ s)).
  change (zeros (S a) +:+ t) with (String "0"%char (zeros a +:+ t)).
  intros [= H]. auto.
Qed.

Lemma length_zeros_app a s :
  String.length (zeros a +:+ s) = (a + String.length s)%nat.
Proof.
  induction a as [|a IH]; [reflexivity|].
  change (zeros (S a) +:+ s) with (String "0"%char (zeros a +:+ s)).
  cbn [String.length]. rewrite IH. reflexivity.
Qed.

Lemma padded_shorter (n m a d : nat) :
  zeros (a + S d) +:+ pretty m = zeros a +:+ pretty n -> False.
Proof.
  induction a as [|a IH].
  - change (zeros (0 + S d) +:+ pretty m)
      with (String "0"%char (zeros d +:+ pretty m)).
    change (zeros 0 +:+ pretty n) with (pretty n). intros H.
    destruct n as [|n].
    + change (pretty 0%nat) with "0" in H. injection H as H.
      pose proof (pretty_nat_length m) as Hm.
      apply (f_equal String.length) in H. rewrite length_zeros_app in H.
      cbn in H. lia.
    + destruct (pretty_nat_head (S n)) as (c & rest & E & Hc); [lia|].
      rewrite E in H. injection H as H _. congruence.
  - change (zeros (S a + S d) +:+ pretty m)
      with (String "0"%char (zeros (a + S d) +:+ pretty m)).
    change (zeros (S a) +:+ pretty n)
      with (String "0"%char (zeros a +:+ pretty n)).
    intros [= H]. exact (IH H).
Qed.

Lemma format_04d_inj (n m : nat) : format_04d n = format_04d m -> n = m.
Proof.
  unfold format_04d. intros H.
  set (a := (4 - String.length (pretty n))%nat) in *.
  set (b := (4 - String.length (pretty m))%nat) in *.
  destruct (Nat.lt_trichotomy a b) as [Hlt|[Heq|Hgt]].
  - exfalso. replace b with (a + S (b - a - 1))%nat in H by lia.
    symmetry in H. exact (padded_shorter n m _ _ H).
  - rewrite Heq in H. apply zeros_cancel in H.
    apply (inj pretty) in H. exact H.
  - exfalso. replace a with (b + S (a - b - 1))%nat in H by lia.
    exact (padded_shorter m n _ _ H).
Qed.

(** *** Generated artifacts *)

Lemma randint_range (r : nat) (a b : Z) :
  a <= b -> a <= a + Z.of_nat r mod (b - a + 1) <= b.
Proof.
  intros H. pose proof (Z.mod_pos_bound (Z.of_nat r) (b - a + 1)). lia.
Qed.

Lemma generate_one_eq raw clock i e :
  exists a,
    generate_one raw clock i e
      = (Returned a,
         {| random_draws := random_draws e + 4;
            clock_reads := clock_reads e + 1 |}) /\
    Retrieval.id a = "A" +:+ format_04d i /\
    0 <= Retrieval.access_count a <= 20 /\
    exists days,
      0 <= days <= 60 /\
      Retrieval.last_accessed a
        = (clock (clock_reads e) - inject_Z (days * 24 * 3600))%Q.
Proof.
  unfold generate_one, choice, randint, draw, read_clock.
  cbv beta iota zeta delta [bind ret]. cbn [random_draws clock_reads].
  eexists. split.
  - f_equal. f_equal; lia.
  - cbn [Retrieval.id Retrieval.access_count Retrieval.last_accessed].
    split; [reflexivity|]. split; [apply randint_range; lia|].
    eexists. split; [|reflexivity]. apply randint_range; lia.
Qed.

Lemma generate_from_spec raw clock num : forall i e,
  exists arts,
    generate_from raw clock i num e
      = (Returned arts,
         {| random_draws := random_draws e + 4 * num;
            clock_reads := clock_reads e + num |}) /\
    map Retrieval.id arts
      = map (fun j => "A" +:+ format_04d j) (seq i num) /\
    forall j a,
      arts !! j = Some a ->
      0 <= Retrieval.access_count a <= 20 /\
      exists days,
        0 <= days <= 60 /\
        Retrieval.last_accessed a
          = (clock (clock_reads e + j)%nat - inject_Z (days * 24 * 3600))%Q.
Proof.
  induction num as [|num IH]; intros i e.
  - exists []. split; [|split; [reflexivity|intros j a H; discriminate]].
    cbn. unfold ret. destruct e as [d c]. cbn. f_equal. f_equal; lia.
  - cbn [generate_from]. unfold bind at 1.
    destruct (generate_one_eq raw clock i e) as (a & Ha & Hid & Hcount & Hlast).
    rewrite Ha.
    destruct (IH (S i) {| random_draws := random_draws e + 4;
                          clock_reads := clock_reads e + 1 |})
      as (arts & Hrun & Hids & Hall).
    unfold bind, ret. rewrite Hrun. cbn [random_draws clock_reads].
    exists (a :: arts). split; [f_equal; f_equal; lia|].
    split; [cbn [map seq]; rewrite Hid, Hids; reflexivity|].
    intros [|j] a' Hj.
    + injection Hj as <-. split; [exact Hcount|].
      replace (clock_reads e + 0)%nat with (clock_reads e) by lia. exact Hlast.
    + destruct (Hall j a' Hj) as [Hc (days & Hd & Hl)].
      split; [exact Hc|]. exists days. split; [exact Hd|].
      rewrite Hl. cbn [clock_reads].
      replace (clock_reads e + 1 + j)%nat with (clock_reads e + S j)%nat by lia.
      reflexivity.
Qed.

(** X20. [generate_artifacts(num)] returns [num] artifacts with
    pairwise distinct ids, the [i]-th being "A" and [i] padded to four
    digits, with an access count of 0 to 20 and a last access a whole
    number (0 to 60) of days before the clock reading; it consumes four
    random values and one clock reading per artifact. *)
Theorem generated_artifacts_have_distinct_ids :
  forall (raw : nat -> nat) (clock : nat -> Q) (num : nat) (e : env),
    exists arts,
      generate_artifacts raw clock num e
        = (Returned arts,
           {| random_draws := random_draws e + 4 * num;
              clock_reads := clock_reads e + num |}) /\
      length arts = num /\
      NoDup (map Retrieval.id arts) /\
      forall i a,
        arts !! i = Some a ->
        Retrieval.id a = "A" +:+ format_04d i /\
        0 <= Retrieval.access_count a <= 20 /\
        exists days,
          0 <= days <= 60 /\
          Retrieval.last_accessed a
            = (clock (clock_reads e + i)%nat - inject_Z (days * 24 * 3600))%Q.
Proof.
  intros raw clock num e. unfold generate_artifacts.
  destruct (generate_from_spec raw clock num 0%nat e)
    as (arts & Hrun & Hids & Hall).
  exists arts. split; [exact Hrun|].
  assert (Hlen : length arts = num).
  { rewrite <- (length_map Retrieval.id), Hids, length_map, length_seq.
    reflexivity. }
  split; [exact Hlen|]. split.
  - rewrite Hids. apply NoDup_fmap_2; [|apply NoDup_seq].
    intros x y H. apply (inj (String.append "A")) in H.
    apply format_04d_inj, H.
  - intros i a Hi. split; [|apply (Hall i a Hi)].
    assert (Hmap : map Retrieval.id arts !! i = Some (Retrieval.id a))
      by (change (map Retrieval.id arts) with (Retrieval.id <$> arts);
          rewrite list_lookup_fmap, Hi; reflexivity).
    rewrite Hids in Hmap.
    change (map (fun j => "A" +:+ format_04d j) (seq 0 num))
      with ((fun j => "A" +:+ format_04d j) <$> seq 0 num) in Hmap.
    rewrite list_lookup_fmap in Hmap.
    assert (Hi' : (i < num)%nat)
      by (rewrite <- Hlen; eapply lookup_lt_Some, Hi).
    rewrite lookup_seq_lt in Hmap by exact Hi'.
    cbn in Hmap. injection Hmap as <-. reflexivity.
Qed.

Example format_04d_examples :
  format_04d 0 = "0000" /\ format_04d 7 = "0007" /\ format_04d 42 = "0042" /\
  format_04d 999 = "0999" /\ format_04d 1000 = "1000" /\
  format_04d 4321 = "4321".
Proof. vm_compute. repeat split. Qed.

Example lower_examples :
  lower "Photograph" = "photograph" /\ lower "Video" = "video".
Proof. vm_compute. split; reflexivity. Qed.
End GeneratorProps.

(** ** The ingestion loop *)

Module TesterProps.
Import Tester ScalabilitySpec ScalabilityProps ScalabilityMore.

Lemma init_size_bounds ty s :
  Scalability.artifact_sizes Scalability.init !! ty = Some s ->
  (0.5 <= s <= 5)%Q.
Proof.
  destruct ty; intros H; vm_compute in H; injection H as <-; split; discriminate.
Qed.

Lemma bind_returned {S A B} (m : M S A) (k : A -> M S B) s v s' :
  m s = (Returned v, s') -> bind m k s = k v s'.
Proof. intros H. unfold bind. rewrite H. reflexivity. Qed.

Lemma on_manager_eq {A} (m : M Scalability.world A) w r mw :
  m (manager_world w) = (r, mw) ->
  on_manager m w =
    (r, {| self := {| resource_manager := Scalability.self mw;
                      tier_counts := tier_counts (self w);
                      classification_times := classification_times (self w) |};
           stdout := Scalability.stdout mw;
           chance := chance w;
           time_reads := time_reads w |}).
Proof. intros H. unfold on_manager. rewrite H. reflexivity. Qed.

Lemma count_tier_eq tier n w :
  tier_counts (self w) !! tier = Some n ->
  count_tier tier w =
    (Returned tt,
     {| self := {| resource_manager := resource_manager (self w);
                   tier_counts := <[tier := n + 1]> (tier_counts (self w));
                   classification_times := classification_times (self w) |};
        stdout := stdout w; chance := chance w; time_reads := time_reads w |}).
Proof.
  intros H. unfold count_tier, bind, gets, getitem, modify. rewrite H.
  reflexivity.
Qed.

(** One pass of the loop on a tester that is in step: the artifact is
    placed and counted. *)
Lemma in_step_ready w : in_step w -> ready w.
Proof.
  intros [Hroomy Hcounts]. split; [exact Hroomy|].
  intros t. destruct (Hcounts t) as (n & u & Hn & _). eauto.
Qed.

Lemma ingest_eq raw wall clock interval start_time i w :
  ready w ->
  exists artifact tier n mw e c,
    Scalability.add_artifact artifact tier (manager_world w)
      = (Returned true, mw) /\
    tier_counts (self w) !! tier = Some n /\
    ingest raw wall clock interval start_time i w =
      (Returned tt,
       {| self := {| resource_manager := Scalability.self mw;
                     tier_counts := <[tier := n + 1]> (tier_counts (self w));
                     classification_times := classification_times (self w) ++ [c] |};
          stdout := Scalability.stdout mw;
          chance := e;
          time_reads := S (S (S (time_reads w))) |}).
Proof.
  intros [Hroomy Hcounts]. unfold ingest.
  destruct (Generator.generate_artifact raw wall i (chance w))
    as [[artifact|x] e1] eqn:Hgen; [|discriminate Hgen].
  set (tier := Classification.classify_and_assign artifact
                 (wall (Generator.clock_reads e1))).
  pose proof (add_artifact_succeeds (manager_world w) artifact tier
                (roomy_provisioned _ Hroomy)) as Hok.
  destruct (Scalability.add_artifact artifact tier (manager_world w))
    as [r mw] eqn:E.
  cbn [fst] in Hok. subst r.
  destruct (Hcounts tier) as [n Hn].
  exists artifact, tier, n, mw. eexists _, _.
  split; [exact E|]. split; [exact Hn|].
  erewrite bind_returned; [|unfold on_chance; rewrite Hgen; reflexivity].
  erewrite bind_returned; [|reflexivity].
  erewrite bind_returned; [|reflexivity].
  erewrite bind_returned; [|reflexivity].
  erewrite bind_returned; [|reflexivity].
  cbn [self stdout chance time_reads tier_counts classification_times
       resource_manager].
  fold tier.
  erewrite bind_returned; [|apply on_manager_eq; exact E].
  cbn [self stdout chance time_reads tier_counts classification_times
       resource_manager].
  erewrite bind_returned; [|apply count_tier_eq; exact Hn].
  erewrite bind_returned; [|reflexivity].
  reflexivity.
Qed.

Lemma total_count_insert w tier n m :
  tier_counts (self w) !! tier = Some n ->
  default 0 (<[tier := m]> (tier_counts (self w)) !! StorageTier.HOT)
  + default 0 (<[tier := m]> (tier_counts (self w)) !! StorageTier.WARM)
  + default 0 (<[tier := m]> (tier_counts (self w)) !! StorageTier.COLD)
  = total_count w + (m - n).
Proof.
  intros H. unfold total_count.
  destruct tier;
    rewrite lookup_insert_eq, !lookup_insert_ne, H by discriminate; cbn; lia.
Qed.

Lemma ingest_step raw wall clock interval start_time i w :
  in_step w ->
  exists w',
    ingest raw wall clock interval start_time i w = (Returned tt, w') /\
    in_step w' /\
    total_count w' = total_count w + 1 /\
    length (classification_times (self w'))
      = S (length (classification_times (self w))).
Proof.
  intros Hstep.
  destruct (ingest_eq raw wall clock interval start_time i w
              (in_step_ready w Hstep))
    as (artifact & tier & n & mw & e & c & E & Hn & Hrun).
  destruct Hstep as [Hroomy Hcounts].
  eexists. split; [exact Hrun|].
  pose proof (roomy_invariant _ Hroomy) as Hinv.
  destruct (Scalability.inv_sizes _ Hinv (Classification.type artifact))
    as [s Hs].
  destruct (Scalability.inv_tiers _ Hinv tier) as [[u Hu] [cap Hcap]].
  pose proof (add_artifact_usage (manager_world w) artifact tier s u cap)
    as Huse.
  pose proof (add_artifact_eq (manager_world w) artifact tier s u cap
                Hs Hu Hcap) as Heq.
  rewrite E in Heq, Huse. injection Heq as Hplaced _.
  rewrite <- Hplaced in Huse. cbn [snd] in Huse.
  assert (Hsize : (0.5 <= s <= 5)%Q).
  { apply (init_size_bounds (Classification.type artifact)).
    rewrite <- (roomy_sizes _ Hroomy). exact Hs. }
  split; [split|split].
  - pose proof (run_op_roomy (Scalability.AddArtifact artifact tier)
                  _ Hroomy) as H.
    rewrite run_op_snd_add_artifact, E in H. cbn [snd] in H.
    unfold manager_world. cbn [self stdout resource_manager].
    destruct mw. exact H.
  - intros t. cbn [self tier_counts resource_manager].
    rewrite (Huse t Hs Hu Hcap).
    destruct (Hcounts t) as (n' & u' & Hn' & Hu' & H0 & Hb).
    destruct (decide (t = tier)) as [->|Hne].
    + rewrite Hn in Hn'. injection Hn' as <-.
      unfold manager_world in Hu. cbn [Scalability.self] in Hu.
      rewrite Hu in Hu'. injection Hu' as <-.
      exists (n + 1), (u + s)%Q. rewrite lookup_insert_eq.
      split; [reflexivity|]. split; [reflexivity|]. split; [lia|].
      rewrite inject_Z_plus. change (inject_Z 1) with 1%Q. lra.
    + exists n', u'. rewrite lookup_insert_ne by congruence.
      split; [exact Hn'|]. split; [exact Hu'|]. split; [exact H0|exact Hb].
  - unfold total_count at 1. cbn [self tier_counts].
    rewrite (total_count_insert w tier n (n + 1) Hn). lia.
  - cbn [self classification_times]. rewrite length_app. cbn [length]. lia.
Qed.

Lemma ingest_from_spec raw wall clock interval start_time n : forall i w,
  in_step w ->
  exists w',
    ingest_from raw wall clock interval start_time i n w = (Returned tt, w') /\
    in_step w' /\
    total_count w' = total_count w + Z.of_nat n /\
    length (classification_times (self w'))
      = (length (classification_times (self w)) + n)%nat.
Proof.
  induction n as [|n IH]; intros i w Hstep.
  - exists w. split; [reflexivity|]. split; [exact Hstep|]. split; lia.
  - cbn [ingest_from].
    destruct (ingest_step raw wall clock interval start_time i w Hstep)
      as (w1 & Hrun & Hstep1 & Hc1 & Hl1).
    destruct (IH (S i) w1 Hstep1) as (w' & Hrun' & Hstep' & Hc' & Hl').
    exists w'. split; [rewrite (bind_returned _ _ _ _ _ Hrun); exact Hrun'|].
    split; [exact Hstep'|]. split; lia.
Qed.

Lemma ingest_ready raw wall clock interval start_time i w :
  ready w ->
  exists w',
    ingest raw wall clock interval start_time i w = (Returned tt, w') /\
    ready w' /\
    total_count w' = total_count w + 1 /\
    length (classification_times (self w'))
      = S (length (classification_times (self w))).
Proof.
  intros Hready.
  destruct (ingest_eq raw wall clock interval start_time i w Hready)
    as (artifact & tier & n & mw & e & c & E & Hn & Hrun).
  destruct Hready as [Hroomy Hcounts].
  eexists. split; [exact Hrun|].
  split; [split|split].
  - pose proof (run_op_roomy (Scalability.AddArtifact artifact tier)
                  _ Hroomy) as H.
    rewrite run_op_snd_add_artifact, E in H. cbn [snd] in H.
    unfold manager_world. cbn [self stdout resource_manager].
    destruct mw. exact H.
  - intros t. cbn [self tier_counts].
    destruct (decide (t = tier)) as [->|Hne];
      [rewrite lookup_insert_eq; eauto
      |rewrite lookup_insert_ne by congruence; apply Hcounts].
  - unfold total_count at 1. cbn [self tier_counts].
    rewrite (total_count_insert w tier n (n + 1) Hn). lia.
  - cbn [self classification_times]. rewrite length_app. cbn [length]. lia.
Qed.

Lemma ingest_from_ready raw wall clock interval start_time n : forall i w,
  ready w ->
  exists w',
    ingest_from raw wall clock interval start_time i n w = (Returned tt, w') /\
    ready w' /\
    total_count w' = total_count w + Z.of_nat n /\
    length (classification_times (self w'))
      = (length (classification_times (self w)) + n)%nat.
Proof.
  induction n as [|n IH]; intros i w Hready.
  - exists w. split; [reflexivity|]. split; [exact Hready|]. split; lia.
  - cbn [ingest_from].
    destruct (ingest_ready raw wall clock interval start_time i w Hready)
      as (w1 & Hrun & Hready1 & Hc1 & Hl1).
    destruct (IH (S i) w1 Hready1) as (w' & Hrun' & Hready' & Hc' & Hl').
    exists w'. split; [rewrite (bind_returned _ _ _ _ _ Hrun); exact Hrun'|].
    split; [exact Hready'|]. split; lia.
Qed.

Lemma fresh_in_step : in_step fresh.
Proof.
  split; [exact fresh_roomy|].
  intros []; exists 0, 0%Q; repeat split; try reflexivity; try discriminate.
Qed.

(** X11. The ingestion loop of [run_test] on a new tester never loses
    an artifact: after [n] passes the tier counts sum to [n], [n]
    classification times are recorded, and the usage of every tier is
    between 0.5 and 5 units per artifact counted for it, whatever the
    random values and clock readings. *)
Theorem every_artifact_is_placed_and_counted :
  forall (raw : nat -> nat) (wall : nat -> Z) (clock : nat -> Q)
         (interval start_time : Q) (n : nat),
    exists w,
      ingest_from raw wall clock interval start_time 0 n fresh
        = (Returned tt, w) /\
      total_count w = Z.of_nat n /\
      length (classification_times (self w)) = n /\
      forall t,
        exists count u,
          tier_counts (self w) !! t = Some count /\
          Scalability.usage (resource_manager (self w)) !! t = Some u /\
          0 <= count /\
          (0.5 * inject_Z count <= u <= 5 * inject_Z count)%Q.
Proof.
  intros raw wall clock interval start_time n.
  destruct (ingest_from_spec raw wall clock interval start_time n 0%nat fresh
              fresh_in_step) as (w & Hrun & [_ Hcounts] & Hc & Hl).
  exists w. split; [exact Hrun|]. split; [exact Hc|]. split; [exact Hl|].
  exact Hcounts.
Qed.

(** X21. [main] resets the counts after a scenario but keeps the resource
    manager, so the next scenario starts on tiers that are already in
    use.  Still no artifact is dropped: on a tester whose manager is as
    its own operations left it, after the reset a scenario of [n]
    artifacts returns with tier counts that sum to [n] and [n]
    classification times, and leaves the tester fit for the next
    scenario. *)
Theorem later_scenarios_place_every_artifact :
  forall (raw : nat -> nat) (wall : nat -> Z) (clock : nat -> Q)
         (interval start_time : Q) (n : nat) (w : world),
    ready w ->
    exists w1 w',
      reset_counts w = (Returned tt, w1) /\
      resource_manager (self w1) = resource_manager (self w) /\
      ingest_from raw wall clock interval start_time 0 n w1
        = (Returned tt, w') /\
      total_count w' = Z.of_nat n /\
      length (classification_times (self w')) = n /\
      ready w'.
Proof.
  intros raw wall clock interval start_time n w [Hroomy Hcounts].
  eexists. 
  assert (Hready : ready (reset_counts w).2).
  { split; [exact Hroomy|]. intros []; vm_compute; eauto. }
  destruct (ingest_from_ready raw wall clock interval start_time n 0%nat
              _ Hready) as (w' & Hrun & Hready' & Hc & Hl).
  exists w'. split; [reflexivity|]. split; [reflexivity|].
  split; [exact Hrun|]. split; [exact Hc|]. split; [exact Hl|exact Hready'].
Qed.

Lemma later_scenarios_place_every_artifact_witness :
  ready fresh /\
  exists w1 w',
    reset_counts fresh = (Returned tt, w1) /\
    resource_manager (self w1) = resource_manager (self fresh) /\
    ingest_from (fun _ => 0%nat) (fun _ => 0) (fun _ => 0%Q) 6 0 0 10 w1
      = (Returned tt, w') /\
    total_count w' = Z.of_nat 10 /\
    length (classification_times (self w')) = 10%nat /\
    ready w'.
Proof.
  assert (H : ready fresh) by (apply in_step_ready, fresh_in_step).
  exact (conj H (later_scenarios_place_every_artifact
                   (fun _ => 0%nat) (fun _ => 0) (fun _ => 0%Q) 6 0 10 fresh H)).
Defined.
End TesterProps.

(** ** The retrieval tester *)

Module DriverProps.
Import Driver RetrievalProps.

(** X17. [simulate_retrieval] reads the clock once, leaves the tier
    table and, when it is over, the request counter as they were, and
    turns every failure into a result with latency 0: an unknown
    artifact id and a tier without latency give a [KeyError] result, a
    backend at its limit the overload result; a retrieval that completes
    gives the latency that [retrieve_artifact] returned and no error.
    Only the cancellation of the sleep is not caught. *)
Theorem simulate_retrieval_outcome :
  forall clock artifact_id jitter fate (w : world),
    let r := simulate_retrieval clock artifact_id jitter fate w in
    let b := storage (self w) in
    time_reads r.2 = S (time_reads w) /\
    artifact_tiers (self r.2) = artifact_tiers (self w) /\
    Retrieval.current_requests (storage (self r.2))
      = Retrieval.current_requests b /\
    match artifact_tiers (self w) !! artifact_id with
    | None =>
        r.1 = Returned (artifact_id, 0%Q, Some KeyError) /\
        storage (self r.2) = b
    | Some tier =>
        if Retrieval.max_concurrent_requests b <=? Retrieval.current_requests b
        then r.1 = Returned (artifact_id, 0%Q, Some Retrieval.overloaded)
        else
          match Retrieval.latencies b !! tier, fate with
          | None, _ => r.1 = Returned (artifact_id, 0%Q, Some KeyError)
          | Some _, Retrieval.Elapsed =>
              exists latency,
                (Retrieval.retrieve_artifact artifact_id tier jitter fate b).1
                  = Returned latency /\
                r.1 = Returned (artifact_id, latency, None)
          | Some _, Retrieval.Cancelled => r.1 = Raised CancelledError
          end
    end.
Proof.
  intros clock artifact_id jitter fate w r b. subst r b.
  unfold simulate_retrieval, read_time, on_storage.
  cbv beta iota zeta delta [bind gets ret raise getitem].
  cbn [self time_reads artifact_tiers artifacts storage fst snd].
  destruct (artifact_tiers (self w) !! artifact_id) as [tier|] eqn:Ht;
    cbv beta iota zeta;
    cbn [self time_reads artifact_tiers artifacts storage fst snd is_Exception].
  - rewrite retrieve_artifact_eq.
    destruct (Retrieval.max_concurrent_requests (storage (self w))
              <=? Retrieval.current_requests (storage (self w))).
    + cbn. repeat split.
    + destruct (Retrieval.latencies (storage (self w)) !! tier);
        [destruct fate|]; cbn; repeat split; try reflexivity; try lia.
      eexists. split; reflexivity.
  - repeat split.
Qed.

(** *** The tier table *)

Lemma assign_tiers_spec clock artifacts : forall acc k,
  exists tiers,
    assign_tiers clock artifacts acc k
      = (Returned tiers, (k + length artifacts)%nat) /\
    (forall i a, artifacts !! i = Some a ->
       is_Some (tiers !! Retrieval.id a)) /\
    (forall x, x ∉ map Retrieval.id artifacts -> tiers !! x = acc !! x) /\
    (forall x tier, tiers !! x = Some tier ->
       acc !! x = Some tier \/
       exists i a,
         artifacts !! i = Some a /\ Retrieval.id a = x /\
         tier = Retrieval.classify_and_assign a (clock (k + i)%nat)) /\
    (NoDup (map Retrieval.id artifacts) ->
     forall i a, artifacts !! i = Some a ->
       tiers !! Retrieval.id a
         = Some (Retrieval.classify_and_assign a (clock (k + i)%nat))).
Proof.
  induction artifacts as [|a rest IH]; intros acc k.
  - exists acc. split; [cbn; unfold ret; f_equal; lia|].
    split; [intros i a H; discriminate|]. split; [auto|].
    split; [auto|]. intros _ i a H. discriminate.
  - cbn [assign_tiers]. unfold bind at 1.
    unfold classify_and_assign, time_time, bind, ret.
    destruct (IH (<[Retrieval.id a :=
                     Retrieval.classify_and_assign a (clock k)]> acc) (S k))
      as (tiers & Hrun & Hkeys & Hkeep & Hfrom & Hdistinct).
    exists tiers. split; [rewrite Hrun; f_equal; cbn [length]; lia|].
    assert (Hhead : Retrieval.id a ∉ map Retrieval.id rest ->
              tiers !! Retrieval.id a
                = Some (Retrieval.classify_and_assign a (clock k))).
    { intros Hn. rewrite (Hkeep _ Hn). apply lookup_insert_eq. }
    split; [|split; [|split]].
    + intros [|i] a' Hi.
      * injection Hi as <-.
        destruct (decide (Retrieval.id a ∈ map Retrieval.id rest)) as [Hin|Hn].
        -- apply list_elem_of_fmap in Hin as (a'' & Heq & Hin).
           apply list_elem_of_lookup in Hin as [j Hj].
           rewrite Heq. apply (Hkeys j a'' Hj).
        -- rewrite (Hhead Hn). eauto.
      * apply (Hkeys i a' Hi).
    + intros x Hx. cbn [map] in Hx. apply not_elem_of_cons in Hx as [Hne Hx].
      rewrite (Hkeep x Hx). apply lookup_insert_ne. congruence.
    + intros x tier Hx. destruct (Hfrom x tier Hx) as [Hacc|(i & a' & Hi & Hid & Ht)].
      * destruct (decide (Retrieval.id a = x)) as [<-|Hne].
        -- rewrite lookup_insert_eq in Hacc. injection Hacc as <-.
           right. exists 0%nat, a. split; [reflexivity|]. split; [reflexivity|].
           f_equal. f_equal. lia.
        -- rewrite lookup_insert_ne in Hacc by congruence. left. exact Hacc.
      * right. exists (S i), a'. split; [exact Hi|]. split; [exact Hid|].
        rewrite Ht. f_equal. f_equal. lia.
    + intros Hnd [|i] a' Hi; cbn [map] in Hnd; apply NoDup_cons in Hnd as [Hn Hnd].
      * injection Hi as <-. rewrite (Hhead Hn). f_equal. f_equal. f_equal. lia.
      * rewrite (Hdistinct Hnd i a' Hi). f_equal. f_equal. f_equal. lia.
Qed.

(** X18. [RetrievalPerformanceTester.__init__] gives every artifact a
    tier and nothing else an entry: each id of the list is a key of
    [artifact_tiers], each entry is the tier of an artifact with that id
    at its reading of the clock, and when ids are distinct each artifact
    has its own tier.  The clock is read once per artifact. *)
Theorem every_artifact_has_a_tier :
  forall (clock : nat -> Q) (artifacts : list Retrieval.Artifact) (k : nat),
    exists tester,
      new_tester clock artifacts k
        = (Returned tester, (k + length artifacts)%nat) /\
      storage tester = Retrieval.init /\
      (forall i a, artifacts !! i = Some a ->
         is_Some (artifact_tiers tester !! Retrieval.id a)) /\
      (forall x tier, artifact_tiers tester !! x = Some tier ->
         exists i a,
           artifacts !! i = Some a /\ Retrieval.id a = x /\
           tier = Retrieval.classify_and_assign a (clock (k + i)%nat)) /\
      (NoDup (map Retrieval.id artifacts) ->
       forall i a, artifacts !! i = Some a ->
         artifact_tiers tester !! Retrieval.id a
           = Some (Retrieval.classify_and_assign a (clock (k + i)%nat))).
Proof.
  intros clock artifacts k. unfold new_tester, bind, ret.
  destruct (assign_tiers_spec clock artifacts ∅ k)
    as (tiers & Hrun & Hkeys & _ & Hfrom & Hdistinct).
  rewrite Hrun. eexists. split; [reflexivity|]. cbn [storage artifact_tiers].
  split; [reflexivity|]. split; [exact Hkeys|]. split; [|exact Hdistinct].
  intros x tier Hx. destruct (Hfrom x tier Hx) as [Hacc|H]; [|exact H].
  rewrite lookup_empty in Hacc. discriminate.
Qed.

(** *** The result loop *)

Lemma tier_count_insert t tier tl latency tier' :
  tier_latencies t !! tier = Some tl ->
  tier_count {| errors := errors t;
                latencies := latencies t ++ [latency];
                tier_latencies := <[tier := tl ++ [latency]]> (tier_latencies t) |}
             tier'
  = tier_count t tier' + (if decide (tier' = tier) then 1 else 0).
Proof.
  intros H. unfold tier_count. cbn [tier_latencies].
  case_decide as E.
  - subst tier'. rewrite lookup_insert_eq, H. cbn.
    rewrite length_app. cbn [length]. lia.
  - rewrite lookup_insert_ne by congruence. lia.
Qed.

Lemma process_results_spec tiers completed : forall t,
  balanced t ->
  (forall artifact_id latency,
     (artifact_id, latency, None) ∈ completed ->
     is_Some (tiers !! artifact_id)) ->
  exists t',
    process_results tiers completed t = (Returned tt, t') /\
    balanced t' /\
    errors t' = errors t + failed completed /\
    Z.of_nat (length (latencies t'))
      = Z.of_nat (length (latencies t)) + succeeded completed.
Proof.
  induction completed as [|[[artifact_id latency] error] rest IH];
    intros t Hb Hknown.
  - exists t. split; [reflexivity|]. split; [exact Hb|].
    unfold failed, succeeded. cbn. lia.
  - assert (Hrest : forall a l, (a, l, None) ∈ rest -> is_Some (tiers !! a))
      by (intros a l Hin; apply (Hknown a l); right; exact Hin).
    cbn [process_results]. destruct error as [e|].
    + unfold bind at 1. unfold count_error, modify.
      destruct (IH {| errors := errors t + 1; latencies := latencies t;
                      tier_latencies := tier_latencies t |}) as (t' & Hrun & Hb' & He & Hl);
        [exact Hb|exact Hrest|].
      exists t'. split; [exact Hrun|]. split; [exact Hb'|].
      cbn [errors latencies] in He, Hl.
      unfold failed, succeeded in *.
      rewrite filter_cons_True by (cbn; eauto).
      rewrite (filter_cons_False (fun entry : result => entry.2 = None))
        by (cbn; discriminate).
      cbn [length]. lia.
    + destruct (Hknown artifact_id latency) as [tier Htier]; [left|].
      destruct Hb as [Hall Hsum].
      destruct (Hall tier) as [tl Htl].
      unfold bind at 1. unfold bind at 1. unfold record_latency, modify.
      unfold bind at 1. unfold getitem. rewrite Htier. unfold ret at 1.
      unfold record_tier_latency, bind, gets, getitem, modify.
      cbn [tier_latencies]. rewrite Htl. unfold ret.
      cbn [errors latencies tier_latencies].
      destruct (IH {| errors := errors t; latencies := latencies t ++ [latency];
                      tier_latencies := <[tier := tl ++ [latency]]> (tier_latencies t) |})
        as (t' & Hrun & Hb' & He & Hl); [| exact Hrest |].
      * split.
        -- intros tier'. cbn [tier_latencies].
           destruct (decide (tier' = tier)) as [->|Hne];
             [rewrite lookup_insert_eq; eauto
             |rewrite lookup_insert_ne by congruence; apply Hall].
        -- rewrite !(tier_count_insert t tier tl latency) by exact Htl.
           cbn [latencies]. rewrite length_app. cbn [length].
           destruct tier; repeat case_decide; try congruence; lia.
      * exists t'. split; [exact Hrun|]. split; [exact Hb'|].
        cbn [errors latencies] in He, Hl. rewrite length_app in Hl.
        cbn [length] in Hl.
        unfold failed, succeeded in *.
        rewrite filter_cons_False by (cbn; intros [? ?]; discriminate).
        rewrite (filter_cons_True (fun entry : result => entry.2 = None))
          by reflexivity.
        cbn [length]. lia.
Qed.

Lemma failed_succeeded completed :
  failed completed + succeeded completed = Z.of_nat (length completed).
Proof.
  unfold failed, succeeded.
  induction completed as [|[[a l] [e|]] rest IH]; [reflexivity| |].
  - rewrite filter_cons_True by (cbn; eauto).
    rewrite (filter_cons_False (fun entry : result => entry.2 = None))
      by (cbn; discriminate).
    cbn [length]. lia.
  - rewrite filter_cons_False by (cbn; intros [? ?]; discriminate).
    rewrite (filter_cons_True (fun entry : result => entry.2 = None))
      by reflexivity.
    cbn [length]. lia.
Qed.

Lemma no_results_balanced : balanced no_results.
Proof. split; [intros []; vm_compute; eauto|reflexivity]. Qed.

(** X19. The result loop of [run_test], when every successful result
    names an artifact of the tier table: each result is counted once, as
    an error or as a latency; the per-tier counts sum to the number of
    latencies; the error rate over the number of results lies in
    [0, 1]. *)
Theorem results_are_all_counted :
  forall (tiers : gmap string StorageTier.t) (completed : list result),
    (forall artifact_id latency,
       (artifact_id, latency, None) ∈ completed ->
       is_Some (tiers !! artifact_id)) ->
    exists t,
      process_results tiers completed no_results = (Returned tt, t) /\
      errors t = failed completed /\
      errors t + Z.of_nat (length (latencies t))
        = Z.of_nat (length completed) /\
      tier_count t StorageTier.HOT + tier_count t StorageTier.WARM
        + tier_count t StorageTier.COLD
      = Z.of_nat (length (latencies t)) /\
      (0 <= error_rate t (Z.of_nat (length completed)) <= 1)%Q.
Proof.
  intros tiers completed Hknown.
  destruct (process_results_spec tiers completed no_results
              no_results_balanced Hknown) as (t & Hrun & [_ Hsum] & He & Hl).
  pose proof (failed_succeeded completed) as Hfs.
  cbn [errors latencies no_results length] in He, Hl.
  exists t. split; [exact Hrun|]. split; [lia|]. split; [lia|].
  split; [exact Hsum|].
  unfold error_rate.
  assert (H0 : 0 <= errors t) by (rewrite He; unfold failed; lia).
  destruct (Z.ltb_spec 0 (Z.of_nat (length completed))) as [Hpos|Hz];
    [|split; discriminate].
  assert (Hle : errors t <= Z.of_nat (length completed)) by lia.
  assert (Hq : (0 < inject_Z (Z.of_nat (length completed)))%Q)
    by (change 0%Q with (inject_Z 0); rewrite <- Zlt_Qlt; exact Hpos).
  split.
  - apply Qle_shift_div_l; [exact Hq|].
    rewrite Qmult_0_l. change 0%Q with (inject_Z 0). rewrite <- Zle_Qle. exact H0.
  - apply Qle_shift_div_r; [exact Hq|].
    rewrite Qmult_1_l. rewrite <- Zle_Qle. exact Hle.
Qed.

Lemma results_are_all_counted_witness :
  (forall artifact_id latency,
     (artifact_id, latency, None)
       ∈ [("A0000", 0.010%Q, @None exn);
          ("A0001", 0%Q, Some Retrieval.overloaded)] ->
     is_Some (({[ "A0000" := StorageTier.HOT ]}
                 : gmap string StorageTier.t) !! artifact_id)) /\
  exists t,
    process_results {[ "A0000" := StorageTier.HOT ]}
      [("A0000", 0.010%Q, None); ("A0001", 0%Q, Some Retrieval.overloaded)]
      no_results = (Returned tt, t) /\
    errors t = 1 /\ length (latencies t) = 1%nat.
Proof.
  assert (Hknown : forall artifact_id latency,
            (artifact_id, latency, None)
              ∈ [("A0000", 0.010%Q, @None exn);
                 ("A0001", 0%Q, Some Retrieval.overloaded)] ->
            is_Some (({[ "A0000" := StorageTier.HOT ]}
                        : gmap string StorageTier.t) !! artifact_id)).
  { intros artifact_id latency Hin. set_unfold.
    destruct Hin as [H|[H|[]]]; [|discriminate H].
    injection H as -> _. rewrite lookup_singleton_eq. eauto. }
  split; [exact Hknown|].
  destruct (results_are_all_counted _ _ Hknown) as (t & Hrun & He & Hsum & _).
  exists t. split; [exact Hrun|]. split; [exact He|].
  cbn [length] in Hsum. change (failed _) with 1 in He. lia.
Defined.
End DriverProps.
